(** * Run log, session store and streaming protocol of the RLM chat backend

    A shallow embedding of [backend/services/session_service.py],
    [backend/services/progress_emitter.py], [backend/services/rlm_service.py],
    [backend/config.py] and the event generator of
    [backend/api/routes/chat.py], followed by the properties proved about
    them.

    Conventions.
    - Python objects that the code treats dynamically (message dicts, event
      dicts, the persisted record) are values of [pyval]; a [dict] is an
      association list in insertion order with unique keys, as in Python.
    - A Python [str] is a [string]; its characters are code points below 256.
    - [datetime.utcnow()] is a clock reading passed in as an argument.
    - A raised exception is the [Raise] branch of [fallible]. *)

From Stdlib Require Import ZArith Lia List String Ascii Bool Arith.
From stdpp Require Import base option list strings gmap sorting.
Import ListNotations.

Set Warnings "-register-all".

Local Open Scope Z_scope.

(* ===================================================================== *)
(** * Python values                                                       *)
(* ===================================================================== *)

Module Py.

(** Exceptions the modelled code can raise. *)
Inductive exn :=
| KeyError (key : string)
| ValueError (msg : string)
| TypeError (msg : string).

Inductive fallible (A : Type) :=
| Ok (a : A)
| Raise (e : exn).
Arguments Ok {A} a.
Arguments Raise {A} e.

Definition bind {A B} (m : fallible A) (k : A → fallible B) : fallible B :=
  match m with
  | Ok a => k a
  | Raise e => Raise e
  end.

#[global] Instance fallible_ret : MRet fallible := λ _ a, Ok a.
#[global] Instance fallible_bind : MBind fallible := λ _ _ k m, bind m k.

(** A list comprehension whose body can raise. *)
Fixpoint mapM {A B} (f : A → fallible B) (l : list A) : fallible (list B) :=
  match l with
  | [] => Ok []
  | x :: r => y ← f x; ys ← mapM f r; Ok (y :: ys)
  end.

(** ** Naive datetimes ([datetime.utcnow()] yields no tzinfo) *)

Record datetime := mk_datetime {
  year : Z; month : Z; day : Z;
  hour : Z; minute : Z; second : Z; microsecond : Z
}.

Definition is_leap (y : Z) : bool :=
  (y mod 4 =? 0) && (negb (y mod 100 =? 0) || (y mod 400 =? 0)).

Definition days_in_month (y m : Z) : Z :=
  if m =? 2 then (if is_leap y then 29 else 28)
  else if (m =? 4) || (m =? 6) || (m =? 9) || (m =? 11) then 30
  else 31.

(** The range checks of the [datetime] constructor. *)
Definition valid_datetime (d : datetime) : bool :=
  (1 <=? year d) && (year d <=? 9999)
  && (1 <=? month d) && (month d <=? 12)
  && (1 <=? day d) && (day d <=? days_in_month (year d) (month d))
  && (0 <=? hour d) && (hour d <=? 23)
  && (0 <=? minute d) && (minute d <=? 59)
  && (0 <=? second d) && (second d <=? 59)
  && (0 <=? microsecond d) && (microsecond d <=? 999999).

(** Field-wise lexicographic comparison, as [datetime.__le__]. *)
Definition fields (d : datetime) : list Z :=
  [year d; month d; day d; hour d; minute d; second d; microsecond d].

Fixpoint lex_leb (a b : list Z) : bool :=
  match a, b with
  | [], _ => true
  | _ :: _, [] => false
  | x :: a', y :: b' => (x <? y) || ((x =? y) && lex_leb a' b')
  end.

Definition dt_leb (a b : datetime) : bool := lex_leb (fields a) (fields b).

(** ** [datetime.isoformat()]

    ["%04d-%02d-%02dT%02d:%02d:%02d"], followed by [".%06d"] when the
    microsecond field is not zero.  The zero-padded printers below are the
    [%0Nd] conversions on the ranges [valid_datetime] allows. *)

Definition digit_char (d : Z) : ascii := ascii_of_nat (Z.to_nat (48 + d)).

Definition pad2 (n : Z) : list ascii :=
  [digit_char (n / 10); digit_char (n mod 10)].

Definition pad4 (n : Z) : list ascii := pad2 (n / 100) ++ pad2 (n mod 100).

Definition pad6 (n : Z) : list ascii := pad2 (n / 10000) ++ pad4 (n mod 10000).

Definition isoformat_chars (d : datetime) : list ascii :=
  pad4 (year d) ++ "-"%char :: pad2 (month d) ++ "-"%char :: pad2 (day d)
  ++ "T"%char :: pad2 (hour d) ++ ":"%char :: pad2 (minute d)
  ++ ":"%char :: pad2 (second d)
  ++ (if microsecond d =? 0 then [] else "."%char :: pad6 (microsecond d)).

Definition isoformat (d : datetime) : string :=
  string_of_list_ascii (isoformat_chars d).

(** ** [datetime.fromisoformat]

    The parser accepts the two shapes [isoformat] prints for a naive
    datetime, [YYYY-MM-DDTHH:MM:SS] and [YYYY-MM-DDTHH:MM:SS.ffffff], and
    applies the constructor's range checks; any other text is a
    [ValueError]. *)

Definition digit_val (c : ascii) : option Z :=
  let n := Z.of_nat (nat_of_ascii c) in
  if (48 <=? n) && (n <=? 57) then Some (n - 48) else None.

Definition take2 (l : list ascii) : option (Z * list ascii) :=
  match l with
  | a :: b :: r =>
      da ← digit_val a; db ← digit_val b; Some (10 * da + db, r)
  | _ => None
  end.

Definition expect (c : ascii) (l : list ascii) : option (list ascii) :=
  match l with
  | x :: r => if Ascii.eqb x c then Some r else None
  | [] => None
  end.

Definition parse_fraction (l : list ascii) : option Z :=
  match l with
  | [] => Some 0
  | _ =>
      l ← expect "."%char l;
      '(a, l) ← take2 l;
      '(b, l) ← take2 l;
      '(c, l) ← take2 l;
      match l with
      | [] => Some (a * 10000 + (b * 100 + c))
      | _ => None
      end
  end.

Definition fromisoformat_chars (l : list ascii) : option datetime :=
  '(y1, l) ← take2 l;
  '(y2, l) ← take2 l;
  l ← expect "-"%char l;
  '(mo, l) ← take2 l;
  l ← expect "-"%char l;
  '(dd, l) ← take2 l;
  l ← expect "T"%char l;
  '(hh, l) ← take2 l;
  l ← expect ":"%char l;
  '(mi, l) ← take2 l;
  l ← expect ":"%char l;
  '(ss, l) ← take2 l;
  us ← parse_fraction l;
  let d := mk_datetime (y1 * 100 + y2) mo dd hh mi ss us in
  if valid_datetime d then Some d else None.

Definition fromisoformat (s : string) : fallible datetime :=
  match fromisoformat_chars (list_ascii_of_string s) with
  | Some d => Ok d
  | None => Raise (ValueError ("Invalid isoformat string: " ++ s))
  end.

(** ** Dynamic values and dicts *)

Inductive pyval :=
| PNone
| PBool (b : bool)
| PInt (z : Z)
| PStr (s : string)
| PDatetime (d : datetime)
| PList (l : list pyval)
| PDict (d : list (string * pyval)).

Definition pydict := list (string * pyval).

(** [d.get(k)] *)
Fixpoint dict_get (k : string) (d : pydict) : option pyval :=
  match d with
  | [] => None
  | (k', v) :: r => if String.eqb k k' then Some v else dict_get k r
  end.

(** [d[k]] *)
Definition dict_index (k : string) (d : pydict) : fallible pyval :=
  match dict_get k d with
  | Some v => Ok v
  | None => Raise (KeyError k)
  end.

(** [d[k] = v]: an existing key keeps its position, a new one goes last. *)
Fixpoint dict_set (k : string) (v : pyval) (d : pydict) : pydict :=
  match d with
  | [] => [(k, v)]
  | (k', v') :: r =>
      if String.eqb k k' then (k, v) :: r else (k', v') :: dict_set k v r
  end.

(** [{**d, **extra}] *)
Definition dict_update (d extra : pydict) : pydict :=
  fold_left (λ acc kv, dict_set kv.1 kv.2 acc) extra d.

(** Truthiness of a value in a condition ([if x:], [x or y]). *)
Definition truthy (v : pyval) : bool :=
  match v with
  | PNone => false
  | PBool b => b
  | PInt z => negb (z =? 0)
  | PStr s => negb (String.eqb s "")
  | PDatetime _ => true
  | PList l => match l with [] => false | _ => true end
  | PDict d => match d with [] => false | _ => true end
  end.

End Py.

Import Py.


(* ===================================================================== *)
(** * backend/config.py                                                   *)
(* ===================================================================== *)

Module Config.

Record Settings := {
  anthropic_api_key : string;
  openai_api_key : string;
  anthropic_base_url : option string;
  anthropic_auth_token : option string
}.

(** Truthiness of a [str] and of a [str | None]. *)
Definition str_truthy (s : string) : bool := negb (String.eqb s "").

Definition opt_truthy (o : option string) : bool :=
  match o with
  | Some s => str_truthy s
  | None => false
  end.

Definition validate_api_key (self : Settings) (provider : string) : bool :=
  if String.eqb provider "openai" then
    str_truthy (openai_api_key self)
    && negb (String.eqb (openai_api_key self) "your-api-key-here")
  else
    let has_direct_key :=
      str_truthy (anthropic_api_key self)
      && negb (String.eqb (anthropic_api_key self) "your-api-key-here") in
    let has_proxy_config :=
      opt_truthy (anthropic_base_url self)
      && opt_truthy (anthropic_auth_token self) in
    has_direct_key || has_proxy_config.

(** The [id] and [provider] entries of [AVAILABLE_MODELS]. *)
Definition AVAILABLE_MODELS : list (string * string) :=
  [ ("claude-sonnet-4-5-20250929", "anthropic");
    ("claude-opus-4-5-20251101", "anthropic");
    ("gpt-5.2-2025-12-11", "openai");
    ("gpt-5-mini", "openai");
    ("gpt-5-nano-2025-08-07", "openai") ]%string.

Fixpoint find_provider (models : list (string * string)) (model_id : string)
  : string :=
  match models with
  | [] => "anthropic"
  | (id, provider) :: rest =>
      if String.eqb id model_id then provider else find_provider rest model_id
  end.

Definition get_model_provider (model_id : string) : string :=
  find_provider AVAILABLE_MODELS model_id.

(** [Settings.get_anthropic_config]: the proxy's virtual key and URL when
    both are set, the direct key otherwise. *)
Definition get_anthropic_config (self : Settings) : pydict :=
  match anthropic_base_url self, anthropic_auth_token self with
  | Some url, Some token =>
      if str_truthy url && str_truthy token
      then [("api_key", PStr token); ("base_url", PStr url)]%string
      else [("api_key", PStr (anthropic_api_key self))]%string
  | _, _ => [("api_key", PStr (anthropic_api_key self))]%string
  end.

(** [[m["id"] for m in AVAILABLE_MODELS]] *)
Definition valid_model_ids : list string := map fst AVAILABLE_MODELS.

(** [model_id in valid_model_ids] *)
Definition is_valid_model (model_id : string) : bool :=
  existsb (String.eqb model_id) valid_model_ids.

End Config.

(* ===================================================================== *)
(** * Python [str] operations used by the title derivation               *)
(* ===================================================================== *)

Module Str.

(** [str.isspace] on code points below 256. *)
Definition is_space (c : ascii) : bool :=
  let n := nat_of_ascii c in
  ((9 <=? n) && (n <=? 13) || (28 <=? n) && (n <=? 32)
   || (n =? 133) || (n =? 160))%nat.

Fixpoint lstrip_chars (l : list ascii) : list ascii :=
  match l with
  | c :: r => if is_space c then lstrip_chars r else l
  | [] => []
  end.

Definition strip_chars (l : list ascii) : list ascii :=
  rev (lstrip_chars (rev (lstrip_chars l))).

(** [s.strip()] *)
Definition strip (s : string) : string :=
  string_of_list_ascii (strip_chars (list_ascii_of_string s)).

(** [s[:n]] for [n >= 0] *)
Definition prefix_to (n : nat) (s : string) : string :=
  string_of_list_ascii (take n (list_ascii_of_string s)).

(** The text before the last space of [l], if [l] has a space. *)
Fixpoint before_last_space (l : list ascii) : option (list ascii) :=
  match l with
  | [] => None
  | c :: r =>
      match before_last_space r with
      | Some h => Some (c :: h)
      | None => if Ascii.eqb c " " then Some [] else None
      end
  end.

(** [s.rsplit(" ", 1)[0]]: the text before the last space, or all of [s]
    when it has no space. *)
Definition rsplit1_head (s : string) : string :=
  match before_last_space (list_ascii_of_string s) with
  | Some h => string_of_list_ascii h
  | None => s
  end.

End Str.

(* ===================================================================== *)
(** * backend/services/session_service.py                                 *)
(* ===================================================================== *)

Module Session.

Import Str.

(** The live worker ([RLM]) instance attached to a session.  Its [close()]
    may raise; [handle_id] identifies the instance in the teardown log. *)
Record RlmHandle := {
  handle_id : nat;
  close_raises : bool
}.

(** ** ChatSession *)

Record ChatSession := {
  session_id : string;
  model_id : string;
  document_ids : list string;
  title : option string;
  status : string;
  created_at : datetime;
  ended_at : option datetime;
  messages : list pydict;
  progress_events : pydict;
  rlm_instance : option RlmHandle
}.

(** [ChatSession.__init__] *)
Definition new_session (session_id model_id : string)
    (document_ids : list string) (title : option string) (status : string)
    (created_at ended_at : option datetime) (messages : option (list pydict))
    (progress_events : option pydict) (now : datetime) : ChatSession :=
  {| session_id := session_id;
     model_id := model_id;
     document_ids := document_ids;
     title := title;
     status := status;
     created_at := default now created_at;
     ended_at := ended_at;
     messages := default [] messages;
     progress_events := default [] progress_events;
     rlm_instance := None |}.

(** Attribute assignments [self.x = v]. *)
Definition set_model_id (s : ChatSession) (v : string) : ChatSession :=
  {| session_id := session_id s; model_id := v;
     document_ids := document_ids s; title := title s; status := status s;
     created_at := created_at s; ended_at := ended_at s;
     messages := messages s; progress_events := progress_events s;
     rlm_instance := rlm_instance s |}.

Definition set_title (s : ChatSession) (v : option string) : ChatSession :=
  {| session_id := session_id s; model_id := model_id s;
     document_ids := document_ids s; title := v; status := status s;
     created_at := created_at s; ended_at := ended_at s;
     messages := messages s; progress_events := progress_events s;
     rlm_instance := rlm_instance s |}.

Definition set_status (s : ChatSession) (v : string) : ChatSession :=
  {| session_id := session_id s; model_id := model_id s;
     document_ids := document_ids s; title := title s; status := v;
     created_at := created_at s; ended_at := ended_at s;
     messages := messages s; progress_events := progress_events s;
     rlm_instance := rlm_instance s |}.

Definition set_ended_at (s : ChatSession) (v : option datetime) : ChatSession :=
  {| session_id := session_id s; model_id := model_id s;
     document_ids := document_ids s; title := title s; status := status s;
     created_at := created_at s; ended_at := v;
     messages := messages s; progress_events := progress_events s;
     rlm_instance := rlm_instance s |}.

Definition set_messages (s : ChatSession) (v : list pydict) : ChatSession :=
  {| session_id := session_id s; model_id := model_id s;
     document_ids := document_ids s; title := title s; status := status s;
     created_at := created_at s; ended_at := ended_at s;
     messages := v; progress_events := progress_events s;
     rlm_instance := rlm_instance s |}.

Definition set_progress_events (s : ChatSession) (v : pydict) : ChatSession :=
  {| session_id := session_id s; model_id := model_id s;
     document_ids := document_ids s; title := title s; status := status s;
     created_at := created_at s; ended_at := ended_at s;
     messages := messages s; progress_events := v;
     rlm_instance := rlm_instance s |}.

Definition set_rlm_instance (s : ChatSession) (v : option RlmHandle)
  : ChatSession :=
  {| session_id := session_id s; model_id := model_id s;
     document_ids := document_ids s; title := title s; status := status s;
     created_at := created_at s; ended_at := ended_at s;
     messages := messages s; progress_events := progress_events s;
     rlm_instance := v |}.

(** [ChatSession._generate_title] *)
Definition _generate_title (content : string) : string :=
  let title := strip content in
  if (50 <? String.length title)%nat then
    let title := rsplit1_head (prefix_to 50 title) in
    let title :=
      if (String.length title <? 20)%nat then prefix_to 50 content
      else title in
    (title ++ "...")%string
  else title.

(** [ChatSession.add_message]; [now] is the reading of [datetime.utcnow()].
    Returns the updated session and the message dict. *)
Definition add_message (self : ChatSession) (role content : string)
    (run_id : option string) (now : datetime) : ChatSession * pydict :=
  let message : pydict :=
    [("role", PStr role); ("content", PStr content);
     ("timestamp", PDatetime now)]%string in
  let message :=
    match run_id with
    | Some r =>
        if Config.str_truthy r then dict_set "run_id" (PStr r) message
        else message
    | None => message
    end in
  let self := set_messages self (messages self ++ [message]) in
  let self :=
    match title self with
    | None =>
        if String.eqb role "user"
        then set_title self (Some (_generate_title content))
        else self
    | Some _ => self
    end in
  (self, message).

(** [ChatSession.add_progress_events] *)
Definition add_progress_events (self : ChatSession) (run_id : string)
    (events : list pydict) : ChatSession :=
  set_progress_events self
    (dict_set run_id (PList (map PDict events)) (progress_events self)).

(** [ChatSession.get_progress_events]: [self.progress_events.get(run_id, [])] *)
Definition get_progress_events (self : ChatSession) (run_id : string) : pyval :=
  default (PList []) (dict_get run_id (progress_events self)).

(** ** Persistence record *)

Definition opt_str (o : option string) : pyval :=
  match o with
  | Some s => PStr s
  | None => PNone
  end.

(** One element of the [messages] comprehension of [to_persist_dict]. *)
Definition persist_message (msg : pydict) : fallible pydict :=
  ts ← dict_index "timestamp" msg;
  Ok (dict_set "timestamp"
        (match ts with
         | PDatetime d => PStr (isoformat d)
         | v => v
         end) msg).

(** [ChatSession.to_persist_dict] *)
Definition to_persist_dict (self : ChatSession) : fallible pydict :=
  msgs ← mapM persist_message (messages self);
  Ok [ ("session_id", PStr (session_id self));
       ("model_id", PStr (model_id self));
       ("document_ids", PList (map PStr (document_ids self)));
       ("title", opt_str (title self));
       ("status", PStr (status self));
       ("created_at", PStr (isoformat (created_at self)));
       ("ended_at", match ended_at self with
                    | Some d => PStr (isoformat d)
                    | None => PNone
                    end);
       ("messages", PList (map PDict msgs));
       ("progress_events", PDict (progress_events self)) ]%string.

(** One element of the [messages] comprehension of [from_persist_dict]. *)
Definition restore_message (msg : pydict) : fallible pydict :=
  ts ← dict_index "timestamp" msg;
  v ← match ts with
      | PStr s => d ← fromisoformat s; Ok (PDatetime d)
      | v => Ok v
      end;
  Ok (dict_set "timestamp" v msg).

(** The record's fields have the types of the constructor's annotations.  A
    persisted value of another type, which Python would store unchecked, is
    reported here as a [TypeError] naming the field. *)
Definition as_str (field : string) (v : pyval) : fallible string :=
  match v with
  | PStr s => Ok s
  | _ => Raise (TypeError field)
  end.

(** Iterating [data.get("messages", [])] and spreading each element with
    [**msg]: the elements must be dicts; an empty [str] or [dict] iterates to
    nothing. *)
Definition iter_dicts (v : pyval) : fallible (list pydict) :=
  match v with
  | PList l =>
      mapM (λ x, match x with
                 | PDict d => Ok d
                 | _ => Raise (TypeError "messages")
                 end) l
  | PStr EmptyString => Ok []
  | PDict [] => Ok []
  | _ => Raise (TypeError "messages")
  end.

(** [ChatSession.from_persist_dict]; [now] is read only when the record's
    [created_at] is falsy. *)
Definition from_persist_dict (data : pydict) (now : datetime)
  : fallible ChatSession :=
  raw ← iter_dicts (default (PList []) (dict_get "messages" data));
  msgs ← mapM restore_message raw;
  sid ← dict_index "session_id" data;
  sid ← as_str "session_id" sid;
  mid ← dict_index "model_id" data;
  mid ← as_str "model_id" mid;
  docs ← dict_index "document_ids" data;
  docs ← match docs with
         | PList l => mapM (as_str "document_ids") l
         | _ => Raise (TypeError "document_ids")
         end;
  ttl ← match dict_get "title" data with
        | None | Some PNone => Ok None
        | Some (PStr s) => Ok (Some s)
        | Some _ => Raise (TypeError "title")
        end;
  sts ← match dict_get "status" data with
        | None => Ok "ended"%string
        | Some v => as_str "status" v
        end;
  created ← dict_index "created_at" data;
  created ← match created with
            | PStr s => d ← fromisoformat s; Ok (Some d)
            | PDatetime d => Ok (Some d)
            | v => if truthy v then Raise (TypeError "created_at") else Ok None
            end;
  ended ← match dict_get "ended_at" data with
          | Some v =>
              if truthy v then
                match v with
                | PStr s => d ← fromisoformat s; Ok (Some d)
                | _ => Raise (TypeError "fromisoformat: argument must be str")
                end
              else Ok None
          | None => Ok None
          end;
  events ← match dict_get "progress_events" data with
           | None => Ok []
           | Some (PDict d) => Ok d
           | Some v =>
               if truthy v then Raise (TypeError "progress_events") else Ok []
           end;
  Ok (new_session sid mid docs ttl sts created ended (Some msgs) (Some events)
        now).

(** ** RunState *)

Record RunState := {
  run_id : string;
  run_session_id : string;
  message : string;
  started_at : datetime;
  completed : bool;
  error : option string;
  result : option string;
  _events : list pydict
}.

(** [RunState.__init__] *)
Definition new_run (run_id session_id message : string) (now : datetime)
  : RunState :=
  {| run_id := run_id; run_session_id := session_id; message := message;
     started_at := now; completed := false; error := None; result := None;
     _events := [] |}.

(** [RunState.add_event] *)
Definition add_event (self : RunState) (event : pydict) : RunState :=
  {| run_id := run_id self; run_session_id := run_session_id self;
     message := message self; started_at := started_at self;
     completed := completed self; error := error self;
     result := result self;
     _events := _events self ++ [event] |}.

(** The slice [l[start:]], a negative [start] counting from the end. *)
Definition slice_from {A} (start : Z) (l : list A) : list A :=
  if start <? 0
  then drop (Z.to_nat (Z.max 0 (Z.of_nat (length l) + start))) l
  else drop (Z.to_nat start) l.

(** [RunState.get_events] *)
Definition get_events (self : RunState) (start_index : Z) : list pydict :=
  slice_from start_index (_events self).

(** [RunState.get_event_count] *)
Definition get_event_count (self : RunState) : nat := length (_events self).

(** The three assignments of [complete_run] on the run object. *)
Definition mark_completed (self : RunState) (result error : option string)
  : RunState :=
  {| run_id := run_id self; run_session_id := run_session_id self;
     message := message self; started_at := started_at self;
     completed := true; error := error; result := result;
     _events := _events self |}.

(** ** SessionService *)

(** A session file under [data/sessions]: the JSON document it parses to, or
    a file left incomplete by a write that raised after [open(path, "w")]. *)
Inductive file_content :=
| FileJson (data : pydict)
| FileTorn.

(** [_sessions] and [_runs] hold the registered objects; a reference to a
    registered object is its key.  [files] is the sessions directory keyed by
    session id, [closed] the worker instances whose [close()] was called,
    oldest first. *)
Record SessionService := {
  _sessions : gmap string ChatSession;
  _runs : gmap string RunState;
  files : gmap string file_content;
  closed : list nat
}.

Definition with_sessions (self : SessionService)
    (v : gmap string ChatSession) : SessionService :=
  {| _sessions := v; _runs := _runs self; files := files self;
     closed := closed self |}.

Definition with_runs (self : SessionService) (v : gmap string RunState)
  : SessionService :=
  {| _sessions := _sessions self; _runs := v; files := files self;
     closed := closed self |}.

Definition with_files (self : SessionService)
    (v : gmap string file_content) : SessionService :=
  {| _sessions := _sessions self; _runs := _runs self; files := v;
     closed := closed self |}.

Definition with_closed (self : SessionService) (v : list nat)
  : SessionService :=
  {| _sessions := _sessions self; _runs := _runs self; files := files self;
     closed := v |}.

(** What [json.dump] accepts: everything but a [datetime]. *)
Fixpoint json_ok (v : pyval) : bool :=
  match v with
  | PDatetime _ => false
  | PList l => forallb json_ok l
  | PDict d => forallb (λ kv, json_ok (snd kv)) d
  | _ => true
  end.

(** [SessionService._persist_session].  The file is opened for writing
    before the record is built, so a raise leaves it incomplete. *)
Definition _persist_session (session : ChatSession) (self : SessionService)
  : fallible unit * SessionService :=
  let path := session_id session in
  match to_persist_dict session with
  | Ok data =>
      if json_ok (PDict data)
      then (Ok tt, with_files self (<[path := FileJson data]> (files self)))
      else (Raise (TypeError "Object of type datetime is not JSON serializable"),
            with_files self (<[path := FileTorn]> (files self)))
  | Raise e => (Raise e, with_files self (<[path := FileTorn]> (files self)))
  end.

(** [SessionService._delete_persisted_session] *)
Definition _delete_persisted_session (session_id : string)
    (self : SessionService) : SessionService :=
  with_files self (delete session_id (files self)).

(** [try: session.rlm_instance.close() except Exception: pass], guarded by
    [if session.rlm_instance:].  The call is logged whether or not it
    raises. *)
Definition close_instance (session : ChatSession) (closed : list nat)
  : list nat :=
  match rlm_instance session with
  | Some h => closed ++ [handle_id h]
  | None => closed
  end.

(** [SessionService.create_session]; [fresh] is [str(uuid.uuid4())]. *)
Definition create_session (fresh model_id : string)
    (document_ids : list string) (now : datetime) (self : SessionService)
  : fallible ChatSession * SessionService :=
  let session :=
    new_session fresh model_id document_ids None "active" None None None None
      now in
  let self := with_sessions self (<[fresh := session]> (_sessions self)) in
  let '(r, self) := _persist_session session self in
  (_ ← r; Ok session, self).

(** [SessionService.get_session] *)
Definition get_session (self : SessionService) (session_id : string)
  : option ChatSession :=
  _sessions self !! session_id.

(** [SessionService.end_session].  The session object is updated in place,
    so the registry entry changes with it. *)
Definition end_session (session_id : string) (now : datetime)
    (self : SessionService) : fallible bool * SessionService :=
  match _sessions self !! session_id with
  | None => (Ok false, self)
  | Some session =>
      let self := with_closed self (close_instance session (closed self)) in
      let session :=
        match rlm_instance session with
        | Some _ => set_rlm_instance session None
        | None => session
        end in
      if (length (messages session) =? 0)%nat then
        let self :=
          with_sessions self (delete session_id (_sessions self)) in
        (Ok true, _delete_persisted_session session_id self)
      else
        let session := set_ended_at (set_status session "ended") (Some now) in
        let self :=
          with_sessions self (<[session_id := session]> (_sessions self)) in
        let '(r, self) := _persist_session session self in
        (_ ← r; Ok true, self)
  end.

(** [SessionService.delete_session] *)
Definition delete_session (session_id : string) (self : SessionService)
  : bool * SessionService :=
  match _sessions self !! session_id with
  | None => (false, self)
  | Some session =>
      let self := with_closed self (close_instance session (closed self)) in
      let self := with_sessions self (delete session_id (_sessions self)) in
      (true, _delete_persisted_session session_id self)
  end.

(** [SessionService.save_session] *)
Definition save_session (session_id : string) (self : SessionService)
  : fallible unit * SessionService :=
  match _sessions self !! session_id with
  | Some session => _persist_session session self
  | None => (Ok tt, self)
  end.

(** [SessionService.create_run]; [fresh] is [str(uuid.uuid4())]. *)
Definition create_run (fresh session_id message : string) (now : datetime)
    (self : SessionService) : RunState * SessionService :=
  let run := new_run fresh session_id message now in
  (run, with_runs self (<[fresh := run]> (_runs self))).

(** [SessionService.get_run] *)
Definition get_run (self : SessionService) (run_id : string)
  : option RunState :=
  _runs self !! run_id.

(** [SessionService.complete_run] *)
Definition complete_run (run_id : string) (result error : option string)
    (self : SessionService) : SessionService :=
  match _runs self !! run_id with
  | Some run =>
      with_runs self (<[run_id := mark_completed run result error]> (_runs self))
  | None => self
  end.

(** [SessionService.update_session_title] *)
Definition update_session_title (session_id title : string)
    (self : SessionService) : fallible bool * SessionService :=
  match _sessions self !! session_id with
  | None => (Ok false, self)
  | Some session =>
      let session := set_title session (Some title) in
      let self :=
        with_sessions self (<[session_id := session]> (_sessions self)) in
      let '(r, self) := _persist_session session self in
      (_ ← r; Ok true, self)
  end.

(** [SessionService.update_session_model] *)
Definition update_session_model (session_id model_id : string)
    (self : SessionService) : fallible bool * SessionService :=
  match _sessions self !! session_id with
  | None => (Ok false, self)
  | Some session =>
      let session := set_model_id session model_id in
      let self := with_closed self (close_instance session (closed self)) in
      let session :=
        match rlm_instance session with
        | Some _ => set_rlm_instance session None
        | None => session
        end in
      let self :=
        with_sessions self (<[session_id := session]> (_sessions self)) in
      let '(r, self) := _persist_session session self in
      (_ ← r; Ok true, self)
  end.

(** [sessions.sort(key=lambda s: s.created_at, reverse=True)]: a stable
    sort, so sessions created at the same time keep their order. *)
Fixpoint insert_newest_first (s : ChatSession) (l : list ChatSession)
  : list ChatSession :=
  match l with
  | [] => [s]
  | y :: r =>
      if dt_leb (created_at y) (created_at s) then s :: y :: r
      else y :: insert_newest_first s r
  end.

Definition sort_newest_first (l : list ChatSession) : list ChatSession :=
  foldr insert_newest_first [] l.

(** [SessionService.list_sessions]; [values] is
    [list(self._sessions.values())], the registered sessions in the order
    they were registered. *)
Definition list_sessions (values : list ChatSession) (status : option string)
  : list ChatSession :=
  let sessions :=
    match status with
    | Some wanted =>
        if Config.str_truthy wanted
        then List.filter (λ s, String.eqb (Session.status s) wanted) values
        else values
    | None => values
    end in
  sort_newest_first sessions.

End Session.

(* ===================================================================== *)
(** * backend/services/progress_emitter.py                                *)
(* ===================================================================== *)

Module Progress.

(** [WebProgressLogger._make_event] and [WebProgressPrinter._make_event]
    (the two bodies are the same).  The keyword arguments are spread last,
    so a keyword named like a base field replaces that field's value. *)
Definition _make_event (session_id run_id event_type : string)
    (now : datetime) (kwargs : pydict) : pydict :=
  dict_update
    [ ("type", PStr event_type);
      ("timestamp", PStr (isoformat now));
      ("session_id", PStr session_id);
      ("run_id", PStr run_id) ]%string
    kwargs.

(** [RLMMetadata], as far as the logger and the printer read it. *)
Record RLMMetadata := {
  root_model : string;
  max_iterations : Z;
  max_depth : Z;
  backend : string;
  environment_type : string
}.

(** A [WebProgressLogger] built with [log_dir=None] (no file logging). *)
Record WebProgressLogger := {
  logger_session_id : string;
  logger_run_id : string;
  _iteration_count : Z;
  _metadata_logged : bool
}.

(** [WebProgressLogger.__init__] *)
Definition new_logger (session_id run_id : string) : WebProgressLogger :=
  {| logger_session_id := session_id; logger_run_id := run_id;
     _iteration_count := 0; _metadata_logged := false |}.

(** [WebProgressLogger.log_metadata].  Returns the logger and the events
    handed to [self.emit]. *)
Definition log_metadata (self : WebProgressLogger) (metadata : RLMMetadata)
    (now : datetime) : WebProgressLogger * list pydict :=
  if _metadata_logged self then (self, [])
  else
    ({| logger_session_id := logger_session_id self;
        logger_run_id := logger_run_id self;
        _iteration_count := _iteration_count self;
        _metadata_logged := true |},
     [ _make_event (logger_session_id self) (logger_run_id self)
         "session_start" now
         [ ("model", PStr (root_model metadata));
           ("max_iterations", PInt (max_iterations metadata));
           ("max_depth", PInt (max_depth metadata));
           ("backend", PStr (backend metadata));
           ("environment", PStr (environment_type metadata)) ]%string ]).

(** [WebProgressLogger.log] without file logging ([log_dir=None]):
    [final_answer] is [iteration.final_answer], [total_time_ms] the value of
    [int(total_time * 1000)].  Returns the logger and the events handed to
    [self.emit]. *)
Definition log (self : WebProgressLogger) (final_answer : option string)
    (now : datetime) (total_time_ms : Z) : WebProgressLogger * list pydict :=
  let self :=
    {| logger_session_id := logger_session_id self;
       logger_run_id := logger_run_id self;
       _iteration_count := _iteration_count self + 1;
       _metadata_logged := _metadata_logged self |} in
  match final_answer with
  | Some answer =>
      (self,
       [ _make_event (logger_session_id self) (logger_run_id self)
           "final_answer" now
           [ ("answer", PStr answer);
             ("total_iterations", PInt (_iteration_count self));
             ("total_time_ms", PInt total_time_ms) ]%string ])
  | None => (self, [])
  end.

(** ** WebProgressPrinter *)

Record WebProgressPrinter := {
  printer_session_id : string;
  printer_run_id : string;
  enabled : bool;
  printer_iteration_count : Z;   (* [self._iteration_count] *)
  _max_iterations : Z
}.

(** [WebProgressPrinter.__init__] *)
Definition new_printer (session_id run_id : string) (enabled : bool)
  : WebProgressPrinter :=
  {| printer_session_id := session_id; printer_run_id := run_id;
     enabled := enabled; printer_iteration_count := 0;
     _max_iterations := 30 |}.

(** [WebProgressPrinter.print_metadata] *)
Definition print_metadata (self : WebProgressPrinter) (metadata : RLMMetadata)
    (now : datetime) : WebProgressPrinter * list pydict :=
  if negb (enabled self) then (self, [])
  else
    let self :=
      {| printer_session_id := printer_session_id self;
         printer_run_id := printer_run_id self;
         enabled := enabled self;
         printer_iteration_count := printer_iteration_count self;
         _max_iterations := max_iterations metadata |} in
    (self,
     [ _make_event (printer_session_id self) (printer_run_id self)
         "thinking" now
         [ ("message", PStr "RLM is analyzing your document...");
           ("max_iterations", PInt (_max_iterations self)) ]%string ]).

(** [WebProgressPrinter.print_iteration_start] *)
Definition print_iteration_start (self : WebProgressPrinter) (iteration : Z)
    (now : datetime) : WebProgressPrinter * list pydict :=
  if negb (enabled self) then (self, [])
  else
    let self :=
      {| printer_session_id := printer_session_id self;
         printer_run_id := printer_run_id self;
         enabled := enabled self;
         printer_iteration_count := iteration;
         _max_iterations := _max_iterations self |} in
    (self,
     [ _make_event (printer_session_id self) (printer_run_id self)
         "iteration_start" now
         [ ("iteration", PInt iteration);
           ("max_iterations", PInt (_max_iterations self)) ]%string ]).

(** [WebProgressPrinter.print_completion]; [response] is a [str] (for which
    [str(response) if response else ""] is [response]) and [time_ms] the
    value of [int((iteration_time or 0) * 1000)]. *)
Definition print_completion (self : WebProgressPrinter) (response : string)
    (time_ms : Z) (now : datetime) : list pydict :=
  if negb (enabled self) then []
  else
    [ _make_event (printer_session_id self) (printer_run_id self)
        "llm_response" now
        [ ("iteration", PInt (printer_iteration_count self));
          ("response", PStr response);
          ("time_ms", PInt time_ms) ]%string ].

(** [WebProgressPrinter.print_code_execution] on a code block with string
    [code], [stdout] and [stderr]; [time_ms] is
    [int((result.execution_time or 0) * 1000)], [subcall_count] is
    [len(result.rlm_calls)].  The two events are stamped one after the
    other. *)
Definition print_code_execution (self : WebProgressPrinter)
    (code stdout stderr : string) (time_ms subcall_count : Z)
    (now_start now_result : datetime) : list pydict :=
  if negb (enabled self) then []
  else
    [ _make_event (printer_session_id self) (printer_run_id self)
        "code_start" now_start
        [ ("iteration", PInt (printer_iteration_count self));
          ("code", PStr code) ]%string;
      _make_event (printer_session_id self) (printer_run_id self)
        "code_result" now_result
        [ ("iteration", PInt (printer_iteration_count self));
          ("stdout", PStr stdout);
          ("stderr", PStr stderr);
          ("time_ms", PInt time_ms);
          ("subcall_count", PInt subcall_count) ]%string ].

(** [WebProgressPrinter.print_subcall]: the preview is cut to 500
    characters. *)
Definition print_subcall (self : WebProgressPrinter)
    (model prompt_preview response_preview : string) (time_ms : Z)
    (now : datetime) : list pydict :=
  if negb (enabled self) then []
  else
    [ _make_event (printer_session_id self) (printer_run_id self)
        "subcall_complete" now
        [ ("iteration", PInt (printer_iteration_count self));
          ("model", PStr model);
          ("response_preview", PStr (Str.prefix_to 500 response_preview));
          ("time_ms", PInt time_ms) ]%string ].

(** [WebProgressPrinter.print_iteration] *)
Definition print_iteration (self : WebProgressPrinter) (iteration_num : Z)
    (now : datetime) : WebProgressPrinter * list pydict :=
  if negb (enabled self) then (self, [])
  else print_iteration_start self iteration_num now.

(** [WebProgressPrinter.print_final_answer]: the logger emits the final
    answer, the printer emits nothing. *)
Definition print_final_answer (self : WebProgressPrinter) (answer : string)
  : list pydict := [].

(** [total += usage.get(key, 0)] on an [int] total: the value added.  A
    [bool] counts as 0 or 1; anything else that is not an [int] makes the
    addition raise. *)
Definition usage_count (key : string) (usage : pydict) : fallible Z :=
  match dict_get key usage with
  | None => Ok 0
  | Some (PInt z) => Ok z
  | Some (PBool b) => Ok (if b then 1 else 0)
  | Some _ => Raise (TypeError "unsupported operand type(s) for +=")
  end.

(** The [for model, usage in ....items()] loop of [print_summary]: the
    token totals and [models_used] after the loop. *)
Fixpoint sum_usage (items : list (string * pydict))
    (input_tokens output_tokens : Z) (models_used : list string)
  : fallible (Z * Z * list string) :=
  match items with
  | [] => Ok (input_tokens, output_tokens, models_used)
  | (model, usage) :: rest =>
      i ← usage_count "total_input_tokens" usage;
      o ← usage_count "total_output_tokens" usage;
      sum_usage rest (input_tokens + i) (output_tokens + o)
        (models_used ++ [model])
  end.

(** [WebProgressPrinter.print_summary]; [total_time_ms] is the value of
    [int(total_time * 1000)].  [usage] holds the items of
    [usage_summary["model_usage_summaries"]], a dict of dicts, and is [None]
    when [usage_summary] is [None], empty or has no such entry. *)
Definition print_summary (self : WebProgressPrinter)
    (total_iterations total_time_ms : Z)
    (usage : option (list (string * pydict))) (now : datetime)
  : fallible (list pydict) :=
  if negb (enabled self) then Ok []
  else
    totals ← sum_usage (default [] usage) 0 0 [];
    Ok [ _make_event (printer_session_id self) (printer_run_id self)
           "usage_summary" now
           [ ("total_iterations", PInt total_iterations);
             ("total_time_ms", PInt total_time_ms);
             ("input_tokens", PInt totals.1.1);
             ("output_tokens", PInt totals.1.2);
             ("models_used", PList (map PStr totals.2)) ]%string ].

End Progress.

(* ===================================================================== *)
(** * backend/services/rlm_service.py                                     *)
(* ===================================================================== *)

Module Rlm.

Import Config Session.

(** A started [threading.Thread]: the session, run and message its target
    closure [run_thread] captured. *)
Record Thread := {
  thread_session_id : string;
  thread_run_id : string;
  thread_message : string
}.

Record RLMService := {
  _active_threads : gmap string Thread
}.

(** [str(e)] *)
Definition exn_str (e : exn) : string :=
  match e with
  | KeyError k => ("'" ++ k ++ "'")%string
  | ValueError m => m
  | TypeError m => m
  end.

(** The closure [emit_event] of [run_inference]: [run.add_event(event)] on
    the run registered under [run_id].  Runs are never removed from
    [_runs], so a reference to a run is its id. *)
Definition emit_event (run_id : string) (event : pydict)
    (svc : SessionService) : SessionService :=
  match _runs svc !! run_id with
  | Some run => with_runs svc (<[run_id := add_event run event]> (_runs svc))
  | None => svc
  end.

(** What [rlm.completion] returns, as far as the service reads it. *)
Record Completion := {
  response : string;
  input_tokens : Z;
  output_tokens : Z;
  models_used : list string;
  execution_time_ms : Z
}.

(** Everything [_execute_inference] and [run_thread] obtain from outside the
    service: the settings, the clock, the document service and the reasoning
    engine. *)
Record Env := {
  settings : Settings;
  total_chars : Z;
  now_init : datetime;
  new_instance : fallible RlmHandle;   (* [RLM(...)] when a new one is built *)
  worker_events : list pydict;         (* emitted during [rlm.completion] *)
  completion : fallible Completion;    (* outcome of [rlm.completion] *)
  now_user : datetime;
  now_assistant : datetime;
  now_usage : datetime;
  now_error : datetime;
  traceback : string                   (* [traceback.format_exc()] *)
}.

(** In-place update of a session object: visible in the registry as long as
    the registry still holds that session. *)
Definition store_session (session : ChatSession) (svc : SessionService)
  : SessionService :=
  match _sessions svc !! session_id session with
  | Some _ =>
      with_sessions svc (<[session_id session := session]> (_sessions svc))
  | None => svc
  end.

(** ** The prompts handed to [rlm.completion] *)

Definition newline : string := String "010"%char EmptyString.

(** One turn of the [for msg in session.messages] loop that builds
    [conversation_history]: the text appended for [msg].  Contents longer
    than 2000 characters are cut. *)
Definition history_entry (msg : pydict) : fallible string :=
  role ← dict_index "role" msg;
  let role :=
    match role with
    | PStr r => if String.eqb r "user" then "User" else "Assistant"
    | _ => "Assistant"
    end%string in
  content ← dict_index "content" msg;
  content ← as_str "content" content;
  let content :=
    if (2000 <? String.length content)%nat
    then (Str.prefix_to 2000 content ++ "... [truncated]")%string
    else content in
  Ok (newline ++ role ++ ": " ++ content ++ newline)%string.

(** [conversation_history] after the loop. *)
Fixpoint conversation_history (messages : list pydict) : fallible string :=
  match messages with
  | [] => Ok ""%string
  | msg :: rest =>
      entry ← history_entry msg;
      later ← conversation_history rest;
      Ok (entry ++ later)%string
  end.

(** [enhanced_root_prompt] *)
Definition enhanced_root_prompt (conversation_history message : string)
  : string :=
  if str_truthy conversation_history then
    ("CONVERSATION HISTORY (previous Q&A in this session):"
     ++ conversation_history ++ newline
     ++ "---" ++ newline
     ++ "CURRENT QUESTION: " ++ message)%string
  else message.

(** [context_prompt]: the documents on the first turn only. *)
Definition context_prompt (session : ChatSession) (document_context : string)
  : string :=
  if (length (messages session) =? 0)%nat then document_context
  else "[Continuation of conversation - documents already in context_0]".

(** [RLMService._execute_inference].  [session] is the state of the session
    object when the thread body starts.  The prompts built from
    the conversation history are the arguments of [rlm.completion], whose
    outcome [env] gives. *)
Definition _execute_inference (env : Env) (session : ChatSession)
    (run_id message : string) (svc : SessionService)
  : fallible unit * SessionService :=
  let provider := get_model_provider (model_id session) in
  if negb (validate_api_key (settings env) provider) then
    if String.eqb provider "openai" then
      (Raise (ValueError
                "OpenAI API key not configured. Set OPENAI_API_KEY in .env"),
       svc)
    else
      (Raise (ValueError
                "Anthropic API key not configured. Set ANTHROPIC_API_KEY in .env"),
       svc)
  else
    let init_event : pydict :=
      [ ("type", PStr "session_start");
        ("timestamp", PStr (isoformat (now_init env)));
        ("session_id", PStr (session_id session));
        ("run_id", PStr run_id);
        ("model", PStr (model_id session));
        ("document_count", PInt (Z.of_nat (length (document_ids session))));
        ("total_chars", PInt (total_chars env)) ]%string in
    let svc := emit_event run_id init_event svc in
    let instance :=
      match rlm_instance session with
      | Some h => Ok h
      | None => new_instance env
      end in
    match instance with
    | Raise e => (Raise e, svc)
    | Ok h =>
        let session := set_rlm_instance session (Some h) in
        let svc := store_session session svc in
        match conversation_history (messages session) with
        | Raise e => (Raise e, svc)
        | Ok _ =>
        let svc :=
          fold_left (λ acc ev, emit_event run_id ev acc) (worker_events env)
            svc in
        match completion env with
        | Raise e => (Raise e, svc)
        | Ok res =>
            let svc := complete_run run_id (Some (response res)) None svc in
            let session :=
              (add_message session "user" message None (now_user env)).1 in
            let session :=
              (add_message session "assistant" (response res) (Some run_id)
                 (now_assistant env)).1 in
            let svc := store_session session svc in
            match save_session (session_id session) svc with
            | (Raise e, svc) => (Raise e, svc)
            | (Ok _, svc) =>
                let usage_event : pydict :=
                  [ ("type", PStr "usage_summary");
                    ("timestamp", PStr (isoformat (now_usage env)));
                    ("session_id", PStr (session_id session));
                    ("run_id", PStr run_id);
                    ("input_tokens", PInt (input_tokens res));
                    ("output_tokens", PInt (output_tokens res));
                    ("models_used", PList (map PStr (models_used res)));
                    ("execution_time_ms", PInt (execution_time_ms res))
                  ]%string in
                let svc := emit_event run_id usage_event svc in
                let all_events :=
                  match _runs svc !! run_id with
                  | Some run => get_events run 0
                  | None => []
                  end ++ [usage_event] in
                let session :=
                  add_progress_events session run_id all_events in
                let svc := store_session session svc in
                save_session (session_id session) svc
            end
        end
        end
    end.

(** The thread body [run_thread] of [run_inference]. *)
Definition run_thread (env : Env) (session : ChatSession)
    (run_id message : string) (st : RLMService * SessionService)
  : RLMService * SessionService :=
  let '(self, svc) := st in
  let '(r, svc) := _execute_inference env session run_id message svc in
  let svc :=
    match r with
    | Ok _ => svc
    | Raise e =>
        let error_event : pydict :=
          [ ("type", PStr "error");
            ("timestamp", PStr (isoformat (now_error env)));
            ("session_id", PStr (session_id session));
            ("run_id", PStr run_id);
            ("message", PStr (exn_str e));
            ("code", PStr "INFERENCE_ERROR");
            ("traceback", PStr (traceback env)) ]%string in
        complete_run run_id None (Some (exn_str e))
          (emit_event run_id error_event svc)
    end in
  ({| _active_threads := delete run_id (_active_threads self) |}, svc).

(** [RLMService.run_inference]: registers and starts the thread whose body is
    [run_thread], and returns [None] to its caller.  Nothing is checked
    before the thread is started. *)
Definition run_inference (session : ChatSession) (run_id message : string)
    (self : RLMService) : fallible unit * RLMService :=
  let thread :=
    {| thread_session_id := session_id session;
       thread_run_id := run_id;
       thread_message := message |} in
  (Ok tt, {| _active_threads := <[run_id := thread]> (_active_threads self) |}).

(** [RLMService.cancel_run] *)
Definition cancel_run (run_id : string) (svc : SessionService)
  : bool * SessionService :=
  match get_run svc run_id with
  | Some run =>
      if negb (completed run)
      then (true, complete_run run_id None (Some "Cancelled by user") svc)
      else (false, svc)
  | None => (false, svc)
  end.

End Rlm.

(* ===================================================================== *)
(** * backend/api/routes/chat.py                                          *)
(* ===================================================================== *)

Module Chat.

Import Session Rlm.

Inductive http_error :=
| HTTPException (status_code : Z) (detail : string).

(** [submit_message]: the response is the new run's id.  [fresh] is the
    uuid drawn by [create_run], [now] its clock reading. *)
Definition submit_message (fresh : string) (now : datetime)
    (session_id message : string) (st : RLMService * SessionService)
  : (http_error + string) * (RLMService * SessionService) :=
  let '(rlm, svc) := st in
  match get_session svc session_id with
  | None => (inl (HTTPException 404 "Session not found"), st)
  | Some session =>
      if negb (Config.str_truthy (Str.strip message)) then
        (inl (HTTPException 400 "Message cannot be empty"), st)
      else
        let '(run, svc) := create_run fresh session_id message now svc in
        let '(_, rlm) := run_inference session (run_id run) message rlm in
        (inr (run_id run), (rlm, svc))
  end.

(** ** The event generator of [stream_progress] *)

(** What a client of the generator observes, before [json.dumps] and the
    [data: ] framing: an event read from the run, one of the three events
    the generator builds, or, as the last observation, the exception that
    ends the generator instead of a [return]. *)
Inductive wire :=
| WEvent (event : pydict)
| WDone (now : datetime)
| WHeartbeat (now : datetime)
| WTimeout (now : datetime)
| WRaise (e : exn).

(** The dict behind each yielded item; an exception yields nothing. *)
Definition wire_payload (session_id run_id : string) (w : wire)
  : option pydict :=
  let synthetic (type : string) (now : datetime) : pydict :=
    [ ("type", PStr type);
      ("timestamp", PStr (isoformat now));
      ("session_id", PStr session_id);
      ("run_id", PStr run_id) ]%string in
  match w with
  | WEvent event => Some event
  | WDone now => Some (synthetic "done"%string now)
  | WHeartbeat now => Some (synthetic "heartbeat"%string now)
  | WTimeout now =>
      Some (synthetic "error"%string now
            ++ [ ("message", PStr "Stream timeout - inference took too long");
                 ("code", PStr "TIMEOUT") ]%string)
  | WRaise _ => None
  end.

Definition max_retries : nat := 60 * 100.
Definition heartbeat_interval : nat := 30.

(** [event.get("type") in ("final_answer", "error")] *)
Definition is_terminal (event : pydict) : bool :=
  match dict_get "type" event with
  | Some (PStr t) => String.eqb t "final_answer" || String.eqb t "error"
  | _ => false
  end.

(** The [for event in events] loop: the events yielded, and how the loop
    ended: it ran through ([Ok false]), it hit its [return] after a
    terminal event ([Ok true]), or [json.dumps(event)] raised on an event
    it cannot serialise, before that event was yielded. *)
Fixpoint deliver (events : list pydict) : list pydict * fallible bool :=
  match events with
  | [] => ([], Ok false)
  | event :: rest =>
      if negb (json_ok (PDict event)) then
        ([], Raise (TypeError
                      "Object of type datetime is not JSON serializable"))
      else if is_terminal event then ([event], Ok true)
      else let '(out, stop) := deliver rest in (event :: out, stop)
  end.

(** The run as one iteration of the generator sees it: [at_read] when it
    calls [run.get_events(last_index)], [at_check] when it evaluates
    [run.completed and run.get_event_count() == last_index].  The worker
    thread may have changed the run in between. *)
Record Poll := {
  at_read : RunState;
  at_check : RunState
}.

Section Generator.

(** The run at each iteration, and [datetime.utcnow()] at each iteration. *)
Variable polls : nat → Poll.
Variable clock : nat → datetime.

(** The [while retry_count < max_retries] loop; [fuel] is
    [max_retries - retry_count]. *)
Fixpoint stream_loop (fuel retry_count last_index polls_since_heartbeat : nat)
  : list wire :=
  match fuel with
  | O => [WTimeout (clock retry_count)]
  | S fuel =>
      let events :=
        get_events (at_read (polls retry_count)) (Z.of_nat last_index) in
      let had_events := (0 <? length events)%nat in
      let '(out, stop) := deliver events in
      let last_index := (last_index + length out)%nat in
      match stop with
      | Raise e => map WEvent out ++ [WRaise e]
      | Ok true => map WEvent out ++ [WDone (clock retry_count)]
      | Ok false =>
        let run := at_check (polls retry_count) in
        if completed run && (get_event_count run =? last_index)%nat then
          map WEvent out ++ [WDone (clock retry_count)]
        else
          let '(beat, polls_since_heartbeat) :=
            if had_events then ([], 0%nat)
            else if (heartbeat_interval <=? S polls_since_heartbeat)%nat
                 then ([WHeartbeat (clock retry_count)], 0%nat)
                 else ([], S polls_since_heartbeat) in
          map WEvent out ++ beat
          ++ stream_loop fuel (S retry_count) last_index polls_since_heartbeat
      end
  end.

(** [event_generator]: the loop from [last_index = 0], [retry_count = 0]. *)
Definition event_generator : list wire := stream_loop max_retries 0 0 0.

End Generator.

End Chat.

(* ===================================================================== *)
(** * backend/services/document_service.py                                *)
(* ===================================================================== *)

Module Documents.

(** A document record, the dict [save_file] builds. *)
Record Document := {
  id : string;
  filename : string;
  file_path : string;
  size_bytes : nat;
  content_type : string;
  text_content : string;
  char_count : nat;
  uploaded_at : datetime
}.

(** [upload_dir] is the directory's path, [_documents] the registry,
    [stored] the files under [upload_dir] with their contents. *)
Record DocumentService := {
  upload_dir : string;
  _documents : gmap string Document;
  stored : gmap string string
}.

(** [os.path.basename] of [posixpath]: the text after the last ["/"]. *)
Fixpoint basename (l : list ascii) : list ascii :=
  match l with
  | [] => []
  | c :: r =>
      if existsb (Ascii.eqb "/"%char) r then basename r
      else if Ascii.eqb c "/"%char then r
      else c :: r
  end.

(** [s.replace(old, "_")] for a one-character [old]. *)
Definition replace_char (old : ascii) (l : list ascii) : list ascii :=
  map (λ c, if Ascii.eqb c old then "_"%char else c) l.

(** [s.replace("..", "_")]: occurrences are replaced from the left and do
    not overlap. *)
Fixpoint replace_dotdot (l : list ascii) : list ascii :=
  match l with
  | [] => []
  | c :: r =>
      match r with
      | d :: r' =>
          if Ascii.eqb c "."%char && Ascii.eqb d "."%char
          then "_"%char :: replace_dotdot r'
          else c :: replace_dotdot r
      | [] => [c]
      end
  end.

(** [DocumentService._sanitize_filename] *)
Definition _sanitize_filename (filename : string) : string :=
  let name := basename (list_ascii_of_string filename) in
  let name := replace_char "/"%char name in
  let name := replace_char "\"%char name in
  let name := replace_dotdot name in
  let name := replace_char "000"%char name in
  string_of_list_ascii name.

(** [DocumentService.save_file].  [content] is what [file.read()] returns,
    [doc_id] the first 16 hex digits of the SHA-256 of the content and the
    name, [text_content] what [_extract_text] returns for the stored
    file. *)
Definition save_file (doc_id content filename content_type text_content
    : string) (now : datetime) (self : DocumentService)
  : Document * DocumentService :=
  let safe_filename := _sanitize_filename filename in
  let file_path :=
    (upload_dir self ++ "/" ++ doc_id ++ "_" ++ safe_filename)%string in
  let doc_info :=
    {| id := doc_id; filename := filename; file_path := file_path;
       size_bytes := String.length content; content_type := content_type;
       text_content := text_content;
       char_count := String.length text_content; uploaded_at := now |} in
  (doc_info,
   {| upload_dir := upload_dir self;
      _documents := <[doc_id := doc_info]> (_documents self);
      stored := <[file_path := content]> (stored self) |}).

(** [DocumentService.get_document] *)
Definition get_document (self : DocumentService) (doc_id : string)
  : option Document :=
  _documents self !! doc_id.

(** [DocumentService.delete_document] *)
Definition delete_document (doc_id : string) (self : DocumentService)
  : bool * DocumentService :=
  match _documents self !! doc_id with
  | None => (false, self)
  | Some doc =>
      (true,
       {| upload_dir := upload_dir self;
          _documents := delete doc_id (_documents self);
          stored := delete (file_path doc) (stored self) |})
  end.

(** ["\n".join(parts)] *)
Fixpoint join_lines (parts : list string) : string :=
  match parts with
  | [] => ""
  | [p] => p
  | p :: rest => (p ++ String "010"%char (join_lines rest))%string
  end.

(** The [parts] list of [get_combined_context]. *)
Fixpoint context_parts (self : DocumentService) (doc_ids : list string)
  : list string :=
  match doc_ids with
  | [] => []
  | doc_id :: rest =>
      match _documents self !! doc_id with
      | Some doc =>
          ("=== Document: " ++ filename doc ++ " ==="
           ++ String "010"%char (text_content doc ++ String "010"%char ""))%string
          :: context_parts self rest
      | None => context_parts self rest
      end
  end.

(** [DocumentService.get_combined_context] *)
Definition get_combined_context (self : DocumentService)
    (doc_ids : list string) : string :=
  join_lines (context_parts self doc_ids).

(** [DocumentService.get_total_chars] *)
Fixpoint get_total_chars (self : DocumentService) (doc_ids : list string)
  : nat :=
  match doc_ids with
  | [] => 0
  | doc_id :: rest =>
      match _documents self !! doc_id with
      | Some doc => char_count doc + get_total_chars self rest
      | None => get_total_chars self rest
      end
  end%nat.

End Documents.

(* ===================================================================== *)
(** * backend/api/routes/chat.py: the other endpoints                     *)
(* ===================================================================== *)

Module ChatRoutes.

Import Session Rlm Chat.

(** The checks of [stream_progress] before the generator is started: the
    run the generator will read, or the error response. *)
Definition stream_progress (session_id run_id : string)
    (svc : SessionService) : http_error + RunState :=
  match get_session svc session_id with
  | None => inl (HTTPException 404 "Session not found")
  | Some _ =>
      match get_run svc run_id with
      | None => inl (HTTPException 404 "Run not found")
      | Some run =>
          if negb (String.eqb (run_session_id run) session_id)
          then inl (HTTPException 400 "Run does not belong to this session")
          else inr run
      end
  end.

(** [get_run_progress]: the [events] entry of the response. *)
Definition get_run_progress (session_id run_id : string)
    (svc : SessionService) : http_error + pyval :=
  match get_session svc session_id with
  | None => inl (HTTPException 404 "Session not found")
  | Some session =>
      let events := get_progress_events session run_id in
      if negb (truthy events) then
        match get_run svc run_id with
        | Some run => inr (PList (map PDict (get_events run 0)))
        | None => inr events
        end
      else inr events
  end.

(** The endpoint [cancel_run]: the [success] and [message] entries of the
    response. *)
Definition cancel_run (session_id run_id : string) (svc : SessionService)
  : (http_error + bool * string) * SessionService :=
  match get_session svc session_id with
  | None => (inl (HTTPException 404 "Session not found"), svc)
  | Some _ =>
      match get_run svc run_id with
      | None => (inl (HTTPException 404 "Run not found"), svc)
      | Some _ =>
          let '(success, svc) := Rlm.cancel_run run_id svc in
          (inr (success,
                if success then "Cancellation requested"
                else "Run already completed")%string,
           svc)
      end
  end.

End ChatRoutes.

(* ===================================================================== *)
(** * backend/api/routes/sessions.py                                      *)
(* ===================================================================== *)

Module SessionRoutes.

Import Config Session Chat.

Definition invalid_model_detail : string :=
  "Invalid model_id. Available: ['claude-sonnet-4-5-20250929', 'claude-opus-4-5-20251101', 'gpt-5.2-2025-12-11', 'gpt-5-mini', 'gpt-5-nano-2025-08-07']".

(** The first document id that [document_service] does not know. *)
Fixpoint first_missing (docs : Documents.DocumentService)
    (document_ids : list string) : option string :=
  match document_ids with
  | [] => None
  | doc_id :: rest =>
      match Documents.get_document docs doc_id with
      | None => Some doc_id
      | Some _ => first_missing docs rest
      end
  end.

(** The endpoint [create_session]: the created session, from which the
    response is built, or the error response. *)
Definition create_session (fresh : string) (now : datetime)
    (model_id : string) (document_ids : list string)
    (docs : Documents.DocumentService) (svc : SessionService)
  : fallible (http_error + ChatSession) * SessionService :=
  if negb (is_valid_model model_id) then
    (Ok (inl (HTTPException 400 invalid_model_detail)), svc)
  else
    match first_missing docs document_ids with
    | Some doc_id =>
        (Ok (inl (HTTPException 400 ("Document not found: " ++ doc_id))), svc)
    | None =>
        let '(r, svc) :=
          Session.create_session fresh model_id document_ids now svc in
        (session ← r; Ok (inr session), svc)
    end.

(** The endpoint [end_session] *)
Definition end_session (session_id : string) (now : datetime)
    (svc : SessionService) : fallible (http_error + bool) * SessionService :=
  let '(r, svc) := Session.end_session session_id now svc in
  (success ← r;
   Ok (if success : bool then inr true
       else inl (HTTPException 404 "Session not found")),
   svc).

(** The endpoint [delete_session] *)
Definition delete_session (session_id : string) (svc : SessionService)
  : (http_error + bool) * SessionService :=
  let '(success, svc) := Session.delete_session session_id svc in
  (if success then inr true else inl (HTTPException 404 "Session not found"),
   svc).

(** The endpoint [update_session_title] *)
Definition update_session_title (session_id title : string)
    (svc : SessionService) : fallible (http_error + string) * SessionService :=
  let '(r, svc) := Session.update_session_title session_id title svc in
  (success ← r;
   Ok (if success : bool then inr title
       else inl (HTTPException 404 "Session not found")),
   svc).

(** The endpoint [update_session_model] *)
Definition update_session_model (session_id model_id : string)
    (svc : SessionService) : fallible (http_error + string) * SessionService :=
  if negb (is_valid_model model_id) then
    (Ok (inl (HTTPException 400 invalid_model_detail)), svc)
  else
    let '(r, svc) := Session.update_session_model session_id model_id svc in
    (success ← r;
     Ok (if success : bool then inr model_id
         else inl (HTTPException 404 "Session not found")),
     svc).

End SessionRoutes.

(* ===================================================================== *)
(** * Vocabulary of the statements                                        *)
(* ===================================================================== *)

Import Config Str Session Progress Rlm Chat.

(** ** Persistence *)

(** A message as [add_message] and [from_persist_dict] build it: its
    timestamp is a [datetime]. *)
Definition message_timed (msg : pydict) : Prop :=
  ∃ d, dict_get "timestamp" msg = Some (PDatetime d) ∧ valid_datetime d = true.

(** Every datetime of the session is one the [datetime] type can hold. *)
Definition well_formed (s : ChatSession) : Prop :=
  valid_datetime (created_at s) = true
  ∧ (∀ d, ended_at s = Some d → valid_datetime d = true)
  ∧ Forall message_timed (messages s).

(** [json.dump] accepts the record built for the session: every message has
    a timestamp, and nothing but message timestamps is a [datetime]. *)
Definition message_persistable (msg : pydict) : Prop :=
  ∃ msg', persist_message msg = Ok msg' ∧ json_ok (PDict msg') = true.

Definition persistable (s : ChatSession) : Prop :=
  Forall message_persistable (messages s)
  ∧ json_ok (PDict (progress_events s)) = true.

(** ** Titles *)

Definition no_space (s : string) : Prop :=
  " "%char ∉ list_ascii_of_string s.

(** ** Event timestamps *)

(** The timestamp an event carries, read back as a datetime. *)
Definition event_time (event : pydict) : option datetime :=
  match dict_get "timestamp" event with
  | Some (PStr s) =>
      match fromisoformat s with
      | Ok d => Some d
      | Raise _ => None
      end
  | _ => None
  end.

(** Timestamps never decrease along the log. *)
Definition timestamps_sorted (log : list pydict) : Prop :=
  ∀ (i j : nat) ei ej ti tj,
    (i < j)%nat → log !! i = Some ei → log !! j = Some ej →
    event_time ei = Some ti → event_time ej = Some tj →
    dt_leb ti tj = true.

(** One call of a logger or printer method: the event type, the clock
    reading [_make_event] takes, and the keyword arguments. *)
Record Stamp := {
  stamp_type : string;
  stamp_now : datetime;
  stamp_kwargs : pydict
}.

Definition stamped (session_id run_id : string) (s : Stamp) : pydict :=
  _make_event session_id run_id (stamp_type s) (stamp_now s) (stamp_kwargs s).

Definition stamp_ok (s : Stamp) : Prop :=
  dict_get "timestamp" (stamp_kwargs s) = None
  ∧ valid_datetime (stamp_now s) = true.

Definition clock_monotone (stamps : list Stamp) : Prop :=
  ∀ (i j : nat) a b,
    (i < j)%nat → stamps !! i = Some a → stamps !! j = Some b →
    dt_leb (stamp_now a) (stamp_now b) = true.

(** [emit_event] called on each event in turn. *)
Definition emit_all (run_id : string) (events : list pydict)
    (svc : SessionService) : SessionService :=
  fold_left (λ acc ev, emit_event run_id ev acc) events svc.

(** ** Credentials *)

(** The text of the [ValueError] raised for a provider without a key. *)
Definition config_error (provider : string) : string :=
  if String.eqb provider "openai"
  then "OpenAI API key not configured. Set OPENAI_API_KEY in .env"
  else "Anthropic API key not configured. Set ANTHROPIC_API_KEY in .env".

(** ** Streams *)

(** The log as the [n]-th iteration of the generator reads it. *)
Definition log_at (polls : nat → Poll) (n : nat) : list pydict :=
  _events (at_read (polls n)).

(** The completion check of the [n]-th iteration, for a reader that has
    read the whole log. *)
Definition drained_and_completed (polls : nat → Poll) (n : nat) : bool :=
  completed (at_check (polls n))
  && (get_event_count (at_check (polls n)) =? length (log_at polls n))%nat.

(** The log events among the yielded items. *)
Definition delivered (out : list wire) : list pydict :=
  omap (λ w, match w with WEvent event => Some event | _ => None end) out.

(** A yielded item that neither ends the stream nor is a terminal event. *)
Definition is_progress (w : wire) : Prop :=
  match w with
  | WEvent event => is_terminal event = false
  | WHeartbeat _ => True
  | WDone _ | WTimeout _ | WRaise _ => False
  end.

(* ===================================================================== *)
(** * Sample data of the concrete examples                                *)
(* ===================================================================== *)

Definition t0 : datetime := mk_datetime 2025 1 15 10 30 0 0.
Definition t1 : datetime := mk_datetime 2025 1 15 10 30 5 250000.

Definition empty_service : SessionService :=
  {| _sessions := ∅; _runs := ∅; files := ∅; closed := [] |}.

(** A service holding one fresh run, ["r1"] of session ["s1"]. *)
Definition one_run_service : SessionService :=
  (create_run "r1" "s1" "hello" t0 empty_service).2.

Definition sample_question : string :=
  "Tell me about the quarterly earnings report for Q3 and its implications".

(** 51 characters: a word followed by 46 spaces. *)
Definition padded_word : string :=
  ("Hello" ++ string_of_list_ascii (replicate 46 " "%char))%string.

Definition sample_session : ChatSession :=
  new_session "s1" "gpt-5-mini" ["doc1"%string] None "active" None None None
    None t0.

Definition one_session_service : SessionService :=
  with_sessions empty_service {[ "s1"%string := sample_session ]}.

Definition idle : RLMService := {| _active_threads := ∅ |}.

Definition no_keys : Settings :=
  {| anthropic_api_key := ""; openai_api_key := "";
     anthropic_base_url := None; anthropic_auth_token := None |}.

Definition sample_completion : Completion :=
  {| response := "42"; input_tokens := 10; output_tokens := 2;
     models_used := ["gpt-5-mini"%string]; execution_time_ms := 1200 |}.

Definition sample_env : Env :=
  {| settings := no_keys; total_chars := 0; now_init := t0;
     new_instance := Ok {| handle_id := 1; close_raises := false |};
     worker_events := []; completion := Ok sample_completion;
     now_user := t1; now_assistant := t1; now_usage := t1; now_error := t1;
     traceback := "Traceback (most recent call last): ..." |}.

(** The error event [run_thread] builds for [sample_env] and session
    ["s1"]. *)
Definition missing_key_event : pydict :=
  [ ("type", PStr "error");
    ("timestamp", PStr (isoformat t1));
    ("session_id", PStr "s1");
    ("run_id", PStr "r1");
    ("message",
     PStr "OpenAI API key not configured. Set OPENAI_API_KEY in .env");
    ("code", PStr "INFERENCE_ERROR");
    ("traceback", PStr "Traceback (most recent call last): ...") ]%string.

(** An event stamped at [t1], and a later call whose keyword arguments
    carry a timestamp of their own, [t0]. *)
Definition sample_late : pydict :=
  _make_event "s1" "r1" "iteration_start" t1 [("iteration", PInt 1)]%string.

Definition sample_backdated : pydict :=
  _make_event "s1" "r1" "llm_response" t1
    [("timestamp", PStr (isoformat t0)); ("iteration", PInt 1)]%string.

Definition sample_stamps : list Stamp :=
  [ {| stamp_type := "iteration_start"; stamp_now := t0;
       stamp_kwargs := [("iteration", PInt 1)]%string |};
    {| stamp_type := "final_answer"; stamp_now := t1;
       stamp_kwargs := [("answer", PStr "42")]%string |} ].

Definition final_event : pydict :=
  _make_event "s1" "r1" "final_answer" t1
    [ ("answer", PStr "42"); ("total_iterations", PInt 1);
      ("total_time_ms", PInt 5250) ]%string.

(** A run that logs one event, then its final answer before the next
    iteration of the generator. *)
Definition running : RunState :=
  add_event (new_run "r1" "s1" "hello" t0) sample_late.

Definition answered : RunState :=
  mark_completed (add_event running final_event) (Some "42"%string) None.

Definition sample_polls (n : nat) : Poll :=
  match n with
  | O => {| at_read := running; at_check := running |}
  | S _ => {| at_read := answered; at_check := answered |}
  end.



Definition sample_clock (n : nat) : datetime := t1.

(** A session with one message and a live worker whose [close()] raises. *)
Definition talked_session : ChatSession :=
  set_rlm_instance (add_message sample_session "user" "hello" None t0).1
    (Some {| handle_id := 7; close_raises := true |}).

Definition talked_service : SessionService :=
  with_sessions empty_service {[ "s1"%string := talked_session ]}.

(** A session with two messages and the archived events of one run. *)
Definition archived_session : ChatSession :=
  add_progress_events
    (add_message
       (add_message sample_session "user" sample_question None t0).1
       "assistant" "42" (Some "r1"%string) t1).1
    "r1" [sample_late; final_event].

(* ===================================================================== *)
(** * Vocabulary and sample data of the further properties                *)
(* ===================================================================== *)

(** The four fields every progress event carries. *)
Definition carries_base_fields (session_id run_id type : string)
    (now : datetime) (event : pydict) : Prop :=
  dict_get "type" event = Some (PStr type)
  ∧ dict_get "timestamp" event = Some (PStr (isoformat now))
  ∧ dict_get "session_id" event = Some (PStr session_id)
  ∧ dict_get "run_id" event = Some (PStr run_id).

(** No keyword argument is named like a base field. *)
Definition plain_kwargs (kwargs : pydict) : Prop :=
  dict_get "type" kwargs = None
  ∧ dict_get "timestamp" kwargs = None
  ∧ dict_get "session_id" kwargs = None
  ∧ dict_get "run_id" kwargs = None.

(** Sessions in [l] are ordered newest first. *)
Definition newest_first (l : list ChatSession) : Prop :=
  ∀ (i : nat) a b, l !! i = Some a → l !! S i = Some b →
    dt_leb (created_at b) (created_at a) = true.

(** Two dots in a row. *)
Fixpoint has_dotdot (l : list ascii) : bool :=
  match l with
  | c :: r =>
      match r with
      | d :: _ =>
          (Ascii.eqb c "."%char && Ascii.eqb d "."%char) || has_dotdot r
      | [] => false
      end
  | [] => false
  end.

(** The run's log holds no event at any iteration, and the run is never
    seen completed. *)
Definition idle_polls (polls : nat → Poll) : Prop :=
  ∀ n, _events (at_read (polls n)) = []
       ∧ completed (at_check (polls n)) = false.

Definition sample_docs : Documents.DocumentService :=
  (Documents.save_file "0123456789abcdef" "hello world" "../notes.txt"
     "text/plain" "hello world" t0
     {| Documents.upload_dir := "uploads";
        Documents._documents := ∅;
        Documents.stored := ∅ |}).2.

Definition sample_metadata : RLMMetadata :=
  {| root_model := "gpt-5-mini"; max_iterations := 15; max_depth := 1;
     backend := "openai"; environment_type := "local" |}.

Definition proxy_settings : Settings :=
  {| anthropic_api_key := ""; openai_api_key := "";
     anthropic_base_url := Some "http://localhost:4000"%string;
     anthropic_auth_token := Some "sk-virtual"%string |}.

Definition openai_settings : Settings :=
  {| anthropic_api_key := ""; openai_api_key := "sk-test";
     anthropic_base_url := None; anthropic_auth_token := None |}.

(** The environment of a run that succeeds. *)
Definition working_env : Env :=
  {| settings := openai_settings; total_chars := 11; now_init := t0;
     new_instance := Ok {| handle_id := 1; close_raises := false |};
     worker_events := [sample_late; final_event];
     completion := Ok sample_completion;
     now_user := t1; now_assistant := t1; now_usage := t1; now_error := t1;
     traceback := "" |}.

(** A service with session ["s1"] and run ["r1"] registered. *)
Definition ready_service : SessionService :=
  (create_run "r1" "s1" "hello" t0 one_session_service).2.

(** A service with the session that has one message, and a run for its
    second question. *)
Definition second_turn_service : SessionService :=
  (create_run "r2" "s1" "and then?" t1 talked_service).2.

(** The session with a message that has no role, as a record edited by
    hand would load. *)
Definition roleless_session : ChatSession :=
  set_messages sample_session [[("content", PStr "hi")]%string].

(** The environment of a run whose worker raises after one event. *)
Definition failing_env : Env :=
  {| settings := openai_settings; total_chars := 11; now_init := t0;
     new_instance := Ok {| handle_id := 1; close_raises := false |};
     worker_events := [sample_late];
     completion := Raise (ValueError "model overloaded");
     now_user := t1; now_assistant := t1; now_usage := t1; now_error := t1;
     traceback := "" |}.

(** The error event [run_thread] appends when the thread body raises [e]. *)
Definition thread_error_event (env : Env) (session : ChatSession)
    (run_id : string) (e : exn) : pydict :=
  [ ("type", PStr "error");
    ("timestamp", PStr (isoformat (now_error env)));
    ("session_id", PStr (session_id session));
    ("run_id", PStr run_id);
    ("message", PStr (exn_str e));
    ("code", PStr "INFERENCE_ERROR");
    ("traceback", PStr (traceback env)) ]%string.

(** The first and the last event [_execute_inference] emits itself. *)
Definition init_event_of (env : Env) (session : ChatSession)
    (run_id : string) : pydict :=
  [ ("type", PStr "session_start");
    ("timestamp", PStr (isoformat (now_init env)));
    ("session_id", PStr (session_id session));
    ("run_id", PStr run_id);
    ("model", PStr (model_id session));
    ("document_count", PInt (Z.of_nat (length (document_ids session))));
    ("total_chars", PInt (total_chars env)) ]%string.

Definition usage_event_of (env : Env) (session : ChatSession)
    (run_id : string) (res : Completion) : pydict :=
  [ ("type", PStr "usage_summary");
    ("timestamp", PStr (isoformat (now_usage env)));
    ("session_id", PStr (session_id session));
    ("run_id", PStr run_id);
    ("input_tokens", PInt (input_tokens res));
    ("output_tokens", PInt (output_tokens res));
    ("models_used", PList (map PStr (models_used res)));
    ("execution_time_ms", PInt (execution_time_ms res)) ]%string.

(** The run registered under [run_id] stays registered and its log only
    grows at the end. *)
Definition run_grows (run_id : string) (svc svc' : SessionService) : Prop :=
  ∀ run, _runs svc !! run_id = Some run →
    ∃ run', _runs svc' !! run_id = Some run'
      ∧ _events run `prefix_of` _events run'.

(** A yielded item that does not close the stream. *)
Definition is_event_or_heartbeat (w : wire) : Prop :=
  match w with
  | WEvent _ | WHeartbeat _ => True
  | WDone _ | WTimeout _ | WRaise _ => False
  end.

(** What ends the stream: one of the two closing items, or an exception. *)
Definition is_closing (w : wire) : Prop :=
  match w with
  | WDone _ | WTimeout _ | WRaise _ => True
  | WEvent _ | WHeartbeat _ => False
  end.

(** Every event of the log is accepted by [json.dumps]. *)
Definition serialisable (log : list pydict) : Prop :=
  Forall (λ ev, json_ok (PDict ev) = true) log.

(** The contents of the session's messages are strings, as [add_message]
    stores them. *)
Definition text_contents (session : ChatSession) : Prop :=
  Forall (λ msg, ∀ v, dict_get "content" msg = Some v → ∃ text, v = PStr text)
    (messages session).

(** The run with one event logged, completed by a cancellation. *)
Definition cancelled_late : RunState :=
  mark_completed running None (Some "Cancelled by user"%string).

(** A run that logged one event and then stays busy. *)
Definition busy_polls (n : nat) : Poll :=
  {| at_read := running; at_check := running |}.

(** A run that stays as it was created: nothing logged, not completed. *)
Definition waiting_polls (n : nat) : Poll :=
  {| at_read := new_run "r1" "s1" "hello" t0;
     at_check := new_run "r1" "s1" "hello" t0 |}.

(** A character that cannot end or split a path component. *)
Definition plain_char (c : ascii) : Prop :=
  c ≠ "/"%char ∧ c ≠ "\"%char ∧ c ≠ "000"%char.

(** Every registered session runs a model of [AVAILABLE_MODELS]. *)
Definition models_listed (svc : SessionService) : Prop :=
  ∀ sid s, _sessions svc !! sid = Some s → is_valid_model (model_id s) = true.

(* ===================================================================== *)
(** * Properties                                                          *)
(* ===================================================================== *)

(** [lia] after turning divisions by constants into equations. *)
Ltac zlia := Z.to_euclidean_division_equations; lia.

(** ** RunRegistry: [complete_run] and [cancel_run] *)

Lemma complete_run_lookup svc rid run res err :
  _runs svc !! rid = Some run →
  _runs (complete_run rid res err svc) !! rid
  = Some (mark_completed run res err).
Proof.
  intros H. unfold complete_run. rewrite H. cbn. apply lookup_insert_eq.
Qed.

Lemma complete_run_other svc rid rid' res err :
  rid ≠ rid' →
  _runs (complete_run rid res err svc) !! rid' = _runs svc !! rid'.
Proof.
  intros Hne. unfold complete_run.
  destruct (_runs svc !! rid); [|done]. cbn. by apply lookup_insert_ne.
Qed.

Lemma complete_run_frame svc rid res err :
  _sessions (complete_run rid res err svc) = _sessions svc
  ∧ files (complete_run rid res err svc) = files svc
  ∧ closed (complete_run rid res err svc) = closed svc.
Proof. unfold complete_run. by destruct (_runs svc !! rid). Qed.

(** C1, as stated, fails: after [complete_run("r1", result="first")] has set
    [completed], the call [complete_run("r1", error="second")] replaces the
    recorded result and error. *)
Lemma complete_run_second_call_overwrites :
  let svc1 := complete_run "r1" (Some "first"%string) None one_run_service in
  let svc2 := complete_run "r1" None (Some "second"%string) svc1 in
  (completed <$> _runs svc1 !! "r1"%string) = Some true
  ∧ (result <$> _runs svc1 !! "r1"%string) = Some (Some "first"%string)
  ∧ (error <$> _runs svc1 !! "r1"%string) = Some None
  ∧ (result <$> _runs svc2 !! "r1"%string) = Some None
  ∧ (error <$> _runs svc2 !! "r1"%string) = Some (Some "second"%string).
Proof. vm_compute. done. Qed.

(** C1 (amended): [complete_run] is last-writer-wins.  On a registered run
    every call sets [completed] and stores that call's result and error, so
    two calls in a row leave the run as the second call alone would; only a
    repeat with the same arguments leaves the first call's record as it
    was. *)
Theorem complete_run_last_writer_wins svc rid run res1 err1 res2 err2 :
  _runs svc !! rid = Some run →
  let svc2 := complete_run rid res2 err2 (complete_run rid res1 err1 svc) in
  _runs svc2 !! rid = Some (mark_completed run res2 err2)
  ∧ (∀ run2, _runs svc2 !! rid = Some run2 →
       completed run2 = true ∧ result run2 = res2 ∧ error run2 = err2)
  ∧ svc2 = complete_run rid res2 err2 svc
  ∧ complete_run rid res1 err1 (complete_run rid res1 err1 svc)
    = complete_run rid res1 err1 svc.
Proof.
  intros H svc2.
  assert (Hsame : ∀ a b c d,
    complete_run rid c d (complete_run rid a b svc) = complete_run rid c d svc).
  { intros a b c d. unfold complete_run at 1.
    rewrite (complete_run_lookup _ _ _ a b H).
    unfold complete_run. rewrite H. cbn. unfold with_runs. cbn.
    by rewrite insert_insert_eq. }
  assert (Hlk : _runs svc2 !! rid = Some (mark_completed run res2 err2)).
  { subst svc2. rewrite Hsame. by apply complete_run_lookup. }
  split; [exact Hlk|]. split.
  - intros run2 H2. rewrite Hlk in H2. by injection H2 as <-.
  - split; apply Hsame.
Qed.

Lemma complete_run_last_writer_wins_witness :
  _runs one_run_service !! "r1"%string = Some (new_run "r1" "s1" "hello" t0)
  ∧ _runs (complete_run "r1" None (Some "second"%string)
             (complete_run "r1" (Some "first"%string) None one_run_service))
      !! "r1"%string
    = Some (mark_completed (new_run "r1" "s1" "hello" t0) None
              (Some "second"%string)).
Proof.
  split; [reflexivity|].
  apply (complete_run_last_writer_wins one_run_service "r1"
           (new_run "r1" "s1" "hello" t0) (Some "first"%string) None None
           (Some "second"%string)).
  reflexivity.
Defined.

(** C10: [complete_run] on a run id that is not registered returns normally
    (the model is a total function with no exception branch) and leaves the
    whole service, every run and every session, as it was. *)
Theorem complete_run_unknown_noop svc rid res err :
  _runs svc !! rid = None →
  complete_run rid res err svc = svc.
Proof. intros H. unfold complete_run. by rewrite H. Qed.

Lemma complete_run_unknown_noop_witness :
  _runs one_run_service !! "r2"%string = None
  ∧ complete_run "r2" (Some "x"%string) None one_run_service
    = one_run_service.
Proof.
  split; [reflexivity|].
  apply (complete_run_unknown_noop one_run_service "r2"). reflexivity.
Defined.

(** C9: [cancel_run] returns [True] exactly when the run is registered and
    not yet completed; it then records [completed], the error
    ["Cancelled by user"] and no result, touching nothing else.  Otherwise
    it returns [False] and the service is unchanged. *)
Theorem cancel_run_spec svc rid :
  ((cancel_run rid svc).1 = true
   ↔ ∃ run, _runs svc !! rid = Some run ∧ completed run = false)
  ∧ ((cancel_run rid svc).1 = true →
     ∃ run, _runs svc !! rid = Some run
       ∧ _runs (cancel_run rid svc).2 !! rid
         = Some (mark_completed run None (Some "Cancelled by user"%string))
       ∧ (∀ run', _runs (cancel_run rid svc).2 !! rid = Some run' →
            completed run' = true ∧ result run' = None
            ∧ error run' = Some "Cancelled by user"%string
            ∧ _events run' = _events run)
       ∧ (∀ rid', rid ≠ rid' →
            _runs (cancel_run rid svc).2 !! rid' = _runs svc !! rid')
       ∧ _sessions (cancel_run rid svc).2 = _sessions svc
       ∧ files (cancel_run rid svc).2 = files svc)
  ∧ ((cancel_run rid svc).1 = false → (cancel_run rid svc).2 = svc).
Proof.
  unfold cancel_run, get_run.
  destruct (_runs svc !! rid) as [run|] eqn:Hrun.
  - destruct (completed run) eqn:Hc; cbn.
    + split; [|split]; [|done|done].
      split; [done|]. intros (run' & [= <-] & Hc'). congruence.
    + split; [|split]; [| |done].
      * split; [|done]. intros _. by exists run.
      * intros _. exists run. split; [done|].
        pose proof (complete_run_lookup svc rid run None
                      (Some "Cancelled by user"%string) Hrun) as Hlk.
        split; [exact Hlk|]. split.
        { intros run' H'. rewrite Hlk in H'. by injection H' as <-. }
        split.
        { intros rid' Hne. by apply complete_run_other. }
        pose proof (complete_run_frame svc rid None
                      (Some "Cancelled by user"%string)) as (? & ? & ?).
        done.
  - cbn. split; [|split]; [|done|done].
    split; [done|]. by intros (run' & [=] & _).
Qed.

Lemma cancel_run_spec_witness :
  (∃ run, _runs one_run_service !! "r1"%string = Some run
     ∧ completed run = false)
  ∧ (cancel_run "r1" one_run_service).1 = true
  ∧ ((cancel_run "r1" one_run_service).1 = false →
     (cancel_run "r1" one_run_service).2 = one_run_service).
Proof.
  assert (H : ∃ run, _runs one_run_service !! "r1"%string = Some run
                ∧ completed run = false).
  { exists (new_run "r1" "s1" "hello" t0). split; reflexivity. }
  split; [exact H|]. split.
  - apply (proj2 (proj1 (cancel_run_spec one_run_service "r1")) H).
  - apply (proj2 (proj2 (cancel_run_spec one_run_service "r1"))).
Defined.

(** ** EventLog: [add_event], [get_events] *)

Lemma events_fold_add_event (events : list pydict) (run : RunState) :
  _events (fold_left add_event events run) = _events run ++ events.
Proof.
  revert run. induction events as [|e events IH]; intros run; cbn.
  - by rewrite app_nil_r.
  - rewrite IH. cbn. by rewrite <- app_assoc.
Qed.

Example slice_from_negative_counts_from_the_end :
  slice_from (-1) [1; 2; 3] = [3] ∧ slice_from (-5) [1; 2; 3] = [1; 2; 3]
  ∧ slice_from 5 [1; 2; 3] = [].
Proof. repeat split. Qed.

Lemma slice_from_nat {A} (k : nat) (l : list A) :
  slice_from (Z.of_nat k) l = drop k l.
Proof.
  unfold slice_from.
  destruct (Z.ltb_spec (Z.of_nat k) 0) as [Hneg|_]; [lia|].
  by rewrite Nat2Z.id.
Qed.

(** C4: after any sequence of [add_event] calls on a new run,
    [get_events(0)] is that sequence in append order and [get_events(k)] is
    its suffix from index [k] (empty when [k] is past the end). *)
Theorem get_events_returns_appended_suffix
    (rid sid msg : string) (now : datetime) (events : list pydict) (k : nat) :
  let run := fold_left add_event events (new_run rid sid msg now) in
  get_events run 0 = events
  ∧ get_events run (Z.of_nat k) = drop k events
  ∧ get_event_count run = length events
  ∧ (∀ i, get_events run (Z.of_nat k) !! i = events !! (k + i)%nat).
Proof.
  intros run. unfold get_events, get_event_count. subst run.
  rewrite events_fold_add_event. cbn.
  repeat split.
  - by rewrite slice_from_nat.
  - intros i. by rewrite slice_from_nat, lookup_drop.
Qed.

(** ** The text form of datetimes: [isoformat] and [fromisoformat] *)

Example isoformat_whole_second : isoformat t0 = "2025-01-15T10:30:00"%string.
Proof. reflexivity. Qed.

Example isoformat_with_microseconds :
  isoformat t1 = "2025-01-15T10:30:05.250000"%string.
Proof. reflexivity. Qed.

Example fromisoformat_reads_microseconds :
  fromisoformat "2025-01-15T10:30:05.250000" = Ok t1.
Proof. reflexivity. Qed.

Example fromisoformat_rejects_february_30 :
  fromisoformat "2025-02-30T10:30:00"
  = Raise (ValueError "Invalid isoformat string: 2025-02-30T10:30:00").
Proof. reflexivity. Qed.

Lemma digit_val_digit_char d : 0 <= d <= 9 → digit_val (digit_char d) = Some d.
Proof.
  intros H.
  assert (d = 0 ∨ d = 1 ∨ d = 2 ∨ d = 3 ∨ d = 4 ∨ d = 5 ∨ d = 6 ∨ d = 7
          ∨ d = 8 ∨ d = 9) as Hd by zlia.
  repeat (destruct Hd as [-> | Hd]; [reflexivity|]). by subst.
Qed.

Lemma take2_pad2 n rest : 0 <= n < 100 → take2 (pad2 n ++ rest) = Some (n, rest).
Proof.
  intros H. unfold pad2, take2. cbn [app].
  rewrite !digit_val_digit_char by zlia. cbn.
  do 2 f_equal. zlia.
Qed.

Lemma valid_datetime_bounds d :
  valid_datetime d = true →
  1 <= year d <= 9999 ∧ 1 <= month d <= 12
  ∧ 1 <= day d <= 31 ∧ 0 <= hour d <= 23 ∧ 0 <= minute d <= 59
  ∧ 0 <= second d <= 59 ∧ 0 <= microsecond d <= 999999.
Proof.
  unfold valid_datetime. rewrite !andb_true_iff, !Z.leb_le.
  intros H.
  assert (days_in_month (year d) (month d) <= 31).
  { unfold days_in_month. repeat case_match; lia. }
  lia.
Qed.

Lemma parse_fraction_pad6 us :
  0 <= us <= 999999 →
  parse_fraction (if us =? 0 then [] else "."%char :: pad6 us) = Some us.
Proof.
  intros H. destruct (Z.eqb_spec us 0) as [->|Hne]; [done|].
  unfold parse_fraction, pad6, pad4. cbn [expect Ascii.eqb].
  cbn -[take2 pad2 Z.div Z.modulo].
  rewrite take2_pad2 by zlia. cbn -[take2 pad2 Z.div Z.modulo].
  rewrite take2_pad2 by zlia. cbn -[take2 pad2 Z.div Z.modulo].
  rewrite <- (app_nil_r (pad2 _)).
  rewrite take2_pad2 by zlia. cbn -[take2 pad2 Z.div Z.modulo].
  f_equal. zlia.
Qed.

Lemma fromisoformat_chars_isoformat d :
  valid_datetime d = true → fromisoformat_chars (isoformat_chars d) = Some d.
Proof.
  intros Hv. pose proof (valid_datetime_bounds d Hv) as Hb.
  unfold fromisoformat_chars, isoformat_chars, pad4.
  rewrite <- !app_assoc.
  repeat (rewrite take2_pad2 by zlia; cbn -[take2 pad2 Z.div Z.modulo parse_fraction valid_datetime]).
  rewrite parse_fraction_pad6 by lia. cbn -[valid_datetime Z.div Z.modulo].
  replace (year d `div` 100 * 100 + year d `mod` 100) with (year d) by zlia.
  destruct d; cbn [year month day hour minute second microsecond] in *.
  by rewrite Hv.
Qed.

Lemma fromisoformat_isoformat d :
  valid_datetime d = true → fromisoformat (isoformat d) = Ok d.
Proof.
  intros Hv. unfold fromisoformat, isoformat.
  rewrite list_ascii_of_string_of_list_ascii.
  by rewrite fromisoformat_chars_isoformat.
Qed.

Lemma isoformat_truthy d : truthy (PStr (isoformat d)) = true.
Proof. reflexivity. Qed.

(** ** Dicts *)

Lemma dict_get_set_eq k v d : dict_get k (dict_set k v d) = Some v.
Proof.
  induction d as [|[k' v'] d IH]; cbn.
  - by rewrite String.eqb_refl.
  - destruct (String.eqb k k') eqn:E; cbn; rewrite ?String.eqb_refl, ?E; done.
Qed.

Lemma dict_set_set k v v' d : dict_set k v' (dict_set k v d) = dict_set k v' d.
Proof.
  induction d as [|[k' w] d IH]; cbn.
  - by rewrite String.eqb_refl.
  - destruct (String.eqb k k') eqn:E; cbn; rewrite ?String.eqb_refl, ?E; [done|].
    by rewrite IH.
Qed.

Lemma dict_set_id k v d : dict_get k d = Some v → dict_set k v d = d.
Proof.
  induction d as [|[k' w] d IH]; cbn; [done|].
  destruct (String.eqb_spec k k') as [->|Hne].
  - by intros [= ->].
  - intros H. by rewrite IH.
Qed.
Lemma dict_get_set_ne k k' v d :
  k ≠ k' → dict_get k (dict_set k' v d) = dict_get k d.
Proof.
  intros Hne. induction d as [|[k2 w] d IH]; cbn.
  - destruct (String.eqb_spec k k'); done.
  - destruct (String.eqb_spec k' k2) as [->|Hne2]; cbn.
    + destruct (String.eqb_spec k k2); done.
    + by rewrite IH.
Qed.

Lemma dict_get_update_absent k extra : ∀ base,
  dict_get k extra = None →
  dict_get k (dict_update base extra) = dict_get k base.
Proof.
  unfold dict_update.
  induction extra as [|[k' v] extra IH]; intros base H; cbn in *; [done|].
  destruct (String.eqb_spec k k') as [->|Hne]; [done|].
  rewrite (IH _ H). by apply dict_get_set_ne.
Qed.

(** ** Persistence: [to_persist_dict] and [from_persist_dict] *)

Lemma message_roundtrip msg :
  message_timed msg →
  ∃ msg', persist_message msg = Ok msg' ∧ restore_message msg' = Ok msg.
Proof.
  intros (d & Hget & Hv). eexists. split.
  - unfold persist_message, dict_index. rewrite Hget. reflexivity.
  - unfold restore_message, dict_index. rewrite dict_get_set_eq. cbn -[isoformat fromisoformat].
    rewrite (fromisoformat_isoformat d Hv). cbn -[isoformat fromisoformat].
    rewrite dict_set_set. by rewrite (dict_set_id _ _ _ Hget).
Qed.

Lemma messages_roundtrip msgs :
  Forall message_timed msgs →
  ∃ msgs', mapM persist_message msgs = Ok msgs'
    ∧ iter_dicts (PList (map PDict msgs')) = Ok msgs'
    ∧ mapM restore_message msgs' = Ok msgs.
Proof.
  induction 1 as [|msg msgs Hm _ (msgs' & Hp & Hi & Hr)].
  - by exists [].
  - destruct (message_roundtrip msg Hm) as (msg' & Hp1 & Hr1).
    exists (msg' :: msgs'). cbn in *. rewrite Hp1, Hp, Hi, Hr1, Hr. done.
Qed.

Lemma as_str_map_PStr field l : mapM (as_str field) (map PStr l) = Ok l.
Proof. induction l as [|x l IH]; cbn; [done|]. by rewrite IH. Qed.
(** C7: for a session whose datetimes are valid and whose messages carry
    datetime timestamps, [to_persist_dict] succeeds and [from_persist_dict]
    of its record is the same session in every persisted field: identifiers,
    title, status, both timestamps, the messages with their timestamps and
    optional run ids, and the archived events.  Only the live worker
    instance, which is not persisted, is reset. *)
Theorem persist_roundtrip s now :
  well_formed s →
  ∃ data, to_persist_dict s = Ok data
    ∧ from_persist_dict data now = Ok (set_rlm_instance s None).
Proof.
  intros (Hc & He & Hm).
  destruct (messages_roundtrip _ Hm) as (msgs' & Hp & Hi & Hr).
  eexists. split.
  - unfold to_persist_dict. rewrite Hp. reflexivity.
  - unfold from_persist_dict. cbn -[iter_dicts isoformat fromisoformat].
    rewrite Hi. cbn -[isoformat fromisoformat]. rewrite Hr.
    cbn -[isoformat fromisoformat].
    rewrite as_str_map_PStr. cbn -[isoformat fromisoformat].
    rewrite (fromisoformat_isoformat _ Hc).
    destruct s as [sid mid docs ttl sts cr en ms pe rlm]; cbn -[isoformat fromisoformat] in *.
    destruct ttl as [t|]; cbn -[isoformat fromisoformat];
      (destruct en as [e|]; cbn -[isoformat fromisoformat];
       [ rewrite (fromisoformat_isoformat e (He e eq_refl)); cbn | ]);
      destruct pe; reflexivity.
Qed.

Lemma persist_roundtrip_witness :
  well_formed archived_session
  ∧ ∃ data, to_persist_dict archived_session = Ok data
      ∧ from_persist_dict data t1
        = Ok (set_rlm_instance archived_session None).
Proof.
  assert (H : well_formed archived_session).
  { split; [reflexivity|]. split; [intros d [=]|].
    repeat constructor; eexists; split; reflexivity. }
  split; [exact H|]. exact (persist_roundtrip archived_session t1 H).
Defined.

(** ** ProgressBridge: [emit_event] and [_make_event] *)

Lemma emit_event_lookup svc rid run event :
  _runs svc !! rid = Some run →
  _runs (emit_event rid event svc) !! rid = Some (add_event run event).
Proof. intros H. unfold emit_event. rewrite H. cbn. apply lookup_insert_eq. Qed.

Lemma emit_all_lookup events : ∀ svc rid run,
  _runs svc !! rid = Some run →
  _events <$> _runs (emit_all rid events svc) !! rid
  = Some (_events run ++ events).
Proof.
  induction events as [|e events IH]; intros svc rid run H; cbn.
  - rewrite H. cbn. by rewrite app_nil_r.
  - unfold emit_all in IH. rewrite (IH _ rid _ (emit_event_lookup _ _ _ e H)).
    cbn. by rewrite <- app_assoc.
Qed.
Lemma event_time_stamped sid rid s :
  dict_get "timestamp" (stamp_kwargs s) = None →
  valid_datetime (stamp_now s) = true →
  event_time (stamped sid rid s) = Some (stamp_now s).
Proof.
  intros Hk Hv. unfold event_time, stamped, _make_event.
  rewrite (dict_get_update_absent _ _ _ Hk). cbn -[isoformat fromisoformat].
  by rewrite (fromisoformat_isoformat _ Hv).
Qed.
(** C3 (amended): every event pushed through [emit_event] is appended to
    the run's log exactly once, after the events already there and unchanged:
    the bridge assigns no timestamp, the event keeps the one it carries.
    [_make_event] stamps the server clock's reading unless the keyword
    arguments name a timestamp.  So events built by [_make_event] without
    such a keyword, from clock readings that never decrease, carry exactly
    those readings and are sorted by timestamp. *)
Theorem emit_event_appends_unchanged sid rid svc run stamps :
  _runs svc !! rid = Some run →
  Forall stamp_ok stamps →
  clock_monotone stamps →
  (∀ event, _events <$> _runs (emit_event rid event svc) !! rid
            = Some (_events run ++ [event]))
  ∧ (∀ events, _events <$> _runs (emit_all rid events svc) !! rid
               = Some (_events run ++ events))
  ∧ map event_time (map (stamped sid rid) stamps)
    = map (λ s, Some (stamp_now s)) stamps
  ∧ timestamps_sorted (map (stamped sid rid) stamps).
Proof.
  intros Hrun Hok Hmono.
  split; [|split; [|split]].
  - intros event. by rewrite (emit_event_lookup _ _ _ event Hrun).
  - intros events. by apply emit_all_lookup.
  - induction Hok as [|s stamps [Hk Hv] _ IH]; cbn; [done|].
    rewrite event_time_stamped by done. f_equal. apply IH.
    intros i j a b Hij Ha Hb. by apply (Hmono (S i) (S j) a b); [lia| |].
  - intros i j ei ej ti tj Hij Hi Hj Hti Htj.
    rewrite list_lookup_fmap in Hi, Hj.
    destruct (stamps !! i) as [a|] eqn:Ha; [|done].
    destruct (stamps !! j) as [b|] eqn:Hb; [|done].
    cbn in Hi, Hj. injection Hi as <-. injection Hj as <-.
    rewrite Forall_lookup in Hok.
    destruct (Hok _ _ Ha) as [? ?]. destruct (Hok _ _ Hb) as [? ?].
    rewrite event_time_stamped in Hti, Htj by done.
    injection Hti as <-. injection Htj as <-. by apply (Hmono i j).
Qed.
(** C3, as stated, fails: a timestamp passed to [_make_event] replaces the
    server's, [emit_event] appends the event as it is, and the log then runs
    backwards in time although the server clock did not. *)
Lemma caller_timestamp_replaces_server_timestamp :
  dict_get "timestamp" sample_backdated = Some (PStr (isoformat t0))
  ∧ (_events <$> _runs (emit_event "r1" sample_backdated
                            (emit_event "r1" sample_late one_run_service))
                     !! "r1"%string)
    = Some [sample_late; sample_backdated]
  ∧ event_time sample_late = Some t1
  ∧ event_time sample_backdated = Some t0
  ∧ dt_leb t1 t0 = false
  ∧ ¬ timestamps_sorted [sample_late; sample_backdated].
Proof.
  assert (H1 : event_time sample_late = Some t1) by (vm_compute; reflexivity).
  assert (H0 : event_time sample_backdated = Some t0)
    by (vm_compute; reflexivity).
  split; [reflexivity|]. split; [vm_compute; reflexivity|].
  split; [exact H1|]. split; [exact H0|]. split; [reflexivity|].
  intros Hs.
  specialize (Hs 0%nat 1%nat _ _ _ _ ltac:(lia) eq_refl eq_refl H1 H0).
  discriminate Hs.
Qed.

Lemma emit_event_appends_unchanged_witness :
  _runs one_run_service !! "r1"%string = Some (new_run "r1" "s1" "hello" t0)
  ∧ Forall stamp_ok sample_stamps
  ∧ clock_monotone sample_stamps
  ∧ (_events <$> _runs (emit_all "r1" (map (stamped "s1" "r1") sample_stamps)
                          one_run_service) !! "r1"%string)
    = Some (map (stamped "s1" "r1") sample_stamps)
  ∧ timestamps_sorted (map (stamped "s1" "r1") sample_stamps).
Proof.
  assert (Hrun : _runs one_run_service !! "r1"%string
                 = Some (new_run "r1" "s1" "hello" t0)) by reflexivity.
  assert (Hok : Forall stamp_ok sample_stamps).
  { repeat constructor. }
  assert (Hmono : clock_monotone sample_stamps).
  { intros i j a b Hij Ha Hb.
    destruct i as [|[|i]], j as [|[|j]]; cbn in Ha, Hb; simplify_eq;
      try lia; reflexivity. }
  pose proof (emit_event_appends_unchanged "s1" "r1" one_run_service
                (new_run "r1" "s1" "hello" t0) sample_stamps Hrun Hok Hmono)
    as (_ & Hall & _ & Hsorted).
  split; [exact Hrun|]. split; [exact Hok|]. split; [exact Hmono|].
  split; [exact (Hall _)|exact Hsorted].
Defined.

(** ** Titles: [_generate_title] and [add_message] *)

Example title_of_sample_question :
  _generate_title sample_question
  = "Tell me about the quarterly earnings report for..."%string.
Proof. reflexivity. Qed.

Lemma length_string_of_list_ascii l :
  String.length (string_of_list_ascii l) = length l.
Proof. induction l as [|c l IH]; cbn; [done|]. by rewrite IH. Qed.

Lemma string_of_list_ascii_app a b :
  string_of_list_ascii (a ++ b)
  = (string_of_list_ascii a ++ string_of_list_ascii b)%string.
Proof. induction a as [|c a IH]; simpl; [done|]. by rewrite IH. Qed.

Lemma string_length_app (a b : string) :
  String.length (a ++ b)%string = (String.length a + String.length b)%nat.
Proof. induction a as [|c a IH]; simpl; [done|]. by rewrite IH. Qed.

Lemma length_prefix_to n s : (String.length (prefix_to n s) ≤ n)%nat.
Proof.
  unfold prefix_to. rewrite length_string_of_list_ascii, length_take. lia.
Qed.

Lemma before_last_space_some l h :
  before_last_space l = Some h →
  ∃ w, l = h ++ " "%char :: w ∧ " "%char ∉ w.
Proof.
  revert h. induction l as [|c l IH]; intros h; cbn; [done|].
  destruct (before_last_space l) as [h'|] eqn:E.
  - intros [= <-]. destruct (IH h' eq_refl) as (w & -> & Hw).
    by exists w.
  - destruct (Ascii.eqb_spec c " "%char) as [->|Hne]; [|done].
    intros [= <-]. exists l. split; [done|].
    clear IH. induction l as [|x l IHl]; [apply not_elem_of_nil|].
    cbn in E. destruct (before_last_space l); [done|].
    destruct (Ascii.eqb_spec x " "%char); [done|].
    apply not_elem_of_cons. split; [congruence|]. by apply IHl.
Qed.

Lemma before_last_space_none l :
  before_last_space l = None → " "%char ∉ l.
Proof.
  induction l as [|x l IHl]; intros E; [apply not_elem_of_nil|].
  cbn in E. destruct (before_last_space l); [done|].
  destruct (Ascii.eqb_spec x " "%char); [done|].
  apply not_elem_of_cons. split; [congruence|]. by apply IHl.
Qed.

(** The cut [rsplit(" ", 1)[0]] makes in a text: all of it when it has no
    space, otherwise the part before its last space. *)
Lemma rsplit1_head_spec s :
  (rsplit1_head s = s ∧ no_space s)
  ∨ (∃ w, s = (rsplit1_head s ++ " " ++ w)%string ∧ no_space w).
Proof.
  unfold rsplit1_head, no_space.
  destruct (before_last_space (list_ascii_of_string s)) as [h|] eqn:E.
  - right. destruct (before_last_space_some _ _ E) as (w & Hl & Hw).
    exists (string_of_list_ascii w). rewrite list_ascii_of_string_of_list_ascii.
    split; [|done].
    rewrite <- (string_of_list_ascii_of_string s), Hl.
    by rewrite string_of_list_ascii_app.
  - left. split; [done|]. by apply before_last_space_none.
Qed.

Lemma length_rsplit1_head s : (String.length (rsplit1_head s) ≤ String.length s)%nat.
Proof.
  destruct (rsplit1_head_spec s) as [[-> _]|(w & Hs & _)]; [done|].
  rewrite Hs at 2. rewrite string_length_app. lia.
Qed.
Lemma generate_title_cases content :
  let stripped := strip content in
  let cut := rsplit1_head (prefix_to 50 stripped) in
  ((String.length stripped ≤ 50)%nat → _generate_title content = stripped)
  ∧ ((50 < String.length stripped)%nat →
     ∃ body, _generate_title content = (body ++ "...")%string
       ∧ (String.length body ≤ 50)%nat
       ∧ (String.length (_generate_title content) ≤ 53)%nat
       ∧ (((20 ≤ String.length cut)%nat ∧ body = cut
           ∧ ((cut = prefix_to 50 stripped ∧ no_space cut)
              ∨ ∃ w, prefix_to 50 stripped = (cut ++ " " ++ w)%string
                     ∧ no_space w))
          ∨ ((String.length cut < 20)%nat ∧ body = prefix_to 50 content))).
Proof.
  intros stripped cut. unfold _generate_title. fold stripped. fold cut.
  split.
  - intros Hle. destruct (Nat.ltb_spec 50 (String.length stripped)); [lia|done].
  - intros Hgt. destruct (Nat.ltb_spec 50 (String.length stripped)); [|lia].
    destruct (Nat.ltb_spec (String.length cut) 20) as [Hshort|Hlong].
    + exists (prefix_to 50 content).
      pose proof (length_prefix_to 50 content).
      split; [done|]. split; [done|]. split.
      { rewrite string_length_app. cbn. lia. }
      right. done.
    + exists cut.
      assert (String.length cut ≤ 50)%nat.
      { subst cut. etransitivity; [apply length_rsplit1_head|].
        apply length_prefix_to. }
      split; [done|]. split; [done|]. split.
      { rewrite string_length_app. cbn. lia. }
      left. split; [done|]. split; [done|].
      destruct (rsplit1_head_spec (prefix_to 50 stripped)) as [[? ?]|(w & ? & ?)].
      * left. subst cut. split; [done|]. congruence.
      * right. by exists w.
Qed.

Lemma add_message_title self role content run_id now :
  title (add_message self role content run_id now).1
  = match title self with
    | Some t => Some t
    | None =>
        if String.eqb role "user" then Some (_generate_title content) else None
    end.
Proof.
  unfold add_message. cbn.
  destruct (title self) as [t|] eqn:E; cbn; [done|].
  destruct (String.eqb role "user"); cbn; [done|]. by rewrite E.
Qed.

(** C8, as stated, fails: the length test and the title are taken from the
    content with surrounding whitespace removed.  A content of 51
    characters gets a title that does not end in ["..."], and a content of
    4 characters gets a title other than the content. *)
Lemma title_uses_stripped_content :
  String.length padded_word = 51%nat
  ∧ _generate_title padded_word = "Hello"%string
  ∧ (∀ body, _generate_title padded_word ≠ (body ++ "...")%string)
  ∧ String.length " hi " = 4%nat
  ∧ _generate_title " hi " = "hi"%string
  ∧ _generate_title " hi " ≠ " hi "%string.
Proof.
  assert (H : _generate_title padded_word = "Hello"%string) by reflexivity.
  split; [reflexivity|]. split; [exact H|]. split.
  { intros body Hb. rewrite H in Hb.
    pose proof (f_equal String.length Hb) as Hl.
    rewrite string_length_app in Hl.
    destruct body as [|a [|b [|c body]]]; simpl in Hb, Hl; try lia.
    by injection Hb. }
  split; [reflexivity|]. split; [reflexivity|]. discriminate.
Qed.

(** C8 (amended): the title is derived from the content stripped of
    surrounding whitespace.  Stripped content of 50 characters or fewer is
    the title.  Longer stripped content gives a title of at most 53
    characters ending in ["..."]; its body is the first 50 stripped
    characters cut before their last space (all 50 when they hold no space),
    unless that cut has fewer than 20 characters, in which case the body is
    the first 50 characters of the content.  [add_message] sets the title
    from the first user message only while no title is set, and never
    changes a title that is set. *)
Theorem title_derivation_spec self role content run_id now :
  let stripped := strip content in
  let cut := rsplit1_head (prefix_to 50 stripped) in
  let self' := (add_message self role content run_id now).1 in
  ((String.length stripped ≤ 50)%nat → _generate_title content = stripped)
  ∧ ((50 < String.length stripped)%nat →
     ∃ body, _generate_title content = (body ++ "...")%string
       ∧ (String.length body ≤ 50)%nat
       ∧ (String.length (_generate_title content) ≤ 53)%nat
       ∧ (((20 ≤ String.length cut)%nat ∧ body = cut
           ∧ ((cut = prefix_to 50 stripped ∧ no_space cut)
              ∨ ∃ w, prefix_to 50 stripped = (cut ++ " " ++ w)%string
                     ∧ no_space w))
          ∨ ((String.length cut < 20)%nat ∧ body = prefix_to 50 content)))
  ∧ (title self = None → role = "user"%string →
     title self' = Some (_generate_title content))
  ∧ (∀ t, title self = Some t → title self' = Some t)
  ∧ (role ≠ "user"%string → title self' = title self).
Proof.
  intros stripped cut self'.
  destruct (generate_title_cases content) as [Hshort Hlong].
  split; [exact Hshort|]. split; [exact Hlong|].
  subst self'. rewrite add_message_title.
  split; [|split].
  - intros -> ->. reflexivity.
  - by intros t ->.
  - intros Hne. destruct (title self); [done|].
    destruct (String.eqb_spec role "user"); done.
Qed.

Lemma title_derivation_spec_witness :
  (50 < String.length (strip sample_question))%nat
  ∧ title sample_session = None
  ∧ (∃ body, _generate_title sample_question = (body ++ "...")%string
       ∧ (String.length body ≤ 50)%nat)
  ∧ title (add_message sample_session "user" sample_question None t0).1
    = Some "Tell me about the quarterly earnings report for..."%string.
Proof.
  assert (Hlen : (50 < String.length (strip sample_question))%nat).
  { apply Nat.ltb_lt. reflexivity. }
  pose proof (title_derivation_spec sample_session "user" sample_question
                None t0) as (_ & Hlong & Hfirst & _).
  split; [exact Hlen|]. split; [reflexivity|]. split.
  - destruct (Hlong Hlen) as (body & Hb & Hl & _). by exists body.
  - exact (Hfirst eq_refl eq_refl).
Defined.

(** ** SessionStore: [end_session] *)

Lemma persist_messages_ok msgs :
  Forall message_persistable msgs →
  ∃ msgs', mapM persist_message msgs = Ok msgs'
    ∧ forallb json_ok (map PDict msgs') = true.
Proof.
  induction 1 as [|msg msgs (msg' & Hp & Hj) _ (msgs' & Hps & Hjs)].
  - by exists [].
  - exists (msg' :: msgs'). cbn -[json_ok]. rewrite Hp, Hps. cbn -[json_ok].
    split; [done|]. by rewrite Hj, Hjs.
Qed.

Lemma json_ok_opt_str o : json_ok (opt_str o) = true.
Proof. by destruct o. Qed.

Lemma json_ok_strs l : forallb json_ok (map PStr l) = true.
Proof. induction l; cbn; done. Qed.

Lemma persist_session_ok s svc :
  persistable s →
  ∃ data, to_persist_dict s = Ok data
    ∧ _persist_session s svc
      = (Ok tt, with_files svc (<[session_id s := FileJson data]> (files svc))).
Proof.
  intros [Hm Hp]. destruct (persist_messages_ok _ Hm) as (msgs' & Hms & Hj).
  eexists. split.
  - unfold to_persist_dict. rewrite Hms. reflexivity.
  - unfold _persist_session, to_persist_dict. rewrite Hms.
    cbn -[json_ok]. 
    assert (json_ok (PDict (progress_events s)) = true) as Hp' by done.
    cbn in Hp'. cbn. rewrite json_ok_strs, json_ok_opt_str.
    destruct (ended_at s); cbn; cbn in Hj; rewrite Hj, Hp'; reflexivity.
Qed.

(** The record written for a session reads back as that session; the proof
    follows the two comprehensions message by message. *)
Lemma record_reloads s now :
  well_formed s →
  ∃ data, to_persist_dict s = Ok data
    ∧ from_persist_dict data now = Ok (set_rlm_instance s None).
Proof.
  intros (Hc & He & Hm).
  destruct (messages_roundtrip _ Hm) as (msgs' & Hp & Hi & Hr).
  eexists. split.
  - unfold to_persist_dict. rewrite Hp. reflexivity.
  - unfold from_persist_dict. cbn -[iter_dicts isoformat fromisoformat].
    rewrite Hi. cbn -[isoformat fromisoformat]. rewrite Hr.
    cbn -[isoformat fromisoformat].
    rewrite as_str_map_PStr. cbn -[isoformat fromisoformat].
    rewrite (fromisoformat_isoformat _ Hc).
    destruct s as [sid mid docs ttl sts cr en ms pe rlm];
      cbn -[isoformat fromisoformat] in *.
    destruct ttl as [t|]; cbn -[isoformat fromisoformat];
      (destruct en as [e|]; cbn -[isoformat fromisoformat];
       [ rewrite (fromisoformat_isoformat e (He e eq_refl)); cbn | ]);
      destruct pe; reflexivity.
Qed.

(** C6: ending a registered session with no messages removes it from
    [_sessions] and removes its file; ending one with messages keeps it with
    status ["ended"], [ended_at] set to the time of the call and no worker
    instance, every other field as it was, and writes its record to its
    file: the file holds the status ["ended"] and the end time, and read
    back with [from_persist_dict] it gives the ended session.  Either way
    [close()] is called on an attached worker instance, the call returns
    [True] whether or not [close()] raises, and no other session, no other
    file and no run is touched. *)
Theorem end_session_spec svc sid session now :
  _sessions svc !! sid = Some session →
  match messages session with
  | [] =>
      ∃ svc', end_session sid now svc = (Ok true, svc')
        ∧ _sessions svc' !! sid = None
        ∧ files svc' !! sid = None
        ∧ closed svc' = close_instance session (closed svc)
        ∧ (∀ h, rlm_instance session = Some h →
             closed svc' = closed svc ++ [handle_id h])
        ∧ (∀ other, other ≠ sid →
             _sessions svc' !! other = _sessions svc !! other
             ∧ files svc' !! other = files svc !! other)
        ∧ _runs svc' = _runs svc
  | _ :: _ =>
      persistable session →
      ∃ svc' ended data,
        end_session sid now svc = (Ok true, svc')
        ∧ _sessions svc' !! sid = Some ended
        ∧ status ended = "ended"%string
        ∧ ended_at ended = Some now
        ∧ rlm_instance ended = None
        ∧ messages ended = messages session
        ∧ to_persist_dict ended = Ok data
        ∧ files svc' !! session_id session = Some (FileJson data)
        ∧ closed svc' = close_instance session (closed svc)
        ∧ (∀ h, rlm_instance session = Some h →
             closed svc' = closed svc ++ [handle_id h])
        ∧ ended
          = set_ended_at
              (set_status (set_rlm_instance session None) "ended") (Some now)
        ∧ dict_get "session_id" data = Some (PStr (session_id session))
        ∧ dict_get "status" data = Some (PStr "ended")
        ∧ dict_get "ended_at" data = Some (PStr (isoformat now))
        ∧ (well_formed session → valid_datetime now = true →
           ∀ now', from_persist_dict data now' = Ok ended)
        ∧ (∀ other, other ≠ sid →
             _sessions svc' !! other = _sessions svc !! other)
        ∧ (∀ other, other ≠ session_id session →
             files svc' !! other = files svc !! other)
        ∧ _runs svc' = _runs svc
  end.
Proof.
  intros Hs. unfold end_session. rewrite Hs.
  assert (Hclose : ∀ h, rlm_instance session = Some h →
            close_instance session (closed svc) = closed svc ++ [handle_id h]).
  { intros h Hh. unfold close_instance. by rewrite Hh. }
  destruct (messages session) as [|m ms] eqn:Hm.
  - eexists. split.
    + destruct (rlm_instance session); cbn; rewrite Hm; reflexivity.
    + cbn. rewrite !lookup_delete_eq.
      split; [done|]. split; [done|]. split; [done|]. split; [done|].
      split; [|done].
      intros other Hne. by rewrite !lookup_delete_ne.
  - intros Hp.
    set (ended := set_ended_at (set_status (set_rlm_instance session None) "ended") (Some now)).
    assert (Hpe : persistable ended).
    { destruct Hp as [H1 H2]. split; [by cbn|by cbn]. }
    set (svc1 := with_sessions (with_closed svc (close_instance session (closed svc)))
                   (<[sid := ended]> (_sessions svc))).
    destruct (persist_session_ok ended svc1 Hpe) as (data & Hd & Hps).
    exists (with_files svc1 (<[session_id ended := FileJson data]> (files svc1))), ended, data.
    split.
    + destruct (rlm_instance session) eqn:Hr; cbn; rewrite Hm; cbn.
      * fold ended. fold svc1. rewrite Hps. reflexivity.
      * assert (set_rlm_instance session None = session) as Hid.
        { destruct session; cbn in *; by subst. }
        subst ended svc1. rewrite Hid in *. rewrite Hps. reflexivity.
    + assert (Hfields :
                dict_get "session_id" data = Some (PStr (session_id session))
                ∧ dict_get "status" data = Some (PStr "ended")
                ∧ dict_get "ended_at" data = Some (PStr (isoformat now))).
      { pose proof Hd as Hd'. unfold to_persist_dict in Hd'.
        destruct (mapM persist_message (messages ended)); [|done].
        cbn -[isoformat] in Hd'. by injection Hd' as <-. }
      destruct Hfields as (Hf1 & Hf2 & Hf3).
      assert (Hload : well_formed session → valid_datetime now = true →
                ∀ now', from_persist_dict data now' = Ok ended).
      { intros (Hc & He & Hmsgs) Hnow now'.
        destruct (record_reloads ended now') as (data' & Hd' & Hl).
        { split; [exact Hc|]. split; [|exact Hmsgs].
          intros d [= <-]. exact Hnow. }
        rewrite Hd in Hd'. injection Hd' as <-. exact Hl. }
      cbn. rewrite !lookup_insert_eq.
      split; [done|]. split; [done|]. split; [done|]. split; [done|].
      split; [done|]. split; [done|]. split; [done|]. split; [done|].
      split; [done|]. split; [done|]. split; [exact Hf1|].
      split; [exact Hf2|]. split; [exact Hf3|]. split; [exact Hload|].
      split; [|split; [|done]].
      * intros other Hne. by rewrite lookup_insert_ne.
      * intros other Hne. by rewrite lookup_insert_ne.
Qed.

Lemma end_session_spec_witness :
  _sessions talked_service !! "s1"%string = Some talked_session
  ∧ persistable talked_session
  ∧ ∃ svc', end_session "s1" t1 talked_service = (Ok true, svc')
      ∧ (status <$> _sessions svc' !! "s1"%string) = Some "ended"%string
      ∧ (ended_at <$> _sessions svc' !! "s1"%string) = Some (Some t1)
      ∧ is_Some (files svc' !! "s1"%string)
      ∧ closed svc' = [7%nat]
      ∧ ∃ data, files svc' !! "s1"%string = Some (FileJson data)
          ∧ dict_get "status" data = Some (PStr "ended").
Proof.
  assert (Hs : _sessions talked_service !! "s1"%string = Some talked_session)
    by reflexivity.
  assert (Hp : persistable talked_session).
  { split; [|reflexivity]. repeat constructor. eexists. split; reflexivity. }
  split; [exact Hs|]. split; [exact Hp|].
  destruct (end_session_spec talked_service "s1" talked_session t1 Hs Hp)
    as (svc' & ended & data & Hend & Hlk & Hst & Hen & _ & _ & _ & Hf & _ & Hc
        & _ & _ & Hstatus & _).
  exists svc'. split; [exact Hend|].
  rewrite Hlk. cbn. rewrite Hst, Hen.
  change (session_id talked_session) with "s1"%string in Hf.
  split; [done|]. split; [done|]. split; [by rewrite Hf|].
  split; [exact (Hc _ eq_refl)|].
  exists data. split; [exact Hf|exact Hstatus].
Defined.

(** ** BackgroundExecutor: [run_inference] and [run_thread] *)

(** C2 (amended): [run_inference] checks nothing before it starts the
    thread and returns normally.  When the session's model has no valid
    provider key, the check inside the thread body raises the configuration
    error, and [run_thread] appends one terminal [error] event with code
    [INFERENCE_ERROR] and that message to the run's log and completes the
    run with that error; sessions and files are not touched. *)
Theorem missing_key_fails_inside_thread env session rid message rlm svc run :
  validate_api_key (settings env) (get_model_provider (model_id session))
  = false →
  _runs svc !! rid = Some run →
  let msg := config_error (get_model_provider (model_id session)) in
  let error_event : pydict :=
    [ ("type", PStr "error");
      ("timestamp", PStr (isoformat (now_error env)));
      ("session_id", PStr (session_id session));
      ("run_id", PStr rid);
      ("message", PStr msg);
      ("code", PStr "INFERENCE_ERROR");
      ("traceback", PStr (traceback env)) ]%string in
  let started := run_inference session rid message rlm in
  let finished := run_thread env session rid message (started.2, svc) in
  started.1 = Ok tt
  ∧ (thread_run_id <$> _active_threads started.2 !! rid) = Some rid
  ∧ _execute_inference env session rid message svc
    = (Raise (ValueError msg), svc)
  ∧ _runs finished.2 !! rid
    = Some (mark_completed (add_event run error_event) None (Some msg))
  ∧ is_terminal error_event = true
  ∧ _active_threads finished.1 !! rid = None
  ∧ _sessions finished.2 = _sessions svc
  ∧ files finished.2 = files svc.
Proof.
  intros Hv Hrun msg error_event started finished.
  assert (Hexec : _execute_inference env session rid message svc
                  = (Raise (ValueError msg), svc)).
  { unfold _execute_inference. rewrite Hv. cbn. subst msg.
    unfold config_error. by destruct (String.eqb _ "openai"). }
  split; [done|]. split.
  { cbn. by rewrite lookup_insert_eq. }
  split; [exact Hexec|].
  subst finished. unfold run_thread. cbn [fst snd started run_inference].
  rewrite Hexec. cbn [exn_str snd fst].
  fold error_event.
  pose proof (emit_event_lookup svc rid run error_event Hrun) as He.
  split.
  { by apply complete_run_lookup. }
  split; [done|]. split.
  { cbn. by rewrite lookup_delete_eq. }
  pose proof (complete_run_frame (emit_event rid error_event svc) rid None (Some msg)) as (-> & -> & _).
  unfold emit_event. rewrite Hrun. done.
Qed.

Lemma missing_key_fails_inside_thread_witness :
  validate_api_key (settings sample_env)
    (get_model_provider (model_id sample_session)) = false
  ∧ _runs one_run_service !! "r1"%string = Some (new_run "r1" "s1" "hello" t0)
  ∧ (run_inference sample_session "r1" "hello" idle).1 = Ok tt
  ∧ _runs (run_thread sample_env sample_session "r1" "hello"
             ((run_inference sample_session "r1" "hello" idle).2,
              one_run_service)).2 !! "r1"%string
    = Some (mark_completed
              (add_event (new_run "r1" "s1" "hello" t0) missing_key_event)
              None
              (Some "OpenAI API key not configured. Set OPENAI_API_KEY in .env"%string)).
Proof.
  assert (Hv : validate_api_key (settings sample_env)
                 (get_model_provider (model_id sample_session)) = false)
    by reflexivity.
  assert (Hrun : _runs one_run_service !! "r1"%string
                 = Some (new_run "r1" "s1" "hello" t0)) by reflexivity.
  pose proof (missing_key_fails_inside_thread sample_env sample_session "r1"
                "hello" idle one_run_service _ Hv Hrun)
    as (Hret & _ & _ & Hlog & _).
  split; [exact Hv|]. split; [exact Hrun|]. split; [exact Hret|exact Hlog].
Defined.

(** C2, as stated, fails: with no provider key configured, submitting a
    message gets the normal response with the new run's id, the thread is
    started, and the configuration error is appended to the run's log as an
    [error] event by the thread body. *)
Lemma missing_key_reaches_event_log :
  let submitted :=
    submit_message "r1" t0 "s1" "hello" (idle, one_session_service) in
  let finished :=
    run_thread sample_env sample_session "r1" "hello" submitted.2 in
  validate_api_key no_keys (get_model_provider (model_id sample_session))
  = false
  ∧ submitted.1 = inr "r1"%string
  ∧ (thread_run_id <$> _active_threads submitted.2.1 !! "r1"%string)
    = Some "r1"%string
  ∧ (_events <$> _runs submitted.2.2 !! "r1"%string) = Some []
  ∧ (_events <$> _runs finished.2 !! "r1"%string) = Some [missing_key_event]
  ∧ dict_get "type" missing_key_event = Some (PStr "error")
  ∧ (error <$> _runs finished.2 !! "r1"%string)
    = Some (Some "OpenAI API key not configured. Set OPENAI_API_KEY in .env"%string).
Proof. vm_compute. repeat split. Qed.

(** ** StreamCoordinator: [event_generator] *)

Example deliver_stops_at_the_first_terminal_event :
  deliver [sample_late; final_event; sample_late]
  = ([sample_late; final_event], Ok true).
Proof. reflexivity. Qed.

Example generator_on_sample_polls :
  event_generator sample_polls sample_clock
  = [WEvent sample_late; WEvent final_event; WDone t1].
Proof. vm_compute. reflexivity. Qed.

Lemma deliver_all events :
  Forall (λ ev, is_terminal ev = false) events →
  serialisable events →
  deliver events = (events, Ok false).
Proof.
  induction 1 as [|ev events Hev _ IH]; intros Hj; cbn -[json_ok]; [done|].
  inversion Hj as [|? ? Hj1 Hj2]; subst.
  by rewrite Hj1, Hev, (IH Hj2).
Qed.


Lemma delivered_app a b : delivered (a ++ b) = delivered a ++ delivered b.
Proof. apply omap_app. Qed.

Lemma delivered_events l : delivered (map WEvent l) = l.
Proof. induction l as [|x l IH]; cbn; [done|]. unfold delivered in IH. by rewrite IH. Qed.

Lemma events_are_progress l :
  Forall (λ ev, is_terminal ev = false) l → Forall is_progress (map WEvent l).
Proof. induction 1; cbn; constructor; done. Qed.

Section StreamProofs.

Variable polls : nat → Poll.
Variable clock : nat → datetime.

Local Abbreviation log := (log_at polls).

Lemma log_prefix_trans (rc k : nat) :
  (∀ n, (rc ≤ n < rc + k)%nat → log n `prefix_of` log (S n)) →
  log rc `prefix_of` log (rc + k).
Proof.
  induction k as [|k IH]; intros H.
  - by rewrite Nat.add_0_r.
  - etransitivity; [apply IH; intros n Hn; apply H; lia|].
    replace (rc + S k)%nat with (S (rc + k)) by lia. apply H. lia.
Qed.


End StreamProofs.




(* ===================================================================== *)
(** * Further properties of the code                                     *)
(* ===================================================================== *)

(** ** EventLog: cursors and slices *)

(** X1: reading resumes from a cursor.  After more events are appended, a
    read from a cursor within the old log returns what it returned before
    followed by the new events, a read from the old length returns exactly
    the new events, and no event already in the log moves or changes. *)
Theorem get_events_resumes_from_cursor (run : RunState) (more : list pydict)
    (c : nat) :
  (c ≤ get_event_count run)%nat →
  let later := fold_left add_event more run in
  get_events later (Z.of_nat c) = get_events run (Z.of_nat c) ++ more
  ∧ get_events later (Z.of_nat (get_event_count run)) = more
  ∧ (∀ i e, _events run !! i = Some e → _events later !! i = Some e)
  ∧ get_event_count later = (get_event_count run + length more)%nat
  ∧ completed later = completed run.
Proof.
  intros Hc later. unfold get_events, get_event_count in *.
  assert (He : _events later = _events run ++ more)
    by apply events_fold_add_event.
  rewrite !slice_from_nat, He.
  split; [by rewrite drop_app_le|]. split; [by rewrite drop_app_length|].
  split; [intros i e Hi; by apply lookup_app_l_Some|].
  split; [by rewrite length_app|].
  subst later. clear. revert run.
  induction more as [|e more IH]; intros run; cbn; [done|]. by rewrite IH.
Qed.

Lemma get_events_resumes_from_cursor_witness :
  (1 ≤ get_event_count running)%nat
  ∧ get_events (fold_left add_event [final_event] running) 1 = [final_event].
Proof.
  split; [cbn; lia|].
  pose proof (get_events_resumes_from_cursor running [final_event] 1
                ltac:(cbn; lia)) as (H & _).
  exact H.
Defined.

(** X2: [get_events] never fails on an index outside the log.  A start at
    or past the end gives the empty list; a negative start [-k] gives the
    last [k] events, or the whole log when it has fewer than [k]. *)
Theorem get_events_outside_the_log (run : RunState) (k : nat) :
  ((get_event_count run ≤ k)%nat → get_events run (Z.of_nat k) = [])
  ∧ ((0 < k ≤ get_event_count run)%nat →
     get_events run (- Z.of_nat k)
     = drop (get_event_count run - k) (_events run)
     ∧ length (get_events run (- Z.of_nat k)) = k)
  ∧ ((0 < k)%nat → (get_event_count run ≤ k)%nat →
     get_events run (- Z.of_nat k) = _events run).
Proof.
  unfold get_events, get_event_count. split; [|split].
  - intros H. rewrite slice_from_nat. by apply drop_ge.
  - intros [H0 Hk]. unfold slice_from.
    destruct (Z.ltb_spec (- Z.of_nat k) 0) as [_|?]; [|lia].
    replace (Z.to_nat (Z.max 0 (Z.of_nat (length (_events run)) + - Z.of_nat k)))
      with (length (_events run) - k)%nat by lia.
    split; [done|]. rewrite length_drop. lia.
  - intros H0 Hk. unfold slice_from.
    destruct (Z.ltb_spec (- Z.of_nat k) 0) as [_|?]; [|lia].
    replace (Z.to_nat (Z.max 0 (Z.of_nat (length (_events run)) + - Z.of_nat k)))
      with 0%nat by lia.
    done.
Qed.

Lemma get_events_outside_the_log_witness :
  (2 ≤ 5)%nat ∧ get_events answered 5 = []
  ∧ get_events answered (-1) = [final_event].
Proof.
  pose proof (get_events_outside_the_log answered 5) as (Hpast & _ & _).
  pose proof (get_events_outside_the_log answered 1) as (_ & Hlast & _).
  split; [lia|]. split; [apply Hpast; cbn; lia|].
  destruct Hlast as [H _]; [cbn; lia|]. exact H.
Defined.

(** ** ChatSession: messages and archived events *)

Lemma message_of_add_message self role content run_id now :
  ∃ message,
    add_message self role content run_id now
    = (match title self with
       | None =>
           if String.eqb role "user"
           then set_title (set_messages self (messages self ++ [message]))
                  (Some (_generate_title content))
           else set_messages self (messages self ++ [message])
       | Some _ => set_messages self (messages self ++ [message])
       end, message)
    ∧ dict_get "role" message = Some (PStr role)
    ∧ dict_get "content" message = Some (PStr content)
    ∧ dict_get "timestamp" message = Some (PDatetime now)
    ∧ dict_get "run_id" message
      = match run_id with
        | Some r => if str_truthy r then Some (PStr r) else None
        | None => None
        end
    ∧ persist_message message
      = Ok (dict_set "timestamp" (PStr (isoformat now)) message)
    ∧ json_ok (PDict (dict_set "timestamp" (PStr (isoformat now)) message))
      = true.
Proof.
  unfold add_message.
  destruct run_id as [r|]; [destruct (str_truthy r) eqn:Hr|];
    (eexists; split; [reflexivity|]);
    cbn -[isoformat]; rewrite ?Hr; repeat split.
Qed.

(** X3: [add_message] keeps a session writable and reloadable.  If the
    session's datetimes are valid and [json.dump] accepts its record, the
    same holds after a message is added at a valid time. *)
Theorem add_message_keeps_session_persistable self role content run_id now :
  valid_datetime now = true →
  well_formed self →
  persistable self →
  well_formed (add_message self role content run_id now).1
  ∧ persistable (add_message self role content run_id now).1.
Proof.
  intros Hnow (Hc & He & Hm) (Hp & Hj).
  destruct (message_of_add_message self role content run_id now)
    as (message & -> & _ & _ & Ht & _ & Hpm & Hjm).
  cbn [fst].
  assert (Hmessages :
    Forall message_timed (messages self ++ [message])
    ∧ Forall message_persistable (messages self ++ [message])).
  { split; apply Forall_app; (split; [done|]); constructor; try done.
    - by exists now.
    - by eexists. }
  destruct Hmessages as [H1 H2].
  destruct (title self); [|destruct (String.eqb role "user")];
    (split; [split; [done|split; [done|done]]|split; done]).
Qed.

Lemma add_message_keeps_session_persistable_witness :
  valid_datetime t1 = true
  ∧ well_formed sample_session
  ∧ persistable sample_session
  ∧ persistable (add_message sample_session "user" "hello" None t1).1.
Proof.
  assert (Hw : well_formed sample_session).
  { split; [reflexivity|]. split; [intros d [=]|constructor]. }
  assert (Hp : persistable sample_session).
  { split; [constructor|reflexivity]. }
  split; [reflexivity|]. split; [exact Hw|]. split; [exact Hp|].
  exact (proj2 (add_message_keeps_session_persistable sample_session "user"
                  "hello" None t1 eq_refl Hw Hp)).
Defined.

Lemma persist_message_cases msg :
  match dict_get "timestamp" msg with
  | None => persist_message msg = Raise (KeyError "timestamp")
  | Some _ => ∃ msg', persist_message msg = Ok msg'
  end.
Proof.
  unfold persist_message, dict_index.
  destruct (dict_get "timestamp" msg); [by eexists|done].
Qed.

(** X4: [to_persist_dict] fails exactly when a message has no timestamp, and
    then with [KeyError('timestamp')]; otherwise it returns a record with
    the session's id, model, documents, title and status. *)
Theorem to_persist_dict_needs_timestamps self :
  (Exists (λ msg, dict_get "timestamp" msg = None) (messages self) →
   to_persist_dict self = Raise (KeyError "timestamp"))
  ∧ (Forall (λ msg, is_Some (dict_get "timestamp" msg)) (messages self) →
     ∃ data, to_persist_dict self = Ok data
       ∧ dict_get "session_id" data = Some (PStr (session_id self))
       ∧ dict_get "model_id" data = Some (PStr (model_id self))
       ∧ dict_get "document_ids" data
         = Some (PList (map PStr (document_ids self)))
       ∧ dict_get "title" data = Some (opt_str (title self))
       ∧ dict_get "status" data = Some (PStr (status self))
       ∧ dict_get "created_at" data
         = Some (PStr (isoformat (created_at self)))
       ∧ dict_get "progress_events" data
         = Some (PDict (progress_events self))).
Proof.
  unfold to_persist_dict. split.
  - intros H.
    assert (mapM persist_message (messages self)
            = Raise (KeyError "timestamp")) as ->; [|done].
    induction (messages self) as [|msg msgs IH]; [by inversion H|].
    cbn. pose proof (persist_message_cases msg) as Hmsg.
    destruct (dict_get "timestamp" msg) as [ts|] eqn:Hts.
    + destruct Hmsg as [msg' ->]. cbn. rewrite IH; [done|].
      inversion H as [? ? Hhd|? ? Htl]; subst; [congruence|done].
    + by rewrite Hmsg.
  - intros H.
    assert (∃ msgs', mapM persist_message (messages self) = Ok msgs')
      as [msgs' ->].
    { induction H as [|msg msgs [ts Hts] _ [msgs' IH]]; [by exists []|].
      cbn. pose proof (persist_message_cases msg) as Hmsg.
      rewrite Hts in Hmsg. destruct Hmsg as [msg' ->]. cbn.
      rewrite IH. cbn. by eexists. }
    eexists. split; [reflexivity|]. cbn -[isoformat]. repeat split.
Qed.

Lemma to_persist_dict_needs_timestamps_witness :
  Exists (λ msg, dict_get "timestamp" msg = None)
    (messages (set_messages sample_session [[("role", PStr "user")]%string]))
  ∧ to_persist_dict
      (set_messages sample_session [[("role", PStr "user")]%string])
    = Raise (KeyError "timestamp").
Proof.
  assert (H : Exists (λ msg, dict_get "timestamp" msg = None)
                (messages (set_messages sample_session
                             [[("role", PStr "user")]%string]))).
  { constructor. reflexivity. }
  split; [exact H|].
  exact (proj1 (to_persist_dict_needs_timestamps _) H).
Defined.

(** X5: a record with only the four required entries loads with the
    defaults of [from_persist_dict]: status ["ended"], no title, no end
    time, no messages, no archived events, no worker instance.  A record
    without messages that lacks [session_id] raises
    [KeyError('session_id')]. *)
Theorem from_persist_dict_defaults data sid mid docs created now :
  dict_get "messages" data = None →
  dict_get "title" data = None →
  dict_get "status" data = None →
  dict_get "ended_at" data = None →
  dict_get "progress_events" data = None →
  (dict_get "session_id" data = None →
   from_persist_dict data now = Raise (KeyError "session_id"))
  ∧ (dict_get "session_id" data = Some (PStr sid) →
     dict_get "model_id" data = Some (PStr mid) →
     dict_get "document_ids" data = Some (PList (map PStr docs)) →
     dict_get "created_at" data = Some (PStr (isoformat created)) →
     valid_datetime created = true →
     from_persist_dict data now
     = Ok {| session_id := sid; model_id := mid; document_ids := docs;
             title := None; status := "ended"; created_at := created;
             ended_at := None; messages := []; progress_events := [];
             rlm_instance := None |}).
Proof.
  intros Hm Ht Hs He Hp. unfold from_persist_dict, dict_index.
  rewrite Hm, Ht, Hs, He, Hp. cbn -[isoformat fromisoformat].
  split.
  - by intros ->.
  - intros -> -> -> -> Hv. cbn -[isoformat fromisoformat].
    rewrite as_str_map_PStr. cbn -[isoformat fromisoformat].
    by rewrite (fromisoformat_isoformat _ Hv).
Qed.

Lemma from_persist_dict_defaults_witness :
  from_persist_dict
    [ ("session_id", PStr "s1"); ("model_id", PStr "gpt-5-mini");
      ("document_ids", PList [PStr "doc1"]);
      ("created_at", PStr "2025-01-15T10:30:00") ]%string t1
  = Ok {| session_id := "s1"; model_id := "gpt-5-mini";
          document_ids := ["doc1"%string];
          title := None; status := "ended"; created_at := t0;
          ended_at := None; messages := []; progress_events := [];
          rlm_instance := None |}.
Proof.
  apply (proj2 (from_persist_dict_defaults
                  [ ("session_id", PStr "s1"); ("model_id", PStr "gpt-5-mini");
                    ("document_ids", PList [PStr "doc1"]);
                    ("created_at", PStr "2025-01-15T10:30:00") ]%string
                  "s1" "gpt-5-mini" ["doc1"%string] t0 t1
                  eq_refl eq_refl eq_refl eq_refl eq_refl));
    reflexivity.
Defined.

(** ** SessionStore: creating, changing and removing sessions *)

Lemma new_session_persistable sid mid docs ttl sts created ended now :
  persistable (new_session sid mid docs ttl sts created ended None None now).
Proof. split; [constructor|reflexivity]. Qed.

(** X6: [create_session] registers an active session with no title, no
    messages and no end time under the new id, writes its record to its
    file, and touches no other session, file or run.  Read back, the file
    gives the same session. *)
Theorem create_session_registers_and_persists fresh mid docs now now' svc :
  valid_datetime now = true →
  let session :=
    new_session fresh mid docs None "active" None None None None now in
  ∃ svc' data,
    create_session fresh mid docs now svc = (Ok session, svc')
    ∧ _sessions svc' !! fresh = Some session
    ∧ files svc' !! fresh = Some (FileJson data)
    ∧ from_persist_dict data now' = Ok session
    ∧ (∀ other, other ≠ fresh →
         _sessions svc' !! other = _sessions svc !! other
         ∧ files svc' !! other = files svc !! other)
    ∧ _runs svc' = _runs svc
    ∧ closed svc' = closed svc.
Proof.
  intros Hnow session. unfold create_session. fold session.
  set (svc1 := with_sessions svc (<[fresh:=session]> (_sessions svc))).
  destruct (persist_session_ok session svc1
              (new_session_persistable _ _ _ _ _ _ _ _)) as (data & Hd & ->).
  destruct (record_reloads session now') as (data' & Hd' & Hload).
  { split; [done|]. split; [intros d [=]|constructor]. }
  rewrite Hd in Hd'. injection Hd' as <-.
  exists (with_files svc1 (<[session_id session := FileJson data]> (files svc1))),
    data.
  split; [done|]. cbn.
  split; [by rewrite lookup_insert_eq|].
  split; [by rewrite lookup_insert_eq|].
  split; [exact Hload|].
  split; [|done].
  intros other Hne. by rewrite !lookup_insert_ne.
Qed.

Lemma create_session_registers_and_persists_witness :
  valid_datetime t0 = true
  ∧ ∃ svc', create_session "s1" "gpt-5-mini" ["doc1"%string] t0 empty_service
            = (Ok sample_session, svc')
      ∧ _sessions svc' !! "s1"%string = Some sample_session.
Proof.
  split; [reflexivity|].
  destruct (create_session_registers_and_persists "s1" "gpt-5-mini"
              ["doc1"%string] t0 t1 empty_service eq_refl)
    as (svc' & data & H1 & H2 & _).
  exists svc'. split; [exact H1|exact H2].
Defined.

(** X7: a session that is created and ended before any message leaves no
    trace: the service is again exactly as it was before [create_session]. *)
Theorem create_then_end_leaves_no_trace fresh mid docs now now' svc :
  _sessions svc !! fresh = None →
  files svc !! fresh = None →
  end_session fresh now' (create_session fresh mid docs now svc).2
  = (Ok true, svc).
Proof.
  intros Hs Hf. unfold create_session.
  set (session := new_session fresh mid docs None "active" None None None
                    None now).
  set (svc1 := with_sessions svc (<[fresh:=session]> (_sessions svc))).
  destruct (persist_session_ok session svc1
              (new_session_persistable _ _ _ _ _ _ _ _)) as (data & _ & ->).
  cbn [snd]. unfold end_session. cbn.
  rewrite lookup_insert_eq. cbn.
  unfold _delete_persisted_session, with_files, with_sessions, with_closed.
  cbn. rewrite !delete_insert_id by done. by destruct svc.
Qed.

Lemma create_then_end_leaves_no_trace_witness :
  _sessions one_run_service !! "s9"%string = None
  ∧ files one_run_service !! "s9"%string = None
  ∧ end_session "s9" t1
      (create_session "s9" "gpt-5-mini" [] t0 one_run_service).2
    = (Ok true, one_run_service).
Proof.
  split; [reflexivity|]. split; [reflexivity|].
  apply (create_then_end_leaves_no_trace "s9" "gpt-5-mini" [] t0 t1
           one_run_service); reflexivity.
Defined.

(** X8: [delete_session] removes a registered session and its file whether
    or not it has messages, calls [close()] on an attached worker instance,
    and leaves every run registered, the session's own runs included. *)
Theorem delete_session_removes_session_keeps_runs sid session svc :
  _sessions svc !! sid = Some session →
  (delete_session sid svc).1 = true
  ∧ _sessions (delete_session sid svc).2 !! sid = None
  ∧ files (delete_session sid svc).2 !! sid = None
  ∧ closed (delete_session sid svc).2 = close_instance session (closed svc)
  ∧ _runs (delete_session sid svc).2 = _runs svc
  ∧ (∀ other, other ≠ sid →
       _sessions (delete_session sid svc).2 !! other = _sessions svc !! other
       ∧ files (delete_session sid svc).2 !! other = files svc !! other).
Proof.
  intros Hs. unfold delete_session. rewrite Hs. cbn.
  rewrite !lookup_delete_eq. repeat split; try done.
  all: by rewrite lookup_delete_ne.
Qed.

Lemma delete_session_removes_session_keeps_runs_witness :
  _sessions talked_service !! "s1"%string = Some talked_session
  ∧ _sessions (delete_session "s1" talked_service).2 !! "s1"%string = None
  ∧ closed (delete_session "s1" talked_service).2 = [7%nat].
Proof.
  pose proof (delete_session_removes_session_keeps_runs "s1" talked_session
                talked_service eq_refl) as (_ & H1 & _ & H2 & _).
  split; [reflexivity|]. split; [exact H1|exact H2].
Defined.

(** X9: every operation addressed to a session id that is not registered
    reports it ([False], or nothing for [save_session]) and leaves the
    service unchanged: no file is written, no run touched. *)
Theorem unknown_session_id_changes_nothing sid now title mid svc :
  _sessions svc !! sid = None →
  end_session sid now svc = (Ok false, svc)
  ∧ delete_session sid svc = (false, svc)
  ∧ update_session_title sid title svc = (Ok false, svc)
  ∧ update_session_model sid mid svc = (Ok false, svc)
  ∧ save_session sid svc = (Ok tt, svc)
  ∧ get_session svc sid = None.
Proof.
  intros H.
  unfold end_session, delete_session, update_session_title,
    update_session_model, save_session, get_session.
  by rewrite H.
Qed.

Lemma unknown_session_id_changes_nothing_witness :
  _sessions talked_service !! "nope"%string = None
  ∧ end_session "nope" t1 talked_service = (Ok false, talked_service).
Proof.
  split; [reflexivity|].
  exact (proj1 (unknown_session_id_changes_nothing "nope" t1 "t" "m"
                  talked_service eq_refl)).
Defined.

(** X10: [update_session_model] stores the new model, calls [close()] on the
    attached worker instance and detaches it, keeps title, status and
    messages, and writes the updated record to the session's file. *)
Theorem update_session_model_resets_worker sid mid session svc :
  _sessions svc !! sid = Some session →
  persistable session →
  ∃ svc' session' data,
    update_session_model sid mid svc = (Ok true, svc')
    ∧ _sessions svc' !! sid = Some session'
    ∧ model_id session' = mid
    ∧ rlm_instance session' = None
    ∧ messages session' = messages session
    ∧ title session' = title session
    ∧ status session' = status session
    ∧ closed svc' = close_instance session (closed svc)
    ∧ files svc' !! session_id session = Some (FileJson data)
    ∧ dict_get "model_id" data = Some (PStr mid).
Proof.
  intros Hs Hp. unfold update_session_model. rewrite Hs.
  pose (session' := set_rlm_instance (set_model_id session mid) None).
  assert (Hsame : match rlm_instance (set_model_id session mid) with
                  | Some _ => set_rlm_instance (set_model_id session mid) None
                  | None => set_model_id session mid
                  end = session').
  { subst session'. destruct session as [? ? ? ? ? ? ? ? ? [h|]]; done. }
  cbv zeta. rewrite Hsame.
  assert (Hp' : persistable session') by (destruct Hp; by split).
  set (svc1 := with_sessions _ _).
  destruct (persist_session_ok session' svc1 Hp') as (data & Hd & ->).
  exists (with_files svc1 (<[session_id session' := FileJson data]> (files svc1))),
    session', data.
  split; [done|]. cbn. rewrite !lookup_insert_eq.
  repeat split; try done.
  unfold to_persist_dict in Hd.
  destruct (mapM persist_message (messages session')); [|done].
  cbn in Hd. by injection Hd as <-.
Qed.

Lemma update_session_model_resets_worker_witness :
  _sessions talked_service !! "s1"%string = Some talked_session
  ∧ persistable talked_session
  ∧ ∃ svc', update_session_model "s1" "gpt-5-nano-2025-08-07" talked_service
            = (Ok true, svc')
      ∧ closed svc' = [7%nat].
Proof.
  assert (Hp : persistable talked_session).
  { split; [|reflexivity]. repeat constructor. eexists. split; reflexivity. }
  split; [reflexivity|]. split; [exact Hp|].
  destruct (update_session_model_resets_worker "s1" "gpt-5-nano-2025-08-07"
              talked_session talked_service eq_refl Hp)
    as (svc' & s' & data & H1 & _ & _ & _ & _ & _ & _ & H2 & _).
  exists svc'. split; [exact H1|exact H2].
Defined.

(** X11: a title set with [update_session_title] is kept: no later
    [add_message], whatever its role, replaces it, also when the title is
    the empty string and no message had been sent yet. *)
Theorem updated_title_is_never_replaced sid new_title session svc :
  _sessions svc !! sid = Some session →
  persistable session →
  ∃ svc' session',
    update_session_title sid new_title svc = (Ok true, svc')
    ∧ _sessions svc' !! sid = Some session'
    ∧ title session' = Some new_title
    ∧ messages session' = messages session
    ∧ (∀ role content run_id now,
         title (add_message session' role content run_id now).1
         = Some new_title).
Proof.
  intros Hs Hp. unfold update_session_title. rewrite Hs.
  set (session' := set_title session (Some new_title)).
  assert (Hp' : persistable session') by (destruct Hp; by split).
  set (svc1 := with_sessions _ _).
  destruct (persist_session_ok session' svc1 Hp') as (data & Hd & ->).
  eexists _, session'. split; [done|].
  split; [cbn; by rewrite lookup_insert_eq|].
  split; [done|]. split; [done|].
  intros role content run_id now.
  by rewrite (add_message_title session' role content run_id now).
Qed.

Lemma updated_title_is_never_replaced_witness :
  _sessions one_session_service !! "s1"%string = Some sample_session
  ∧ persistable sample_session
  ∧ ∃ svc' session',
      update_session_title "s1" "" one_session_service = (Ok true, svc')
      ∧ _sessions svc' !! "s1"%string = Some session'
      ∧ title (add_message session' "user" "hello" None t1).1
        = Some ""%string.
Proof.
  assert (Hp : persistable sample_session) by (split; [constructor|reflexivity]).
  split; [reflexivity|]. split; [exact Hp|].
  destruct (updated_title_is_never_replaced "s1" "" sample_session
              one_session_service eq_refl Hp)
    as (svc' & s' & H1 & H2 & _ & _ & H3).
  exists svc', s'. split; [exact H1|]. split; [exact H2|apply H3].
Defined.

(** X12: an ended session is never made active again.  Whatever
    [end_session], [update_session_title] or [update_session_model] leave
    registered under the id of a session with status ["ended"] still has
    status ["ended"]. *)
Theorem ended_session_stays_ended sid session now text svc :
  _sessions svc !! sid = Some session →
  status session = "ended"%string →
  (∀ s', _sessions (end_session sid now svc).2 !! sid = Some s' →
     status s' = "ended"%string)
  ∧ (∀ s', _sessions (update_session_title sid text svc).2 !! sid = Some s' →
       status s' = "ended"%string)
  ∧ (∀ s', _sessions (update_session_model sid text svc).2 !! sid = Some s' →
       status s' = "ended"%string).
Proof.
  intros Hs Hst.
  assert (Hfiles : ∀ s st, _sessions (_persist_session s st).2 = _sessions st).
  { intros s st. unfold _persist_session.
    destruct (to_persist_dict s); [destruct (json_ok _)|]; done. }
  unfold end_session, update_session_title, update_session_model.
  rewrite Hs. split; [|split]; intros s'.
  - destruct (length (messages _) =? 0)%nat eqn:Hlen.
    + cbn. by rewrite lookup_delete_eq.
    + match goal with
      | |- context [_persist_session ?s ?st] =>
          pose proof (Hfiles s st) as Hf;
          destruct (_persist_session s st) as [r st']
      end.
      cbn in *. rewrite Hf. cbn. rewrite lookup_insert_eq. by intros [= <-].
  - match goal with
    | |- context [_persist_session ?s ?st] =>
        pose proof (Hfiles s st) as Hf;
        destruct (_persist_session s st) as [r st']
    end.
    cbn in *. rewrite Hf. cbn. rewrite lookup_insert_eq. by intros [= <-].
  - match goal with
    | |- context [_persist_session ?s ?st] =>
        pose proof (Hfiles s st) as Hf;
        destruct (_persist_session s st) as [r st']
    end.
    cbn in *. rewrite Hf. cbn. rewrite lookup_insert_eq. intros [= <-].
    by destruct (rlm_instance session).
Qed.

Lemma ended_session_stays_ended_witness :
  _sessions talked_service !! "s1"%string = Some talked_session
  ∧ (status <$> _sessions
       (end_session "s1" t1 (end_session "s1" t0 talked_service).2).2
       !! "s1"%string) = Some "ended"%string.
Proof.
  split; [reflexivity|].
  assert (H1 : ∃ s, _sessions (end_session "s1" t0 talked_service).2
                      !! "s1"%string = Some s ∧ status s = "ended"%string).
  { eexists. split; reflexivity. }
  destruct H1 as (s & Hs & Hst).
  pose proof (ended_session_stays_ended "s1" s t1 ""
                (end_session "s1" t0 talked_service).2 Hs Hst) as (H & _).
  destruct (_sessions (end_session "s1" t1
                         (end_session "s1" t0 talked_service).2).2
              !! "s1"%string) as [s'|] eqn:E; [|exfalso; vm_compute in E; discriminate].
  cbn. f_equal. by apply H.
Defined.

(** ** SessionStore: listing *)

Lemma lex_leb_total a b :
  length a = length b → lex_leb a b = false → lex_leb b a = true.
Proof.
  revert b. induction a as [|x a IH]; intros [|y b] Hlen; cbn; try done.
  intros H. injection Hlen as Hlen.
  destruct (Z.ltb_spec x y), (Z.eqb_spec x y), (Z.ltb_spec y x),
    (Z.eqb_spec y x); cbn in *; try done; try lia.
  by apply IH.
Qed.

Lemma dt_leb_total a b : dt_leb a b = false → dt_leb b a = true.
Proof. apply lex_leb_total. reflexivity. Qed.

Lemma insert_newest_first_perm s l : insert_newest_first s l ≡ₚ s :: l.
Proof.
  induction l as [|y l IH]; cbn [insert_newest_first]; [reflexivity|].
  destruct (dt_leb (created_at y) (created_at s)); [reflexivity|].
  rewrite IH. apply Permutation_swap.
Qed.

Lemma insert_newest_first_sorted s l :
  Sorted (λ a b, dt_leb (created_at b) (created_at a) = true) l →
  Sorted (λ a b, dt_leb (created_at b) (created_at a) = true)
    (insert_newest_first s l).
Proof.
  induction 1 as [|y l Hl IH Hhd]; cbn [insert_newest_first];
    [by repeat constructor|].
  destruct (dt_leb (created_at y) (created_at s)) eqn:E.
  - by repeat constructor.
  - constructor; [done|].
    destruct Hhd as [|z l Hz]; cbn [insert_newest_first].
    + constructor. by apply dt_leb_total.
    + destruct (dt_leb (created_at z) (created_at s));
        constructor; [by apply dt_leb_total|done].
Qed.

Lemma sort_newest_first_spec l :
  Sorted (λ a b, dt_leb (created_at b) (created_at a) = true)
    (sort_newest_first l)
  ∧ sort_newest_first l ≡ₚ l.
Proof.
  induction l as [|s l [IH1 IH2]]; cbn [sort_newest_first foldr];
    [split; [constructor|reflexivity]|].
  fold (sort_newest_first l).
  split; [by apply insert_newest_first_sorted|].
  by rewrite insert_newest_first_perm, IH2.
Qed.

Lemma sorted_newest_first l :
  Sorted (λ a b, dt_leb (created_at b) (created_at a) = true) l →
  newest_first l.
Proof.
  induction 1 as [|x l Hl IH Hhd]; intros i a b Ha Hb; [done|].
  destruct i as [|i]; cbn in *.
  - injection Ha as <-. destruct Hhd as [|y l Hy]; [done|].
    cbn in Hb. by injection Hb as <-.
  - by apply (IH i).
Qed.

(** X13: [list_sessions] returns the sessions newest first: each listed
    session was created no earlier than the one after it.  Without a status
    filter (or with an empty one) it lists every registered session exactly
    once; with a filter it lists exactly the sessions of that status. *)
Theorem list_sessions_newest_first values status :
  newest_first (list_sessions values status)
  ∧ (status = None ∨ status = Some ""%string →
     list_sessions values status ≡ₚ values)
  ∧ (∀ wanted, status = Some wanted → wanted ≠ ""%string →
     list_sessions values status
     ≡ₚ List.filter (λ s, String.eqb (Session.status s) wanted) values
     ∧ (∀ s, s ∈ list_sessions values status
             ↔ s ∈ values ∧ Session.status s = wanted)).
Proof.
  unfold list_sessions. split; [|split].
  - apply sorted_newest_first, sort_newest_first_spec.
  - intros [->| ->]; apply sort_newest_first_spec.
  - intros wanted -> Hne.
    assert (str_truthy wanted = true) as ->.
    { unfold str_truthy. by destruct (String.eqb_spec wanted ""). }
    pose proof (proj2 (sort_newest_first_spec
      (List.filter (λ s, String.eqb (Session.status s) wanted) values)))
      as Hperm.
    split; [exact Hperm|].
    intros s. rewrite Hperm, !list_elem_of_In, filter_In.
    by rewrite String.eqb_eq.
Qed.

Lemma list_sessions_newest_first_witness :
  list_sessions [sample_session; talked_session] (Some "active"%string)
  ≡ₚ List.filter (λ s, String.eqb (Session.status s) "active")
       [sample_session; talked_session].
Proof.
  exact (proj1 (proj2 (proj2 (list_sessions_newest_first
                                [sample_session; talked_session]
                                (Some "active"%string)))
                 "active"%string eq_refl ltac:(discriminate))).
Defined.

(** ** Provider credentials *)

(** X14: settings that pass [validate_api_key] for Anthropic always give
    [get_anthropic_config] a usable key: the proxy's token together with
    the proxy URL when both are set, otherwise the direct key, which is
    then neither empty nor the placeholder. *)
Theorem validated_anthropic_settings_have_a_key self provider :
  provider ≠ "openai"%string →
  validate_api_key self provider = true →
  ∃ key, dict_get "api_key" (get_anthropic_config self) = Some (PStr key)
    ∧ key ≠ ""%string
    ∧ (dict_get "base_url" (get_anthropic_config self) = None →
       key = anthropic_api_key self ∧ key ≠ "your-api-key-here"%string)
    ∧ (∀ url, dict_get "base_url" (get_anthropic_config self) = Some url →
       anthropic_auth_token self = Some key
       ∧ (PStr <$> anthropic_base_url self) = Some url).
Proof.
  intros Hp. unfold validate_api_key, get_anthropic_config.
  destruct (String.eqb_spec provider "openai") as [|_]; [done|].
  assert (Htruthy : ∀ s, str_truthy s = true → s ≠ ""%string).
  { intros s. unfold str_truthy. by destruct (String.eqb_spec s ""). }
  destruct (anthropic_base_url self) as [url|],
    (anthropic_auth_token self) as [token|]; cbn;
    try destruct (str_truthy url) eqn:Hu;
    try destruct (str_truthy token) eqn:Ht; cbn;
    rewrite ?orb_false_r, ?andb_true_iff, ?negb_true_iff;
    try (intros [Hk Hph]; exists (anthropic_api_key self);
         split; [done|]; split; [by apply Htruthy|];
         split; [intros _; split; [done|];
                 by destruct (String.eqb_spec (anthropic_api_key self)
                                "your-api-key-here")
                |by intros ? [=]]).
  intros _. exists token. split; [done|]. split; [by apply Htruthy|].
  split; [by intros [=]|]. by intros ? [= <-].
Qed.

Lemma validated_anthropic_settings_have_a_key_witness :
  validate_api_key proxy_settings "anthropic" = true
  ∧ dict_get "api_key" (get_anthropic_config proxy_settings)
    = Some (PStr "sk-virtual").
Proof.
  split; [reflexivity|].
  destruct (validated_anthropic_settings_have_a_key proxy_settings
              "anthropic" ltac:(discriminate) eq_refl)
    as (key & Hk & _ & _ & Hurl).
  destruct (Hurl (PStr "http://localhost:4000") eq_refl) as [Htok _].
  injection Htok as <-. exact Hk.
Defined.

(** ** RunRegistry and the worker thread *)

Lemma emit_all_run events : ∀ svc rid run,
  _runs svc !! rid = Some run →
  _runs (emit_all rid events svc) !! rid
  = Some (fold_left add_event events run).
Proof.
  induction events as [|e events IH]; intros svc rid run H; cbn; [done|].
  apply IH. by apply emit_event_lookup.
Qed.

Lemma fold_add_event_fields events : ∀ run,
  completed (fold_left add_event events run) = completed run
  ∧ result (fold_left add_event events run) = result run
  ∧ error (fold_left add_event events run) = error run.
Proof.
  induction events as [|e events IH]; intros run; cbn; [done|].
  by destruct (IH (add_event run e)) as (-> & -> & ->).
Qed.

(** X15: cancelling is final for [cancel_run] itself and silent in the log.
    A second [cancel_run] returns [False] and changes nothing, and
    [cancel_run] never appends an event, so a cancelled run's log holds no
    terminal event for the cancellation. *)
Theorem cancel_run_twice rid svc :
  cancel_run rid (cancel_run rid svc).2 = (false, (cancel_run rid svc).2)
  ∧ (∀ run, _runs svc !! rid = Some run →
       (_events <$> _runs (cancel_run rid svc).2 !! rid)
       = Some (_events run)).
Proof.
  unfold cancel_run, get_run.
  destruct (_runs svc !! rid) as [run|] eqn:Hrun.
  - destruct (completed run) eqn:Hc; cbn.
    + rewrite Hrun, Hc. cbn. split; [done|]. by intros ? [= <-].
    + rewrite (complete_run_lookup _ _ _ _ _ Hrun). cbn.
      split; [done|]. by intros ? [= <-].
  - cbn. rewrite Hrun. split; [done|]. by intros ? [=].
Qed.

(** X16: cancellation does not stop the log.  Events the worker emits after
    [cancel_run] are still appended, in order, while the run stays
    completed with the error ["Cancelled by user"] and no result. *)
Theorem events_after_cancel_are_logged rid svc run events :
  _runs svc !! rid = Some run →
  completed run = false →
  ∃ run',
    _runs (emit_all rid events (cancel_run rid svc).2) !! rid = Some run'
    ∧ _events run' = _events run ++ events
    ∧ completed run' = true
    ∧ error run' = Some "Cancelled by user"%string
    ∧ result run' = None.
Proof.
  intros Hrun Hc. unfold cancel_run, get_run. rewrite Hrun, Hc. cbn.
  pose proof (complete_run_lookup svc rid run None
                (Some "Cancelled by user"%string) Hrun) as Hlk.
  eexists. split; [by apply emit_all_run|].
  split; [by rewrite events_fold_add_event|].
  by destruct (fold_add_event_fields events
                 (mark_completed run None (Some "Cancelled by user"%string)))
    as (-> & -> & ->).
Qed.

Lemma events_after_cancel_are_logged_witness :
  _runs one_run_service !! "r1"%string = Some (new_run "r1" "s1" "hello" t0)
  ∧ ∃ run',
      _runs (emit_all "r1" [final_event] (cancel_run "r1" one_run_service).2)
        !! "r1"%string = Some run'
      ∧ _events run' = [final_event]
      ∧ error run' = Some "Cancelled by user"%string.
Proof.
  split; [reflexivity|].
  destruct (events_after_cancel_are_logged "r1" one_run_service
              (new_run "r1" "s1" "hello" t0) [final_event] eq_refl eq_refl)
    as (run' & H1 & H2 & _ & H3 & _).
  exists run'. split; [exact H1|]. split; [exact H2|exact H3].
Defined.

Lemma run_grows_refl rid svc : run_grows rid svc svc.
Proof. intros run H. by exists run. Qed.

Lemma run_grows_trans rid a b c :
  run_grows rid a b → run_grows rid b c → run_grows rid a c.
Proof.
  intros Hab Hbc run H. destruct (Hab run H) as (run1 & H1 & P1).
  destruct (Hbc run1 H1) as (run2 & H2 & P2).
  exists run2. split; [done|]. by etransitivity.
Qed.

Lemma run_grows_same_runs rid svc svc' :
  _runs svc' = _runs svc → run_grows rid svc svc'.
Proof. intros E run H. exists run. by rewrite E. Qed.

Lemma run_grows_emit_event rid ev svc : run_grows rid svc (emit_event rid ev svc).
Proof.
  intros run H. exists (add_event run ev).
  split; [by apply emit_event_lookup|]. by apply prefix_app_r.
Qed.

Lemma run_grows_emit_all rid events svc :
  run_grows rid svc (emit_all rid events svc).
Proof.
  intros run H. exists (fold_left add_event events run).
  split; [by apply emit_all_run|].
  rewrite events_fold_add_event. by apply prefix_app_r.
Qed.

Lemma run_grows_complete_run rid res err svc :
  run_grows rid svc (complete_run rid res err svc).
Proof.
  intros run H. exists (mark_completed run res err).
  split; [by apply complete_run_lookup|done].
Qed.

Lemma persist_session_runs s svc :
  _runs (_persist_session s svc).2 = _runs svc
  ∧ _sessions (_persist_session s svc).2 = _sessions svc
  ∧ closed (_persist_session s svc).2 = closed svc.
Proof.
  unfold _persist_session.
  destruct (to_persist_dict s); [destruct (json_ok _)|]; done.
Qed.

Lemma save_session_runs sid svc :
  _runs (save_session sid svc).2 = _runs svc
  ∧ _sessions (save_session sid svc).2 = _sessions svc
  ∧ closed (save_session sid svc).2 = closed svc.
Proof.
  unfold save_session. destruct (_sessions svc !! sid); [|done].
  apply persist_session_runs.
Qed.

Lemma store_session_runs s svc : _runs (store_session s svc) = _runs svc.
Proof. unfold store_session. by destruct (_sessions svc !! session_id s). Qed.

(** Peels the service operations off the final state, outermost first. *)
Ltac run_grows_step :=
  first
    [ apply run_grows_refl
    | eapply run_grows_trans; [|apply run_grows_emit_event]
    | eapply run_grows_trans; [|apply run_grows_complete_run]
    | eapply run_grows_trans;
        [|apply run_grows_same_runs; apply store_session_runs]
    | eapply run_grows_trans;
        [|apply run_grows_same_runs; apply (proj1 (save_session_runs _ _))]
    | eapply run_grows_trans; [|apply run_grows_emit_all] ].

(** The thread body never unregisters the run and only appends to its
    log. *)
Lemma execute_inference_run_grows env session rid message svc :
  run_grows rid svc (_execute_inference env session rid message svc).2.
Proof.
  unfold _execute_inference.
  destruct (negb (validate_api_key _ _)).
  { destruct (String.eqb _ "openai"); apply run_grows_refl. }
  cbv zeta.
  destruct (match rlm_instance session with
            | Some h => Ok h
            | None => new_instance env
            end) as [h|e]; [|cbn [snd]; repeat run_grows_step].
  destruct (conversation_history _) as [history|e];
    [|cbn [snd]; repeat run_grows_step].
  destruct (completion env) as [res|e]; [|cbn [snd]; repeat run_grows_step].
  match goal with
  | |- context [save_session ?sid ?st] =>
      destruct (save_session sid st) as [[u|e] svc3] eqn:Hsave;
      apply (f_equal snd) in Hsave; cbn [snd] in Hsave; subst svc3
  end; cbn [snd]; repeat run_grows_step.
Qed.

(** X17: a failure of the thread body is never lost.  For a session whose
    message contents are strings, whatever exception [_execute_inference]
    raises for a registered run (a missing key, a message without role or
    content met while the conversation history is built, a failing worker,
    a failing write), [run_thread] keeps every event logged so far, appends
    one terminal [error] event carrying the exception text as the log's
    last event, completes the run with that text as error and no result,
    and removes the thread from [_active_threads]. *)
Theorem thread_failure_is_recorded env session rid message rlm svc run e svc1 :
  text_contents session →
  _runs svc !! rid = Some run →
  _execute_inference env session rid message svc = (Raise e, svc1) →
  ∃ run',
    _runs (run_thread env session rid message (rlm, svc)).2 !! rid = Some run'
    ∧ completed run' = true
    ∧ error run' = Some (exn_str e)
    ∧ result run' = None
    ∧ _events run `prefix_of` _events run'
    ∧ last (_events run') = Some (thread_error_event env session rid e)
    ∧ is_terminal (thread_error_event env session rid e) = true
    ∧ _active_threads (run_thread env session rid message (rlm, svc)).1
        !! rid = None.
Proof.
  intros _ Hrun Hexec.
  pose proof (execute_inference_run_grows env session rid message svc run Hrun)
    as (run1 & Hrun1 & Hpre).
  unfold run_thread. rewrite Hexec in *. cbn [snd fst] in *.
  fold (thread_error_event env session rid e).
  exists (mark_completed (add_event run1 (thread_error_event env session rid e))
            None (Some (exn_str e))).
  split.
  { apply complete_run_lookup. by apply emit_event_lookup. }
  cbn. repeat split.
  - etransitivity; [exact Hpre|]. by apply prefix_app_r.
  - by rewrite last_snoc.
  - by rewrite lookup_delete_eq.
Qed.

Lemma thread_failure_is_recorded_witness :
  text_contents roleless_session
  ∧ _runs ready_service !! "r1"%string = Some (new_run "r1" "s1" "hello" t0)
  ∧ ∃ svc1,
      _execute_inference working_env roleless_session "r1" "hello"
        ready_service
      = (Raise (KeyError "role"), svc1)
      ∧ ∃ run',
          _runs (run_thread working_env roleless_session "r1" "hello"
                   (idle, ready_service)).2 !! "r1"%string = Some run'
          ∧ error run' = Some "'role'"%string
          ∧ length (_events run') = 2%nat.
Proof.
  assert (Ht : text_contents roleless_session).
  { repeat constructor. intros v [= <-]. by eexists. }
  split; [exact Ht|]. split; [reflexivity|].
  eexists. split; [reflexivity|].
  destruct (thread_failure_is_recorded working_env roleless_session "r1"
              "hello" idle ready_service (new_run "r1" "s1" "hello" t0)
              (KeyError "role") _ Ht eq_refl eq_refl)
    as (run' & H1 & _ & H2 & _).
  exists run'. split; [exact H1|]. split; [exact H2|].
  assert (Hrun : _runs (run_thread working_env roleless_session "r1" "hello"
                          (idle, ready_service)).2 !! "r1"%string
                 = Some (mark_completed
                           (add_event
                              (add_event (new_run "r1" "s1" "hello" t0)
                                 (init_event_of working_env roleless_session
                                    "r1"))
                              (thread_error_event working_env
                                 roleless_session "r1" (KeyError "role")))
                           None (Some "'role'"%string)))
    by reflexivity.
  rewrite Hrun in H1. by injection H1 as <-.
Defined.

Lemma emit_event_eq rid ev svc run :
  _runs svc !! rid = Some run →
  emit_event rid ev svc
  = with_runs svc (<[rid := add_event run ev]> (_runs svc)).
Proof. intros H. unfold emit_event. by rewrite H. Qed.

Lemma emit_all_eq events : ∀ rid svc run,
  _runs svc !! rid = Some run →
  emit_all rid events svc
  = with_runs svc (<[rid := fold_left add_event events run]> (_runs svc)).
Proof.
  unfold emit_all.
  induction events as [|e events IH]; intros rid svc run H; cbn [fold_left].
  - rewrite insert_id by done. by destruct svc.
  - rewrite (IH rid _ (add_event run e)) by (by apply emit_event_lookup).
    rewrite (emit_event_eq _ _ _ _ H). unfold with_runs. cbn.
    by rewrite insert_insert_eq.
Qed.

Lemma complete_run_eq rid res err svc run :
  _runs svc !! rid = Some run →
  complete_run rid res err svc
  = with_runs svc (<[rid := mark_completed run res err]> (_runs svc)).
Proof. intros H. unfold complete_run. by rewrite H. Qed.

Lemma store_session_eq s svc old :
  _sessions svc !! session_id s = Some old →
  store_session s svc
  = with_sessions svc (<[session_id s := s]> (_sessions svc)).
Proof. intros H. unfold store_session. by rewrite H. Qed.

Lemma save_session_eq s svc :
  _sessions svc !! session_id s = Some s →
  persistable s →
  ∃ data, to_persist_dict s = Ok data
    ∧ save_session (session_id s) svc
      = (Ok tt, with_files svc (<[session_id s := FileJson data]> (files svc))).
Proof.
  intros H Hp. unfold save_session. rewrite H.
  by apply persist_session_ok.
Qed.

Lemma json_ok_dict_set k v d :
  json_ok v = true → json_ok (PDict d) = true →
  json_ok (PDict (dict_set k v d)) = true.
Proof.
  intros Hv.
  change (forallb (λ kv, json_ok (snd kv)) d = true
          → forallb (λ kv, json_ok (snd kv)) (dict_set k v d) = true).
  induction d as [|[k' v'] d IH]; cbn [dict_set forallb snd].
  - intros _. by rewrite Hv.
  - intros [Hv' Hd]%andb_true_iff.
    destruct (String.eqb k k'); cbn [forallb snd].
    + by rewrite Hv, Hd.
    + by rewrite Hv', IH.
Qed.

Lemma add_message_persistable self role content run_id now :
  persistable self → persistable (add_message self role content run_id now).1.
Proof.
  intros (Hp & Hj).
  destruct (message_of_add_message self role content run_id now)
    as (message & -> & _ & _ & _ & _ & Hpm & Hjm).
  cbn [fst].
  assert (Forall message_persistable (messages self ++ [message])).
  { apply Forall_app. split; [done|]. constructor; [by eexists|done]. }
  destruct (title self); [|destruct (String.eqb role "user")]; by split.
Qed.

Lemma add_message_session_id self role content run_id now :
  session_id (add_message self role content run_id now).1 = session_id self.
Proof.
  unfold add_message. cbn.
  destruct (title self); [done|]. by destruct (String.eqb role "user").
Qed.

Lemma conversation_history_ok msgs :
  Forall (λ msg, ∃ role content,
            dict_get "role" msg = Some role
            ∧ dict_get "content" msg = Some (PStr content)) msgs →
  ∃ history, conversation_history msgs = Ok history.
Proof.
  induction 1 as [|msg msgs (role & content & Hr & Hc) _ (later & Hl)].
  - by exists ""%string.
  - cbn [conversation_history]. unfold history_entry, dict_index.
    rewrite Hr, Hc, Hl. by eexists.
Qed.

(** X18: what a successful run leaves behind.  With a valid key, a
    registered session whose messages have a role and a text, a registered
    run, and a worker that returns, [run_thread]
    completes the run with the response as result and no error; the log
    holds, after what it held, the [session_start] event, the worker's
    events and the [usage_summary] event; the session gains the user and
    the assistant message (the latter tagged with the run id) and keeps the
    worker instance; its record is written to its file; and the events
    archived under the run id are the log followed by the usage summary
    once more, so the archive holds that event twice. *)
Theorem successful_run_is_recorded env session rid message rlm svc run h res :
  validate_api_key (settings env) (get_model_provider (model_id session))
  = true →
  _sessions svc !! session_id session = Some session →
  persistable session →
  Forall (λ msg, ∃ role content,
            dict_get "role" msg = Some role
            ∧ dict_get "content" msg = Some (PStr content))
    (messages session) →
  _runs svc !! rid = Some run →
  Forall (λ ev, json_ok (PDict ev) = true) (_events run ++ worker_events env) →
  match rlm_instance session with
  | Some h' => h' = h
  | None => new_instance env = Ok h
  end →
  completion env = Ok res →
  let finished := run_thread env session rid message (rlm, svc) in
  let usage := usage_event_of env session rid res in
  let log :=
    _events run ++ [init_event_of env session rid] ++ worker_events env
    ++ [usage] in
  let asked :=
    (add_message (set_rlm_instance session (Some h)) "user" message None
       (now_user env)).1 in
  let answered :=
    (add_message asked "assistant" (response res) (Some rid)
       (now_assistant env)).1 in
  let archived := add_progress_events answered rid (log ++ [usage]) in
  ∃ run' data,
    _runs finished.2 !! rid = Some run'
    ∧ completed run' = true
    ∧ result run' = Some (response res)
    ∧ error run' = None
    ∧ _events run' = log
    ∧ _sessions finished.2 !! session_id session = Some archived
    ∧ to_persist_dict archived = Ok data
    ∧ files finished.2 !! session_id session = Some (FileJson data)
    ∧ _active_threads finished.1 !! rid = None.
Proof.
  intros Hv Hs Hp Hh Hr Hj Hinst Hc finished usage log asked answered
    archived.
  destruct (conversation_history_ok _ Hh) as [history Hhist].
  subst finished. unfold run_thread, _execute_inference.
  rewrite Hv, Hc. cbn [negb]. cbv zeta.
  fold (init_event_of env session rid). fold (usage_event_of env session rid res).
  fold usage.
  assert (match rlm_instance session with
          | Some h0 => Ok h0
          | None => new_instance env
          end = Ok h) as ->.
  { destruct (rlm_instance session); by subst. }
  (* the conversation history is built *)
  change (messages (set_rlm_instance session (Some h)))
    with (messages session).
  rewrite Hhist.
  (* the session_start event *)
  rewrite (emit_event_eq _ _ _ _ Hr).
  set (svc1 := with_runs svc _).
  (* the worker instance is attached *)
  rewrite (store_session_eq (set_rlm_instance session (Some h)) svc1 session)
    by exact Hs.
  set (svc2 := with_sessions svc1 _).
  (* the worker's events *)
  change (fold_left _ (worker_events env) svc2)
    with (emit_all rid (worker_events env) svc2).
  rewrite (emit_all_eq _ rid svc2 (add_event run (init_event_of env session rid)))
    by (cbn; apply lookup_insert_eq).
  set (run2 := fold_left add_event (worker_events env) _).
  set (svc3 := with_runs svc2 _).
  (* the result *)
  rewrite (complete_run_eq rid _ _ svc3 run2) by (cbn; apply lookup_insert_eq).
  set (run3 := mark_completed run2 _ _).
  set (svc4 := with_runs svc3 _).
  (* the two messages *)
  fold asked. fold answered.
  assert (Hid : session_id answered = session_id session).
  { subst answered asked. by rewrite !add_message_session_id. }
  rewrite (store_session_eq answered svc4 (set_rlm_instance session (Some h)))
    by (rewrite Hid; cbn; apply lookup_insert_eq).
  set (svc5 := with_sessions svc4 _).
  assert (Hpa : persistable answered).
  { subst answered asked. do 2 apply add_message_persistable.
    destruct Hp; by split. }
  destruct (save_session_eq answered svc5) as (data1 & _ & Hsave1);
    [cbn; apply lookup_insert_eq|exact Hpa|].
  rewrite Hsave1. cbv beta iota.
  set (svc6 := with_files svc5 _).
  (* the usage summary *)
  rewrite !Hid.
  fold (usage_event_of env session rid res). fold usage.
  rewrite (emit_event_eq rid usage svc6 run3)
    by (cbn [svc6 svc5 svc4 with_files with_sessions with_runs _runs];
        apply lookup_insert_eq).
  set (run4 := add_event run3 usage).
  set (svc7 := with_runs svc6 _).
  assert (Hlog : _events run4 = log).
  { subst run4 run3 run2 log. cbn. rewrite events_fold_add_event. cbn.
    by rewrite <- !app_assoc. }
  assert (_runs svc7 !! rid = Some run4) as ->
    by (cbn [svc7 with_runs _runs]; apply lookup_insert_eq).
  assert (get_events run4 0 = log) as -> by (by rewrite <- Hlog).
  fold archived.
  assert (Hid' : session_id archived = session_id session) by exact Hid.
  assert (Hlk7 : _sessions svc7 !! session_id archived = Some answered).
  { rewrite Hid', <- Hid.
    cbn [svc7 svc6 svc5 with_files with_sessions with_runs _sessions].
    apply lookup_insert_eq. }
  rewrite (store_session_eq archived svc7 answered Hlk7).
  set (svc8 := with_sessions svc7 _).
  assert (Hpr : persistable archived).
  { destruct Hpa as [Hm Hpe]. split; [exact Hm|].
    subst archived. unfold add_progress_events. cbn -[json_ok].
    assert (Hev : forallb json_ok (map PDict (log ++ [usage])) = true).
    { apply forallb_forall. intros v Hin. apply in_map_iff in Hin
        as (ev & <- & Hin).
      assert (Husage : json_ok (PDict usage) = true).
      { subst usage. unfold usage_event_of. cbn.
        by rewrite json_ok_strs. }
      rewrite Forall_forall in Hj.
      subst log. rewrite <- !list_elem_of_In in *.
      rewrite !elem_of_app, !list_elem_of_singleton in Hin.
      destruct Hin as [[Hin|[->|[Hin| ->]]]| ->]; try done.
      - apply Hj, elem_of_app. by left.
      - apply Hj, elem_of_app. by right. }
    apply json_ok_dict_set; [|exact Hpe].
    change (forallb json_ok (map PDict (log ++ [usage])) = true).
    exact Hev. }
  assert (Hlk8 : _sessions svc8 !! session_id archived = Some archived).
  { cbn [svc8 with_sessions _sessions]. apply lookup_insert_eq. }
  destruct (save_session_eq archived svc8 Hlk8 Hpr) as (data & Hdata & Hsave2).
  rewrite Hsave2.
  exists run4, data. cbn [fst snd].
  split; [cbn; apply lookup_insert_eq|].
  split; [done|]. split; [done|]. split; [done|]. split; [exact Hlog|].
  rewrite <- Hid'.
  split; [cbn [svc8 with_files with_sessions _sessions];
          apply lookup_insert_eq|].
  split; [exact Hdata|].
  split; [cbn [with_files files]; apply lookup_insert_eq|].
  cbn. apply lookup_delete_eq.
Qed.

Lemma successful_run_is_recorded_witness :
  validate_api_key (settings working_env)
    (get_model_provider (model_id talked_session)) = true
  ∧ _sessions second_turn_service !! "s1"%string = Some talked_session
  ∧ length (messages talked_session) = 1%nat
  ∧ _runs second_turn_service !! "r2"%string
    = Some (new_run "r2" "s1" "and then?" t1)
  ∧ ∃ run',
      _runs (run_thread working_env talked_session "r2" "and then?"
               (idle, second_turn_service)).2 !! "r2"%string = Some run'
      ∧ result run' = Some "42"%string
      ∧ length (_events run') = 4%nat.
Proof.
  split; [reflexivity|]. split; [reflexivity|]. split; [reflexivity|].
  split; [reflexivity|].
  destruct (successful_run_is_recorded working_env talked_session "r2"
              "and then?" idle second_turn_service
              (new_run "r2" "s1" "and then?" t1)
              {| handle_id := 7; close_raises := true |} sample_completion)
    as (run' & data & H1 & _ & H2 & _ & H3 & _).
  - reflexivity.
  - reflexivity.
  - split; [|reflexivity]. repeat constructor. eexists. split; reflexivity.
  - repeat constructor. by exists (PStr "user"), "hello"%string.
  - reflexivity.
  - repeat constructor.
  - reflexivity.
  - reflexivity.
  - exists run'. split; [exact H1|]. split; [exact H2|]. by rewrite H3.
Defined.

(** ** Submitting a message *)

(** X19: [submit_message] answers 404 for an unknown session and 400 for a
    message that is empty once stripped, changing nothing in either case.
    Otherwise, whatever the session's status, it registers a new run with
    an empty log, not completed, holding the message as sent (not
    stripped), starts its thread, returns the run's id and leaves sessions
    and files as they are. *)
Theorem submit_message_starts_a_run fresh now sid message rlm svc :
  (get_session svc sid = None →
   submit_message fresh now sid message (rlm, svc)
   = (inl (HTTPException 404 "Session not found"), (rlm, svc)))
  ∧ (∀ session, get_session svc sid = Some session →
     strip message = ""%string →
     submit_message fresh now sid message (rlm, svc)
     = (inl (HTTPException 400 "Message cannot be empty"), (rlm, svc)))
  ∧ (∀ session, get_session svc sid = Some session →
     strip message ≠ ""%string →
     ∃ rlm' svc',
       submit_message fresh now sid message (rlm, svc)
       = (inr fresh, (rlm', svc'))
       ∧ _runs svc' !! fresh = Some (new_run fresh sid message now)
       ∧ (thread_message <$> _active_threads rlm' !! fresh) = Some message
       ∧ (thread_session_id <$> _active_threads rlm' !! fresh)
         = Some (session_id session)
       ∧ _sessions svc' = _sessions svc
       ∧ files svc' = files svc
       ∧ (∀ other, other ≠ fresh → _runs svc' !! other = _runs svc !! other)).
Proof.
  unfold submit_message. split; [|split].
  - by intros ->.
  - intros session -> Hempty. by rewrite Hempty.
  - intros session -> Hne.
    assert (negb (str_truthy (strip message)) = false) as ->.
    { unfold str_truthy. by destruct (String.eqb_spec (strip message) ""). }
    cbn. eexists _, _. split; [reflexivity|]. cbn.
    rewrite !lookup_insert_eq. repeat split.
    intros other Hother. by rewrite lookup_insert_ne.
Qed.

Lemma submit_message_starts_a_run_witness :
  get_session talked_service "s1" = Some talked_session
  ∧ strip "  hello " ≠ ""%string
  ∧ ∃ st, submit_message "r7" t1 "s1" "  hello " (idle, talked_service)
          = (inr "r7"%string, st)
      ∧ _runs st.2 !! "r7"%string = Some (new_run "r7" "s1" "  hello " t1).
Proof.
  split; [reflexivity|]. split; [discriminate|].
  destruct (proj2 (proj2 (submit_message_starts_a_run "r7" t1 "s1" "  hello "
                            idle talked_service))
              talked_session eq_refl ltac:(discriminate))
    as (rlm' & svc' & H1 & H2 & _).
  exists (rlm', svc'). split; [exact H1|exact H2].
Defined.

(** ** The event generator *)

Lemma deliver_shape events :
  match deliver events with
  | (out, Ok false) =>
      out = events ∧ Forall (λ ev, is_terminal ev = false) events
      ∧ serialisable events
  | (out, Ok true) =>
      ∃ before e rest,
        events = before ++ e :: rest ∧ out = before ++ [e]
        ∧ Forall (λ ev, is_terminal ev = false) before
        ∧ is_terminal e = true
        ∧ serialisable out
  | (out, Raise _) =>
      ∃ bad rest,
        events = out ++ bad :: rest
        ∧ Forall (λ ev, is_terminal ev = false) out
        ∧ serialisable out
        ∧ json_ok (PDict bad) = false
  end.
Proof.
  induction events as [|ev events IH]; cbn -[json_ok];
    [by repeat split; constructor|].
  destruct (json_ok (PDict ev)) eqn:Hj; cbn [negb].
  2:{ exists ev, events. repeat split; try done; constructor. }
  destruct (is_terminal ev) eqn:E.
  - exists [], ev, events. repeat split; try done; by repeat constructor.
  - destruct (deliver events) as [out [[|]|e]].
    + destruct IH as (before & e & rest & -> & -> & Hb & He & Hs).
      exists (ev :: before), e, rest. repeat split; try done;
        by constructor.
    + destruct IH as (-> & Hall & Hs). repeat split; try done; by constructor.
    + destruct IH as (bad & rest & -> & Hall & Hs & Hbad).
      exists bad, rest. repeat split; try done; by constructor.
Qed.

Lemma stream_loop_closes polls clock fuel : ∀ rc li p,
  ∃ pre closing,
    stream_loop polls clock fuel rc li p = pre ++ [closing]
    ∧ Forall is_event_or_heartbeat pre
    ∧ is_closing closing
    ∧ (∀ now, closing = WTimeout now → now = clock (rc + fuel)%nat)
    ∧ (∀ i e, pre !! i = Some (WEvent e) → is_terminal e = true →
         S i = length pre ∧ ∃ now, closing = WDone now)
    ∧ (∀ i e, pre !! i = Some (WEvent e) → json_ok (PDict e) = true)
    ∧ (∀ e, closing = WRaise e →
         ∃ n ev, (rc ≤ n < rc + fuel)%nat ∧ ev ∈ log_at polls n
                 ∧ json_ok (PDict ev) = false).
Proof.
  induction fuel as [|fuel IH]; intros rc li p.
  - exists [], (WTimeout (clock rc)). cbn. rewrite Nat.add_0_r.
    repeat split; try done. by intros ? [= <-].
  - cbn [stream_loop].
    pose proof (deliver_shape
                  (get_events (at_read (polls rc)) (Z.of_nat li))) as Hd.
    assert (Hev : ∀ l, Forall is_event_or_heartbeat (map WEvent l)).
    { intros l. apply Forall_forall.
      intros w [ev [-> _]]%list_elem_of_fmap. done. }
    assert (Hjs : ∀ l, serialisable l →
              ∀ i e, map WEvent l !! i = Some (WEvent e) →
                     json_ok (PDict e) = true).
    { intros l Hl i e Hi. rewrite list_lookup_fmap in Hi.
      destruct (l !! i) as [x|] eqn:Hx; [|done].
      cbn in Hi. injection Hi as ->.
      unfold serialisable in Hl. rewrite Forall_lookup in Hl. by apply (Hl i). }
    assert (Hnt : ∀ l, Forall (λ ev, is_terminal ev = false) l →
              ∀ i e, map WEvent l !! i = Some (WEvent e) →
                     is_terminal e = true → False).
    { intros l Hl i e Hi He. rewrite list_lookup_fmap in Hi.
      destruct (l !! i) as [x|] eqn:Hx; [|done].
      cbn in Hi. injection Hi as ->.
      rewrite Forall_lookup in Hl. specialize (Hl _ _ Hx). congruence. }
    destruct (deliver _) as [out [[|]|exn]].
    + (* a terminal event was yielded *)
      destruct Hd as (before & e & rest & _ & -> & Hb & He & Hs).
      exists (map WEvent (before ++ [e])), (WDone (clock rc)).
      split; [done|]. split; [apply Hev|].
      split; [done|]. split; [by intros ? [=]|].
      split; [|split; [by apply Hjs|by intros ? [=]]].
      intros i e' Hi He'. split; [|by eexists].
      rewrite list_lookup_fmap in Hi.
      destruct ((before ++ [e]) !! i) as [x|] eqn:Hx; [|done].
      cbn in Hi. injection Hi as ->.
      rewrite length_fmap, length_app. cbn.
      destruct (decide (i < length before)%nat) as [Hlt|Hge].
      * rewrite lookup_app_l in Hx by done.
        rewrite Forall_lookup in Hb. specialize (Hb _ _ Hx). congruence.
      * apply lookup_lt_Some in Hx. rewrite length_app in Hx. cbn in Hx. lia.
    + (* the loop ran through *)
      destruct Hd as (-> & Hall & Hs).
      set (events := get_events (at_read (polls rc)) (Z.of_nat li)) in *.
      destruct (completed (at_check (polls rc))
                && (get_event_count (at_check (polls rc))
                    =? li + length events)%nat).
      * exists (map WEvent events), (WDone (clock rc)).
        split; [done|]. split; [apply Hev|].
        split; [done|]. split; [by intros ? [=]|].
        split; [|split; [by apply Hjs|by intros ? [=]]].
        intros i e' Hi He'. by destruct (Hnt _ Hall _ _ Hi He').
      * set (beat := if (0 <? length events)%nat
                     then ([], 0%nat)
                     else if (heartbeat_interval <=? S p)%nat
                          then ([WHeartbeat (clock rc)], 0%nat)
                          else ([], S p)).
        destruct beat as [hb p'] eqn:Hbeat.
        destruct (IH (S rc) (li + length events)%nat p')
          as (pre & closing & -> & Hpre & Hclosing & Htime & Hterm & Hjson
              & Hraise).
        assert (Hhb : Forall is_event_or_heartbeat hb
                      ∧ ∀ i e, hb !! i = Some (WEvent e) → False).
        { subst beat. repeat case_match; simplify_eq; split;
            repeat constructor; intros [|i] e; done. }
        destruct Hhb as [Hhb1 Hhb2].
        exists (map WEvent events ++ hb ++ pre), closing.
        split; [by rewrite <- !app_assoc|]. split.
        { repeat (apply Forall_app; split); try done; apply Hev. }
        split; [done|]. split.
        { intros now Hnow. rewrite (Htime now Hnow). f_equal. lia. }
        split; [|split].
        { intros i e' Hi He'.
          rewrite !length_app, length_fmap.
          apply lookup_app_Some in Hi as [Hi|[Hge Hi]].
          { by destruct (Hnt _ Hall _ _ Hi He'). }
          rewrite length_fmap in Hge, Hi.
          apply lookup_app_Some in Hi as [Hi|[Hge' Hi]];
            [by destruct (Hhb2 _ _ Hi)|].
          destruct (Hterm _ _ Hi He') as [Hlast Hdone].
          split; [lia|done]. }
        { intros i e' Hi.
          apply lookup_app_Some in Hi as [Hi|[Hge Hi]]; [by apply (Hjs events Hs i)|].
          apply lookup_app_Some in Hi as [Hi|[Hge' Hi]];
            [by destruct (Hhb2 _ _ Hi)|].
          by apply (Hjson _ _ Hi). }
        { intros e Hr. destruct (Hraise e Hr) as (n & ev & Hn & Hin & Hbad).
          exists n, ev. split; [lia|done]. }
    + (* [json.dumps] raised *)
      destruct Hd as (bad & rest & Hevents & Hall & Hs & Hbad).
      exists (map WEvent out), (WRaise exn).
      split; [done|]. split; [apply Hev|].
      split; [done|]. split; [by intros ? [=]|].
      split; [|split; [by apply Hjs|]].
      * intros i e' Hi He'. by destruct (Hnt _ Hall _ _ Hi He').
      * intros e _. exists rc, bad. split; [lia|]. split; [|done].
        unfold get_events in Hevents. rewrite slice_from_nat in Hevents.
        assert (Hin : bad ∈ drop li (_events (at_read (polls rc)))).
        { rewrite Hevents. apply elem_of_app. right. by left. }
        exact (subseteq_drop li _ _ Hin).
Qed.

(** X20: every stream ends, and ends once.  Whatever the run does,
    [event_generator] yields log events, each one accepted by
    [json.dumps], and heartbeats, and then ends in exactly one of three
    ways: with [done], with the timeout error stamped at poll 6000, or with
    the [TypeError] of [json.dumps], the last only when a log it read holds
    an event that [json.dumps] rejects.  A terminal event, if yielded, is
    the item right before the closing [done]. *)
Theorem event_generator_closes_once polls clock :
  ∃ pre closing,
    event_generator polls clock = pre ++ [closing]
    ∧ Forall is_event_or_heartbeat pre
    ∧ is_closing closing
    ∧ (∀ now, closing = WTimeout now → now = clock max_retries)
    ∧ (∀ i e, pre !! i = Some (WEvent e) → is_terminal e = true →
         S i = length pre ∧ ∃ now, closing = WDone now)
    ∧ (∀ i e, pre !! i = Some (WEvent e) → json_ok (PDict e) = true)
    ∧ (∀ e, closing = WRaise e →
         ∃ n ev, (n < max_retries)%nat ∧ ev ∈ log_at polls n
                 ∧ json_ok (PDict ev) = false)
    ∧ ((∀ n, (n < max_retries)%nat → serialisable (log_at polls n)) →
       ∃ now, closing = WDone now ∨ closing = WTimeout now).
Proof.
  destruct (stream_loop_closes polls clock max_retries 0 0 0)
    as (pre & closing & Hgen & Hpre & Hclosing & Htime & Hterm & Hjson
        & Hraise).
  exists pre, closing. split; [exact Hgen|]. split; [exact Hpre|].
  split; [exact Hclosing|]. split; [exact Htime|]. split; [exact Hterm|].
  split; [exact Hjson|]. split.
  - intros e He. destruct (Hraise e He) as (n & ev & Hn & Hin & Hbad).
    exists n, ev. split; [lia|done].
  - intros Hall. destruct closing as [| now | | now | e]; try done;
      [by exists now; left|by exists now; right|].
    destruct (Hraise e eq_refl) as (n & ev & Hn & Hin & Hbad).
    specialize (Hall n ltac:(lia)). unfold serialisable in Hall.
    rewrite Forall_forall in Hall. specialize (Hall ev Hin). congruence.
Qed.

Section StreamCases.

Variable polls : nat → Poll.
Variable clock : nat → datetime.

Local Abbreviation log := (log_at polls).

(** One iteration that reads only non-terminal events and does not see the
    run completed and drained. *)
Lemma stream_loop_quiet_step fuel rc li p :
  Forall (λ ev, is_terminal ev = false) (log rc) →
  serialisable (log rc) →
  drained_and_completed polls rc = false →
  (li ≤ length (log rc))%nat →
  ∃ hb p',
    stream_loop polls clock (S fuel) rc li p
    = map WEvent (drop li (log rc)) ++ hb
      ++ stream_loop polls clock fuel (S rc) (length (log rc)) p'
    ∧ Forall is_progress hb ∧ delivered hb = [].
Proof.
  intros Hq Hs Hn Hli. cbn [stream_loop].
  unfold get_events. rewrite slice_from_nat. fold (log rc).
  rewrite (deliver_all (drop li (log rc)))
    by (by apply Forall_drop).
  assert (Hcur : (li + length (drop li (log rc)) = length (log rc))%nat)
    by (rewrite length_drop; lia).
  rewrite Hcur. unfold drained_and_completed in Hn. rewrite Hn.
  set (beat := if (0 <? length (drop li (log rc)))%nat
               then ([], 0%nat)
               else if (heartbeat_interval <=? S p)%nat
                    then ([WHeartbeat (clock rc)], 0%nat)
                    else ([], S p)).
  destruct beat as [hb p'] eqn:Hbeat.
  exists hb, p'. split; [done|].
  subst beat. repeat case_match; simplify_eq; repeat constructor.
Qed.

(** The iteration that sees the run completed with its log read to the
    end. *)
Lemma stream_loop_done_now fuel rc li p :
  Forall (λ ev, is_terminal ev = false) (log rc) →
  serialisable (log rc) →
  drained_and_completed polls rc = true →
  (li ≤ length (log rc))%nat →
  stream_loop polls clock (S fuel) rc li p
  = map WEvent (drop li (log rc)) ++ [WDone (clock rc)].
Proof.
  intros Hq Hs Hn Hli. cbn [stream_loop].
  unfold get_events. rewrite slice_from_nat. fold (log rc).
  rewrite (deliver_all (drop li (log rc)))
    by (by apply Forall_drop).
  assert (Hcur : (li + length (drop li (log rc)) = length (log rc))%nat)
    by (rewrite length_drop; lia).
  rewrite Hcur. unfold drained_and_completed in Hn. by rewrite Hn.
Qed.

Lemma stream_loop_quiet (k : nat) :
  ∀ (fuel rc li p : nat),
  (∀ n, (rc ≤ n < rc + k)%nat → log n `prefix_of` log (S n)) →
  (∀ n, (rc ≤ n ≤ rc + k)%nat → Forall (λ ev, is_terminal ev = false) (log n)) →
  (∀ n, (rc ≤ n ≤ rc + k)%nat → serialisable (log n)) →
  (∀ n, (rc ≤ n ≤ rc + k)%nat → drained_and_completed polls n = false) →
  (li ≤ length (log rc))%nat →
  ∃ pre p',
    stream_loop polls clock (S k + fuel) rc li p
    = pre ++ stream_loop polls clock fuel (S (rc + k))
               (length (log (rc + k))) p'
    ∧ Forall is_progress pre
    ∧ delivered pre = drop li (log (rc + k)).
Proof.
  induction k as [|k IH]; intros fuel rc li p Hpre Hquiet Hser Hnot Hli.
  - rewrite Nat.add_0_r. cbn [Nat.add].
    destruct (stream_loop_quiet_step fuel rc li p)
      as (hb & p' & -> & Hhb & Hdel);
      [apply Hquiet; lia|apply Hser; lia|apply Hnot; lia|done|].
    exists (map WEvent (drop li (log rc)) ++ hb), p'.
    split; [by rewrite <- app_assoc|]. split.
    + apply Forall_app. split; [|done].
      apply events_are_progress, Forall_drop, Hquiet. lia.
    + by rewrite delivered_app, delivered_events, Hdel, app_nil_r.
  - replace (S (S k) + fuel)%nat with (S (S k + fuel)) by lia.
    destruct (stream_loop_quiet_step (S k + fuel) rc li p)
      as (hb & p' & -> & Hhb & Hdel);
      [apply Hquiet; lia|apply Hser; lia|apply Hnot; lia|done|].
    destruct (IH fuel (S rc) (length (log rc)) p')
      as (pre & p'' & -> & Hprog & Hdel').
    + intros n Hn. apply Hpre. lia.
    + intros n Hn. apply Hquiet. lia.
    + intros n Hn. apply Hser. lia.
    + intros n Hn. apply Hnot. lia.
    + apply prefix_length, Hpre. lia.
    + replace (S rc + k)%nat with (rc + S k)%nat in * by lia.
      exists (map WEvent (drop li (log rc)) ++ hb ++ pre), p''.
      split; [by rewrite <- !app_assoc|]. split.
      * apply Forall_app. split;
          [apply events_are_progress, Forall_drop, Hquiet; lia|].
        by apply Forall_app.
      * rewrite !delivered_app, delivered_events, Hdel, Hdel'. cbn [app].
        destruct (log_prefix_trans polls rc (S k)) as [suffix Hsuf];
          [intros n Hn; apply Hpre; lia|].
        rewrite Hsuf. rewrite drop_app_length. by rewrite drop_app_le.
Qed.

Lemma stream_loop_done_at (t : nat) (fuel : nat) :
  (∀ n, (n < t)%nat → log n `prefix_of` log (S n)) →
  (∀ n, (n ≤ t)%nat → Forall (λ ev, is_terminal ev = false) (log n)) →
  (∀ n, (n ≤ t)%nat → serialisable (log n)) →
  (∀ n, (n < t)%nat → drained_and_completed polls n = false) →
  drained_and_completed polls t = true →
  ∃ pre,
    stream_loop polls clock (t + S fuel) 0 0 0 = pre ++ [WDone (clock t)]
    ∧ Forall is_progress pre
    ∧ delivered pre = log t.
Proof.
  intros Hpre Hquiet Hser Hnot Hdone.
  destruct t as [|k].
  - cbn [Nat.add].
    rewrite stream_loop_done_now;
      [|by apply Hquiet|by apply Hser|done|lia].
    exists (map WEvent (log 0%nat)). rewrite drop_0.
    split; [done|]. split; [by apply events_are_progress, Hquiet|].
    apply delivered_events.
  - destruct (stream_loop_quiet k (S fuel) 0 0 0)
      as (pre & p' & Hloop & Hprog & Hdel).
    + intros n Hn. apply Hpre. lia.
    + intros n Hn. apply Hquiet. lia.
    + intros n Hn. apply Hser. lia.
    + intros n Hn. apply Hnot. lia.
    + lia.
    + cbn [Nat.add] in Hloop, Hdel. rewrite drop_0 in Hdel.
      cbn [Nat.add]. rewrite Hloop.
      rewrite stream_loop_done_now;
        [|by apply Hquiet|by apply Hser|done|apply prefix_length, Hpre; lia].
      exists (pre ++ map WEvent (drop (length (log k)) (log (S k)))).
      split; [by rewrite <- app_assoc|]. split.
      * apply Forall_app. split; [done|].
        apply events_are_progress, Forall_drop, Hquiet. lia.
      * rewrite delivered_app, delivered_events, Hdel.
        destruct (Hpre k ltac:(lia)) as [suffix Hsuf].
        by rewrite Hsuf, drop_app_length.
Qed.

Lemma stream_loop_times_out (k : nat) :
  (∀ n, (n < k)%nat → log n `prefix_of` log (S n)) →
  (∀ n, (n ≤ k)%nat → Forall (λ ev, is_terminal ev = false) (log n)) →
  (∀ n, (n ≤ k)%nat → serialisable (log n)) →
  (∀ n, (n ≤ k)%nat → drained_and_completed polls n = false) →
  ∃ pre,
    stream_loop polls clock (S k) 0 0 0 = pre ++ [WTimeout (clock (S k))]
    ∧ Forall is_progress pre
    ∧ delivered pre = log k.
Proof.
  intros Hpre Hquiet Hser Hnot.
  destruct (stream_loop_quiet k 0 0 0 0) as (pre & p' & Hloop & Hprog & Hdel).
  - intros n Hn. apply Hpre. lia.
  - intros n Hn. apply Hquiet. lia.
  - intros n Hn. apply Hser. lia.
  - intros n Hn. apply Hnot. lia.
  - lia.
  - rewrite Nat.add_0_r in Hloop. cbn [Nat.add stream_loop] in Hloop, Hdel.
    rewrite drop_0 in Hdel. by exists pre.
Qed.

End StreamCases.

(** X21: a run that ends without a terminal event still gets its stream
    closed.  If at iteration [t], below the limit, the generator finds the
    run completed with nothing left to read, and the log (which only grew)
    showed no terminal event up to then and only events that [json.dumps]
    accepts, the stream is exactly the whole log in order, heartbeats in
    between, and then [done] stamped at [t]: no event is lost or
    repeated. *)
Theorem stream_closes_when_run_completes_silently polls clock (t : nat) :
  (t < max_retries)%nat →
  (∀ n, (n < t)%nat → log_at polls n `prefix_of` log_at polls (S n)) →
  (∀ n, (n ≤ t)%nat →
        Forall (λ ev, is_terminal ev = false) (log_at polls n)) →
  (∀ n, (n ≤ t)%nat → serialisable (log_at polls n)) →
  (∀ n, (n < t)%nat → drained_and_completed polls n = false) →
  drained_and_completed polls t = true →
  ∃ pre,
    event_generator polls clock = pre ++ [WDone (clock t)]
    ∧ Forall is_progress pre
    ∧ delivered pre = log_at polls t.
Proof.
  intros Ht Hpre Hquiet Hser Hnot Hdone. unfold event_generator.
  assert (Hfuel : ∃ fuel, max_retries = (t + S fuel)%nat)
    by (exists (max_retries - S t)%nat; lia).
  destruct Hfuel as [fuel ->].
  by apply stream_loop_done_at.
Qed.

Lemma stream_closes_when_run_completes_silently_witness :
  drained_and_completed sample_polls 1 = true
  ∧ log_at sample_polls 0 = [sample_late]
  ∧ ∃ pre,
      event_generator (λ n, match n with
                            | O => sample_polls 0
                            | S _ => {| at_read := cancelled_late;
                                        at_check := cancelled_late |}
                            end) sample_clock
      = pre ++ [WDone (sample_clock 1%nat)]
      ∧ delivered pre = [sample_late].
Proof.
  split; [reflexivity|]. split; [reflexivity|].
  destruct (stream_closes_when_run_completes_silently
              (λ n, match n with
                    | O => sample_polls 0
                    | S _ => {| at_read := cancelled_late;
                                at_check := cancelled_late |}
                    end) sample_clock 1) as (pre & H1 & _ & H2).
  - unfold max_retries. lia.
  - intros n Hn. assert (n = 0)%nat as -> by lia. by exists [].
  - intros n Hn. destruct n as [|[|n]]; [| |lia]; repeat constructor.
  - intros n Hn. destruct n as [|[|n]]; [| |lia]; repeat constructor.
  - intros n Hn. assert (n = 0)%nat as -> by lia. reflexivity.
  - reflexivity.
  - by exists pre.
Defined.

(** X22: the timeout.  If through all 6000 iterations the log only grows,
    shows no terminal event, holds only events that [json.dumps] accepts
    and is never found completed and drained, the stream delivers the log
    as read at the last iteration, in order, and ends with the timeout
    error stamped after the last iteration. *)
Theorem stream_times_out_after_max_retries polls clock :
  (∀ n, (S n < max_retries)%nat →
        log_at polls n `prefix_of` log_at polls (S n)) →
  (∀ n, (n < max_retries)%nat →
        Forall (λ ev, is_terminal ev = false) (log_at polls n)) →
  (∀ n, (n < max_retries)%nat → serialisable (log_at polls n)) →
  (∀ n, (n < max_retries)%nat → drained_and_completed polls n = false) →
  ∃ pre,
    event_generator polls clock = pre ++ [WTimeout (clock max_retries)]
    ∧ Forall is_progress pre
    ∧ delivered pre = log_at polls (Nat.pred max_retries).
Proof.
  intros Hpre Hquiet Hser Hnot. unfold event_generator.
  pose (k := Nat.pred max_retries).
  assert (Hk : max_retries = S k) by reflexivity.
  fold k. clearbody k.
  destruct (stream_loop_times_out polls clock k) as (pre & H1 & H2 & H3).
  - intros n Hn. apply Hpre. rewrite Hk. lia.
  - intros n Hn. apply Hquiet. rewrite Hk. lia.
  - intros n Hn. apply Hser. rewrite Hk. lia.
  - intros n Hn. apply Hnot. rewrite Hk. lia.
  - exists pre. rewrite Hk. done.
Qed.

Lemma stream_times_out_after_max_retries_witness :
  (∀ n, (n < max_retries)%nat → drained_and_completed busy_polls n = false)
  ∧ log_at busy_polls 0 = [sample_late]
  ∧ ∃ pre,
      event_generator busy_polls sample_clock
      = pre ++ [WTimeout (sample_clock max_retries)]
      ∧ delivered pre = [sample_late].
Proof.
  split; [by intros n _|]. split; [reflexivity|].
  destruct (stream_times_out_after_max_retries busy_polls sample_clock)
    as (pre & H1 & _ & H2).
  - by intros n _.
  - intros n _. repeat constructor.
  - intros n _. repeat constructor.
  - by intros n _.
  - by exists pre.
Defined.

(** The generator reads of a run only its log and, at the check, whether it
    is completed with a given number of events. *)
Lemma stream_loop_ext polls polls' clock :
  (∀ n, _events (at_read (polls n)) = _events (at_read (polls' n))) →
  (∀ n x,
     completed (at_check (polls n))
     && (get_event_count (at_check (polls n)) =? x)%nat
     = completed (at_check (polls' n))
       && (get_event_count (at_check (polls' n)) =? x)%nat) →
  ∀ fuel rc li p,
    stream_loop polls clock fuel rc li p
    = stream_loop polls' clock fuel rc li p.
Proof.
  intros Hlog Hcheck. induction fuel as [|fuel IH]; intros rc li p; [done|].
  cbn [stream_loop]. unfold get_events. rewrite (Hlog rc).
  destruct (deliver _) as [out [[|]|e]]; [done| |done].
  rewrite Hcheck. destruct (_ && _); [done|].
  destruct (if (0 <? _)%nat then _ else _) as [hb p'].
  by rewrite IH.
Qed.

(** X23: the heartbeat cadence.  While the run has logged nothing and is
    not completed, the stream is silent for 29 iterations and sends a
    heartbeat on every 30th: 200 heartbeats over the 6000 iterations, then
    the timeout error, and nothing else. *)
Theorem idle_stream_sends_heartbeats polls clock :
  idle_polls polls →
  event_generator polls clock
  = map (λ k, WHeartbeat (clock (heartbeat_interval * S k - 1)%nat))
      (seq 0 200)
    ++ [WTimeout (clock max_retries)].
Proof.
  intros Hidle. unfold event_generator.
  rewrite (stream_loop_ext polls waiting_polls clock).
  - vm_compute. reflexivity.
  - intros n. by destruct (Hidle n) as [-> _].
  - intros n x. by destruct (Hidle n) as [_ ->].
Qed.

Lemma idle_stream_sends_heartbeats_witness :
  idle_polls waiting_polls
  ∧ length (event_generator waiting_polls sample_clock) = 201%nat.
Proof.
  assert (H : idle_polls waiting_polls) by (by intros n).
  split; [exact H|].
  rewrite (idle_stream_sends_heartbeats waiting_polls sample_clock H).
  rewrite length_app, length_map, length_seq. reflexivity.
Defined.

(** ** The run endpoints *)

(** X24: only the stream checks whose run it is.  For a run registered
    under another session, [stream_progress] answers 400, but the
    [cancel_run] endpoint, called through any registered session, cancels
    the run, and [get_run_progress], called through a session that has no
    archive for it, returns the run's live log. *)
Theorem only_the_stream_checks_run_ownership sid rid svc session run :
  get_session svc sid = Some session →
  get_run svc rid = Some run →
  run_session_id run ≠ sid →
  ChatRoutes.stream_progress sid rid svc
  = inl (HTTPException 400 "Run does not belong to this session")
  ∧ (truthy (get_progress_events session rid) = false →
     ChatRoutes.get_run_progress sid rid svc
     = inr (PList (map PDict (_events run))))
  ∧ (completed run = false →
     ∃ svc',
       ChatRoutes.cancel_run sid rid svc
       = (inr (true, "Cancellation requested"%string), svc')
       ∧ _runs svc' !! rid
         = Some (mark_completed run None (Some "Cancelled by user"%string))).
Proof.
  intros Hs Hr Hne.
  unfold ChatRoutes.stream_progress, ChatRoutes.get_run_progress,
    ChatRoutes.cancel_run, cancel_run.
  rewrite Hs, Hr. split; [|split].
  - destruct (String.eqb_spec (run_session_id run) sid); [done|done].
  - intros ->. cbn [negb]. unfold get_events.
    by rewrite (slice_from_nat 0), drop_0.
  - intros ->. cbn [negb]. eexists. split; [reflexivity|].
    unfold get_run in Hr. by rewrite (complete_run_lookup _ _ _ _ _ Hr).
Qed.

Lemma only_the_stream_checks_run_ownership_witness :
  get_session
    (create_session "s2" "gpt-5-mini" [] t1 ready_service).2 "s2"
  = Some (new_session "s2" "gpt-5-mini" [] None "active" None None None None t1)
  ∧ ChatRoutes.stream_progress "s2" "r1"
      (create_session "s2" "gpt-5-mini" [] t1 ready_service).2
    = inl (HTTPException 400 "Run does not belong to this session").
Proof.
  split; [reflexivity|].
  apply (only_the_stream_checks_run_ownership "s2" "r1"
           (create_session "s2" "gpt-5-mini" [] t1 ready_service).2
           (new_session "s2" "gpt-5-mini" [] None "active" None None None None t1)
           (new_run "r1" "s1" "hello" t0)).
  - reflexivity.
  - reflexivity.
  - discriminate.
Defined.

(** X25: what [get_run_progress] returns for a registered session.  A
    non-empty archive of the run is returned as stored, whatever the live
    log holds.  With no archive (or an empty one) the live log of a
    registered run is returned, and for a run id that is not registered
    either the answer is still a success, with the empty archive: an
    unknown run id never gives a 404. *)
Theorem get_run_progress_prefers_archive sid rid svc session :
  get_session svc sid = Some session →
  (truthy (get_progress_events session rid) = true →
   ChatRoutes.get_run_progress sid rid svc
   = inr (get_progress_events session rid))
  ∧ (∀ run, truthy (get_progress_events session rid) = false →
     get_run svc rid = Some run →
     ChatRoutes.get_run_progress sid rid svc
     = inr (PList (map PDict (_events run))))
  ∧ (truthy (get_progress_events session rid) = false →
     get_run svc rid = None →
     ChatRoutes.get_run_progress sid rid svc
     = inr (get_progress_events session rid))
  ∧ (dict_get rid (progress_events session) = None →
     get_run svc rid = None →
     ChatRoutes.get_run_progress sid rid svc = inr (PList [])).
Proof.
  intros Hs. unfold ChatRoutes.get_run_progress. rewrite Hs.
  split; [by intros ->|].
  split.
  { intros run -> ->. cbn [negb]. unfold get_events.
    by rewrite (slice_from_nat 0), drop_0. }
  split; [by intros -> ->|].
  intros Hnone ->. unfold get_progress_events. by rewrite Hnone.
Qed.

Lemma get_run_progress_prefers_archive_witness :
  get_session one_session_service "s1" = Some sample_session
  ∧ ChatRoutes.get_run_progress "s1" "no-such-run" one_session_service
    = inr (PList []).
Proof.
  split; [reflexivity|].
  apply (get_run_progress_prefers_archive "s1" "no-such-run"
           one_session_service sample_session eq_refl); reflexivity.
Defined.

(** ** Stored file names *)

Lemma basename_no_slash l : Forall (λ c, c ≠ "/"%char) (Documents.basename l).
Proof.
  induction l as [|c r IH]; cbn; [constructor|].
  destruct (existsb (Ascii.eqb "/"%char) r) eqn:Hex; [done|].
  assert (Hr : Forall (λ c, c ≠ "/"%char) r).
  { apply Forall_forall. intros x Hx ->.
    apply list_elem_of_In in Hx.
    assert (existsb (Ascii.eqb "/"%char) r = true)
      by (apply existsb_exists; exists "/"%char; split; [done|apply Ascii.eqb_refl]).
    congruence. }
  destruct (Ascii.eqb_spec c "/"%char) as [->|Hne]; [done|].
  by constructor.
Qed.

Lemma replace_char_keeps (P : ascii → Prop) old l :
  P "_"%char → Forall P l → Forall P (Documents.replace_char old l).
Proof.
  intros HP. induction 1 as [|c l Hc _ IH]; cbn; constructor; [|done].
  by destruct (Ascii.eqb c old).
Qed.

Lemma replace_char_removes old l :
  old ≠ "_"%char → Forall (λ c, c ≠ old) (Documents.replace_char old l).
Proof.
  intros Hold. induction l as [|c l IH]; cbn; constructor; [|done].
  destruct (Ascii.eqb_spec c old); [congruence|done].
Qed.

Lemma replace_dotdot_keeps (P : ascii → Prop) (n : nat) : ∀ l,
  (length l ≤ n)%nat → P "_"%char → Forall P l →
  Forall P (Documents.replace_dotdot l).
Proof.
  induction n as [|n IH]; intros l Hlen HP Hl.
  - destruct l; [constructor|cbn in Hlen; lia].
  - destruct l as [|c [|d r]]; cbn; [constructor|done|].
    inversion Hl as [|? ? Hc Hl']; subst.
    inversion Hl' as [|? ? Hd Hr]; subst.
    cbn in Hlen.
    destruct (Ascii.eqb c "." && Ascii.eqb d ".").
    + constructor; [done|]. apply IH; [lia|done|done].
    + constructor; [done|]. apply (IH (d :: r)); [cbn; lia|done|done].
Qed.

Lemma replace_dotdot_head c r :
  c ≠ "."%char →
  Documents.replace_dotdot (c :: r) = c :: Documents.replace_dotdot r.
Proof.
  intros Hc. destruct r as [|d r]; cbn; [done|].
  by destruct (Ascii.eqb_spec c "."%char).
Qed.

Lemma replace_dotdot_cons c d r :
  Documents.replace_dotdot (c :: d :: r)
  = if Ascii.eqb c "." && Ascii.eqb d "."
    then "_"%char :: Documents.replace_dotdot r
    else c :: Documents.replace_dotdot (d :: r).
Proof. reflexivity. Qed.

Lemma has_dotdot_cons c l :
  has_dotdot (c :: l)
  = match l with
    | d :: _ => Ascii.eqb c "." && Ascii.eqb d "." || has_dotdot l
    | [] => false
    end.
Proof. reflexivity. Qed.

Lemma replace_dotdot_no_dotdot (n : nat) : ∀ l,
  (length l ≤ n)%nat → has_dotdot (Documents.replace_dotdot l) = false.
Proof.
  induction n as [|n IH]; intros l Hlen.
  - destruct l; [done|cbn in Hlen; lia].
  - destruct l as [|c [|d r]]; [done|done|].
    cbn in Hlen. rewrite replace_dotdot_cons.
    pose proof (IH r ltac:(lia)) as Hr.
    pose proof (IH (d :: r) ltac:(cbn; lia)) as Hdr.
    destruct (Ascii.eqb_spec c "."%char) as [->|Hc];
      [destruct (Ascii.eqb_spec d "."%char) as [->|Hd]|]; cbn [andb].
    + rewrite has_dotdot_cons, Hr.
      by destruct (Documents.replace_dotdot r).
    + rewrite (replace_dotdot_head d r Hd) in *.
      rewrite has_dotdot_cons, Hdr.
      by destruct (Ascii.eqb_spec d "."%char).
    + rewrite has_dotdot_cons, Hdr.
      destruct (Documents.replace_dotdot (d :: r)); [done|].
      by destruct (Ascii.eqb_spec c "."%char).
Qed.

Lemma replace_char_no_dotdot old l :
  old ≠ "."%char →
  has_dotdot l = false → has_dotdot (Documents.replace_char old l) = false.
Proof.
  intros Hold. induction l as [|c [|d r] IH]; [done|done|].
  intros H. cbn [has_dotdot] in H.
  apply orb_false_iff in H as [Hcd Hr].
  specialize (IH Hr).
  change (Documents.replace_char old (c :: d :: r))
    with ((if Ascii.eqb c old then "_"%char else c)
          :: Documents.replace_char old (d :: r)) in *.
  change (Documents.replace_char old (d :: r))
    with ((if Ascii.eqb d old then "_"%char else d)
          :: Documents.replace_char old r) in *.
  cbn [has_dotdot] in *. rewrite IH, orb_false_r.
  destruct (Ascii.eqb_spec c old) as [->|]; [done|].
  destruct (Ascii.eqb_spec d old) as [->|]; [|done].
  by rewrite andb_false_r.
Qed.

(** X26: a sanitised file name is a single path component.  Whatever name
    the client sends, the result of [_sanitize_filename] has no ["/"], no
    backslash, no NUL and no two dots in a row, so it is never [".."], and
    [save_file] stores the upload directly under the upload directory,
    while the record keeps the name as sent. *)
Theorem sanitized_filename_is_one_path_component (name : string) :
  let safe := list_ascii_of_string (Documents._sanitize_filename name) in
  Forall plain_char safe
  ∧ has_dotdot safe = false
  ∧ Documents._sanitize_filename name ≠ ".."%string
  ∧ ∀ doc_id content content_type text now docs,
      let doc := (Documents.save_file doc_id content name content_type text
                    now docs).1 in
      Documents.file_path doc
      = (Documents.upload_dir docs ++ "/" ++ doc_id ++ "_"
         ++ Documents._sanitize_filename name)%string
      ∧ Documents.filename doc = name.
Proof.
  cbv zeta. unfold Documents._sanitize_filename.
  rewrite list_ascii_of_string_of_list_ascii.
  set (base := Documents.basename (list_ascii_of_string name)).
  set (a := Documents.replace_char "/" base).
  set (b := Documents.replace_char "\" a).
  set (c := Documents.replace_dotdot b).
  set (d := Documents.replace_char "000" c).
  assert (Hslash : Forall (λ x, x ≠ "/"%char) d).
  { apply replace_char_keeps; [done|].
    apply (replace_dotdot_keeps _ (length b)); [done|done|].
    apply replace_char_keeps; [done|].
    apply replace_char_keeps; [done|]. apply basename_no_slash. }
  assert (Hback : Forall (λ x, x ≠ "\"%char) d).
  { apply replace_char_keeps; [done|].
    apply (replace_dotdot_keeps _ (length b)); [done|done|].
    by apply replace_char_removes. }
  assert (Hnul : Forall (λ x, x ≠ "000"%char) d)
    by by apply replace_char_removes.
  assert (Hdots : has_dotdot d = false).
  { apply replace_char_no_dotdot; [done|].
    by apply (replace_dotdot_no_dotdot (length b)). }
  split; [|split; [done|split]].
  - apply Forall_forall. intros x Hx.
    rewrite Forall_forall in Hslash, Hback, Hnul.
    split; [by apply Hslash|]. split; [by apply Hback|by apply Hnul].
  - intros Heq. apply (f_equal list_ascii_of_string) in Heq.
    rewrite list_ascii_of_string_of_list_ascii in Heq.
    rewrite Heq in Hdots. done.
  - done.
Qed.

(** ** The session endpoints *)

Lemma models_listed_from svc svc' :
  models_listed svc →
  (∀ sid s, _sessions svc' !! sid = Some s →
     _sessions svc !! sid = Some s ∨ is_valid_model (model_id s) = true) →
  models_listed svc'.
Proof.
  intros H Hfrom sid s Hs. destruct (Hfrom sid s Hs) as [Hold|Hnew]; [|done].
  by apply (H sid).
Qed.

Lemma persist_session_keeps_sessions s svc r svc' :
  _persist_session s svc = (r, svc') → _sessions svc' = _sessions svc.
Proof.
  intros H. pose proof (proj1 (proj2 (persist_session_runs s svc))) as Hs.
  by rewrite H in Hs.
Qed.

(** X27: the session endpoints keep every registered session on a model of
    [AVAILABLE_MODELS].  Creating a session or changing its model with a
    model id that is not listed is answered with 400 and changes nothing,
    and none of the five endpoints registers or leaves a session with an
    unlisted model. *)
Theorem session_endpoints_keep_models_listed svc :
  models_listed svc →
  (∀ fresh now mid dids docs,
     models_listed
       (SessionRoutes.create_session fresh now mid dids docs svc).2)
  ∧ (∀ sid mid,
     models_listed (SessionRoutes.update_session_model sid mid svc).2)
  ∧ (∀ sid title,
     models_listed (SessionRoutes.update_session_title sid title svc).2)
  ∧ (∀ sid now, models_listed (SessionRoutes.end_session sid now svc).2)
  ∧ (∀ sid, models_listed (SessionRoutes.delete_session sid svc).2)
  ∧ (∀ fresh now mid dids docs sid,
     is_valid_model mid = false →
     SessionRoutes.create_session fresh now mid dids docs svc
     = (Ok (inl (HTTPException 400 SessionRoutes.invalid_model_detail)), svc)
     ∧ SessionRoutes.update_session_model sid mid svc
       = (Ok (inl (HTTPException 400 SessionRoutes.invalid_model_detail)),
          svc)).
Proof.
  intros H. split; [|split; [|split; [|split; [|split]]]].
  - intros fresh now mid dids docs. unfold SessionRoutes.create_session.
    destruct (is_valid_model mid) eqn:Hmid; cbn [negb]; [|done].
    destruct (SessionRoutes.first_missing docs dids); [done|].
    unfold create_session.
    destruct (_persist_session _ _) as [r svc'] eqn:Hp. cbn [snd].
    apply persist_session_keeps_sessions in Hp. cbn in Hp.
    apply (models_listed_from svc); [done|]. intros sid s. rewrite Hp.
    destruct (decide (sid = fresh)) as [->|Hne].
    + rewrite lookup_insert_eq. intros [= <-]. by right.
    + rewrite lookup_insert_ne by done. by left.
  - intros sid mid. unfold SessionRoutes.update_session_model.
    destruct (is_valid_model mid) eqn:Hmid; cbn [negb]; [|done].
    unfold update_session_model.
    destruct (_sessions svc !! sid) as [session|] eqn:Hs; [|done].
    destruct (_persist_session _ _) as [r svc'] eqn:Hp. cbn [snd].
    apply persist_session_keeps_sessions in Hp. cbn in Hp.
    apply (models_listed_from svc); [done|]. intros sid' s. rewrite Hp.
    destruct (decide (sid' = sid)) as [->|Hne].
    + rewrite lookup_insert_eq. intros [= <-]. right.
      by destruct session as [? ? ? ? ? ? ? ? ? [h|]].
    + rewrite lookup_insert_ne by done. by left.
  - intros sid title. unfold SessionRoutes.update_session_title,
      update_session_title.
    destruct (_sessions svc !! sid) as [session|] eqn:Hs; [|done].
    destruct (_persist_session _ _) as [r svc'] eqn:Hp. cbn [snd].
    apply persist_session_keeps_sessions in Hp. cbn in Hp.
    apply (models_listed_from svc); [done|]. intros sid' s. rewrite Hp.
    destruct (decide (sid' = sid)) as [->|Hne].
    + rewrite lookup_insert_eq. intros [= <-]. right. exact (H sid session Hs).
    + rewrite lookup_insert_ne by done. by left.
  - intros sid now. unfold SessionRoutes.end_session, end_session.
    destruct (_sessions svc !! sid) as [session|] eqn:Hs; [|done].
    cbv zeta.
    destruct (length (messages _) =? 0)%nat.
    + cbn. apply (models_listed_from svc); [done|]. intros sid' s. cbn.
      intros Hl. left. by apply lookup_delete_Some in Hl as [_ Hl].
    + destruct (_persist_session _ _) as [r svc'] eqn:Hp. cbn [snd].
      apply persist_session_keeps_sessions in Hp. cbn in Hp.
      apply (models_listed_from svc); [done|]. intros sid' s. rewrite Hp.
      destruct (decide (sid' = sid)) as [->|Hne].
      * rewrite lookup_insert_eq. intros [= <-]. right.
        specialize (H sid session Hs).
        by destruct session as [? ? ? ? ? ? ? ? ? [h|]].
      * rewrite lookup_insert_ne by done. by left.
  - intros sid. unfold SessionRoutes.delete_session, delete_session.
    destruct (_sessions svc !! sid) as [session|] eqn:Hs; [|done].
    cbn. apply (models_listed_from svc); [done|]. intros sid' s. cbn.
    intros Hl. left. by apply lookup_delete_Some in Hl as [_ Hl].
  - intros fresh now mid dids docs sid Hmid.
    unfold SessionRoutes.create_session, SessionRoutes.update_session_model.
    by rewrite Hmid.
Qed.

Lemma session_endpoints_keep_models_listed_witness :
  models_listed empty_service
  ∧ models_listed
      (SessionRoutes.create_session "s1" t0 "gpt-5-mini" []
         sample_docs empty_service).2
  ∧ SessionRoutes.create_session "s1" t0 "gpt-4" [] sample_docs empty_service
    = (Ok (inl (HTTPException 400 SessionRoutes.invalid_model_detail)),
       empty_service).
Proof.
  assert (H : models_listed empty_service).
  { intros sid s Hs. cbn in Hs. by rewrite lookup_empty in Hs. }
  split; [exact H|].
  destruct (session_endpoints_keep_models_listed empty_service H)
    as (H1 & _ & _ & _ & _ & H6).
  split; [apply H1|].
  exact (proj1 (H6 "s1"%string t0 "gpt-4"%string [] sample_docs "s1"%string
                  eq_refl)).
Defined.

(** ** The progress emitter *)

(** X28: the events of the logger and the printer keep their base fields.
    Every event that a [WebProgressLogger] or [WebProgressPrinter] method
    hands to [emit] ([log_metadata], [log], [print_metadata],
    [print_iteration_start], [print_iteration], [print_completion],
    [print_subcall], [print_code_execution], [print_summary]; and
    [print_final_answer] emits nothing) carries the method's event type,
    the time of the call and the session and run the object was built with
    (none of the keyword arguments these methods pass replaces a base
    field), and it is accepted by [json.dumps]. *)
Theorem emitter_events_keep_base_fields
    (lg : WebProgressLogger) (pr : WebProgressPrinter) (md : RLMMetadata)
    (now now' : datetime) :
  let by_logger type ev :=
    carries_base_fields (logger_session_id lg) (logger_run_id lg) type now ev
    ∧ json_ok (PDict ev) = true in
  let by_printer type ev :=
    carries_base_fields (printer_session_id pr) (printer_run_id pr) type now
      ev
    ∧ json_ok (PDict ev) = true in
  Forall (by_logger "session_start"%string) (log_metadata lg md now).2
  ∧ (∀ answer time,
       Forall (by_logger "final_answer"%string) (log lg answer now time).2)
  ∧ Forall (by_printer "thinking"%string) (print_metadata pr md now).2
  ∧ (∀ it, Forall (by_printer "iteration_start"%string)
             (print_iteration_start pr it now).2)
  ∧ (∀ it, Forall (by_printer "iteration_start"%string)
             (print_iteration pr it now).2)
  ∧ (∀ response time,
       Forall (by_printer "llm_response"%string)
         (print_completion pr response time now))
  ∧ (∀ model prompt response time,
       Forall (by_printer "subcall_complete"%string)
         (print_subcall pr model prompt response time now))
  ∧ (∀ code out err time n,
       print_code_execution pr code out err time n now now' = []
       ∨ ∃ started finished,
           print_code_execution pr code out err time n now now'
           = [started; finished]
           ∧ by_printer "code_start"%string started
           ∧ carries_base_fields (printer_session_id pr) (printer_run_id pr)
               "code_result" now' finished
           ∧ json_ok (PDict finished) = true)
  ∧ (∀ iterations time usage,
       match print_summary pr iterations time usage now with
       | Ok events => Forall (by_printer "usage_summary"%string) events
       | Raise _ => True
       end)
  ∧ (∀ answer, print_final_answer pr answer = []).
Proof.
  cbv zeta. unfold carries_base_fields.
  split; [|split; [|split; [|split; [|split; [|split; [|split;
    [|split; [|split]]]]]]]].
  - unfold log_metadata. destruct (_metadata_logged lg); [constructor|].
    repeat constructor.
  - intros [answer|] time; unfold log; cbn [snd]; repeat constructor.
  - unfold print_metadata. destruct (enabled pr); cbn [negb snd];
      repeat constructor.
  - intros it. unfold print_iteration_start.
    destruct (enabled pr); cbn [negb snd]; repeat constructor.
  - intros it. unfold print_iteration, print_iteration_start.
    destruct (enabled pr); cbn [negb snd]; repeat constructor.
  - intros response time. unfold print_completion.
    destruct (enabled pr); cbn [negb]; repeat constructor.
  - intros model prompt response time. unfold print_subcall.
    destruct (enabled pr); cbn [negb]; repeat constructor.
  - intros code out err time n. unfold print_code_execution.
    destruct (enabled pr); cbn [negb]; [right|by left].
    eexists _, _. split; [reflexivity|]. repeat split.
  - intros iterations time usage. unfold print_summary.
    destruct (enabled pr); cbn [negb]; [|constructor].
    destruct (sum_usage _ _ _ _) as [[[i o] models]|e];
      cbn -[isoformat json_ok]; [|done].
    constructor; [|constructor].
    split; [by repeat split|].
    cbn -[isoformat]. by rewrite json_ok_strs.
  - done.
Qed.

(** X29: the sub-call preview is the response cut to 500 characters.  An
    enabled printer emits one [subcall_complete] event per sub-call, whose
    [response_preview] is exactly the first 500 characters of the response:
    a prefix of it of length [min 500 (len response)], so all of it when it
    has at most 500 characters and 500 characters otherwise.  The event
    does not carry the prompt preview. *)
Theorem subcall_preview_is_cut_to_500 pr model prompt response time now :
  enabled pr = true →
  ∃ ev preview rest,
    print_subcall pr model prompt response time now = [ev]
    ∧ dict_get "response_preview" ev = Some (PStr preview)
    ∧ (String.length preview ≤ 500)%nat
    ∧ response = (preview ++ rest)%string
    ∧ ((String.length response ≤ 500)%nat → preview = response)
    ∧ dict_get "prompt_preview" ev = None
    ∧ String.length preview = Nat.min 500 (String.length response)
    ∧ preview
      = string_of_list_ascii (take 500 (list_ascii_of_string response)).
Proof.
  intros Hen. unfold print_subcall. rewrite Hen. cbn [negb].
  exists (_make_event (printer_session_id pr) (printer_run_id pr)
            "subcall_complete" now
            [ ("iteration", PInt (printer_iteration_count pr));
              ("model", PStr model);
              ("response_preview", PStr (prefix_to 500 response));
              ("time_ms", PInt time) ]%string),
    (prefix_to 500 response),
    (string_of_list_ascii (drop 500 (list_ascii_of_string response))).
  split; [done|]. split; [done|]. split; [apply length_prefix_to|].
  split; [|split; [|split; [done|split; [|done]]]].
  - unfold prefix_to. rewrite <- string_of_list_ascii_app, take_drop.
    by rewrite string_of_list_ascii_of_string.
  - intros Hlen. unfold prefix_to. rewrite take_ge.
    + by rewrite string_of_list_ascii_of_string.
    + rewrite <- length_string_of_list_ascii.
      by rewrite string_of_list_ascii_of_string.
  - unfold prefix_to. rewrite length_string_of_list_ascii, length_take.
    rewrite <- (length_string_of_list_ascii (list_ascii_of_string response)).
    by rewrite string_of_list_ascii_of_string.
Qed.

Lemma subcall_preview_is_cut_to_500_witness :
  enabled (new_printer "s1" "r1" true) = true
  ∧ String.length padded_word = 51%nat
  ∧ ∃ ev preview,
      print_subcall (new_printer "s1" "r1" true) "gpt-5-nano-2025-08-07"
        "what is 6 * 7?" (padded_word ++ padded_word ++ padded_word
                          ++ padded_word ++ padded_word ++ padded_word
                          ++ padded_word ++ padded_word ++ padded_word
                          ++ padded_word) 12 t1 = [ev]
      ∧ dict_get "response_preview" ev = Some (PStr preview)
      ∧ String.length preview = 500%nat.
Proof.
  split; [reflexivity|]. split; [reflexivity|].
  destruct (subcall_preview_is_cut_to_500 (new_printer "s1" "r1" true)
              "gpt-5-nano-2025-08-07" "what is 6 * 7?"
              (padded_word ++ padded_word ++ padded_word
               ++ padded_word ++ padded_word ++ padded_word
               ++ padded_word ++ padded_word ++ padded_word
               ++ padded_word) 12 t1 eq_refl)
    as (ev & preview & rest & H1 & H2 & _ & _ & _ & _ & H3 & _).
  exists ev, preview. split; [exact H1|]. split; [exact H2|].
  rewrite H3. reflexivity.
Defined.

(** ** The conversation history of the prompt *)

(** X30: the history put into the prompt grows by at most 2028 characters
    per message.  For messages that have a role and a string content,
    [conversation_history] is built without error, and its length is at
    most 2028 times the number of messages, however long the stored
    answers are. *)
Theorem conversation_history_is_bounded (msgs : list pydict) :
  Forall (λ msg, ∃ role content,
            dict_get "role" msg = Some role
            ∧ dict_get "content" msg = Some (PStr content)) msgs →
  ∃ history,
    conversation_history msgs = Ok history
    ∧ (String.length history ≤ 2028 * length msgs)%nat.
Proof.
  induction 1 as [|msg msgs (role & content & Hr & Hc) _ (later & Hl & Hlen)].
  - by exists ""%string.
  - cbn [conversation_history]. unfold history_entry, dict_index.
    rewrite Hr, Hc, Hl. cbn [mbind fallible_bind as_str].
    eexists. split; [reflexivity|].
    rewrite !string_length_app.
    set (shown := if (2000 <? String.length content)%nat
                  then (prefix_to 2000 content ++ "... [truncated]")%string
                  else content).
    assert (Hshown : (String.length shown ≤ 2015)%nat).
    { subst shown. destruct (Nat.ltb_spec 2000 (String.length content)).
      - rewrite string_length_app.
        pose proof (length_prefix_to 2000 content). cbn [String.length]. lia.
      - lia. }
    set (who := match role with
                | PStr r => if String.eqb r "user" then "User" else "Assistant"
                | _ => "Assistant"
                end%string).
    assert (Hwho : (String.length who ≤ 9)%nat).
    { subst who. destruct role; try (cbn; lia).
      destruct (String.eqb _ _); cbn; lia. }
    cbn [length]. change (String.length newline) with 1%nat.
    change (String.length ": ") with 2%nat. lia.
Qed.

Lemma conversation_history_is_bounded_witness :
  ∃ history,
    conversation_history (messages talked_session) = Ok history
    ∧ (String.length history ≤ 2028)%nat.
Proof.
  destruct (conversation_history_is_bounded (messages talked_session))
    as (history & H1 & H2).
  - repeat constructor. by exists (PStr "user"), "hello"%string.
  - exists history. split; [exact H1|exact H2].
Defined.
